(** * Video trim service: file-system model of [main.py]

  A shallow embedding of [Custom_Projects6/Video_Trim/main.py].  The
  program is a handful of request handlers and one timer job, all of which
  act on the file system through [os], [shutil], [open] and an external
  transcoder.  The embedding keeps that shape: a tree-shaped file system,
  a state-and-exception monad for the Python statements, and one
  definition per source function, with the source's names. *)

From Stdlib Require Import List String Ascii Bool Arith ZArith NArith Lia.
From Stdlib Require Import Floats.PrimFloat.
Import ListNotations.
Local Open Scope list_scope.
Local Open Scope string_scope.


(* ===================================================================== *)
(** * Strings and POSIX paths *)
(* ===================================================================== *)

Module Path.

Definition sep : ascii := "/"%char.

(** [s.split("/")]: never empty, [""] for the empty string. *)
Fixpoint split (s : string) : list string :=
  match s with
  | EmptyString => [EmptyString]
  | String c s' =>
      if Ascii.eqb c sep then EmptyString :: split s'
      else match split s' with
           | h :: t => String c h :: t
           | [] => [String c EmptyString]
           end
  end.

(** [s.startswith("/")] *)
Definition startswith_sep (s : string) : bool :=
  match s with
  | String c _ => Ascii.eqb c sep
  | EmptyString => false
  end.

(** [s.endswith("/")] *)
Fixpoint endswith_sep (s : string) : bool :=
  match s with
  | EmptyString => false
  | String c EmptyString => Ascii.eqb c sep
  | String _ s' => endswith_sep s'
  end.

(** [posixpath.join(a, b)] for two arguments: an absolute [b] discards
    [a]; otherwise one separator is put between them. *)
Definition os_path_join (a b : string) : string :=
  if startswith_sep b then b
  else if (String.eqb a "" || endswith_sep a)%bool then a ++ b
  else a ++ "/" ++ b.

(** [posixpath.basename(p)]: what follows the last separator. *)
Definition basename (p : string) : string := last (split p) "".

(** [p.rstrip("/")] *)
Fixpoint rstrip_sep (p : string) : string :=
  match p with
  | EmptyString => EmptyString
  | String c p' =>
      match rstrip_sep p' with
      | EmptyString => if Ascii.eqb c sep then EmptyString else String c EmptyString
      | r => String c r
      end
  end.

(** [shutil._basename(p)]: the last component, trailing separators aside. *)
Definition shutil_basename (p : string) : string := basename (rstrip_sep p).

(** A string without a separator. *)
Fixpoint no_sep (s : string) : bool :=
  match s with
  | EmptyString => true
  | String c s' => (negb (Ascii.eqb c sep) && no_sep s')%bool
  end.

(** What a directory can hold as an entry name: no separator, and none
    of the three names the kernel reserves. *)
Definition valid_name (s : string) : bool :=
  (no_sep s && negb (String.eqb s "") && negb (String.eqb s ".")
   && negb (String.eqb s ".."))%bool.

End Path.

(* ===================================================================== *)
(** * The file system *)
(* ===================================================================== *)

Module FS.

(** A file-system object.  Directory entries are kept in listing order:
    [os.listdir] returns them in that order and the sweep visits them in
    it.  Symbolic links are not modelled. *)
#[warnings="-register-all"]
Inductive node : Type :=
| File (mtime : float) (data : string)
| Dir (mtime : float) (entries : list (string * node)).

Definition entries_t := list (string * node).

Fixpoint assoc (c : string) (es : entries_t) : option node :=
  match es with
  | [] => None
  | (k, v) :: es' => if String.eqb k c then Some v else assoc c es'
  end.

Definition entry_remove (c : string) (es : entries_t) : entries_t :=
  filter (fun kv => negb (String.eqb (fst kv) c)) es.

(** Replace in place, or append a new entry. *)
Fixpoint entry_put (c : string) (v : node) (es : entries_t) : entries_t :=
  match es with
  | [] => [(c, v)]
  | (k, x) :: es' =>
      if String.eqb k c then (k, v) :: es' else (k, x) :: entry_put c v es'
  end.

Fixpoint entry_map (c : string) (f : node -> node) (es : entries_t)
  : entries_t :=
  match es with
  | [] => []
  | (k, x) :: es' =>
      if String.eqb k c then (k, f x) :: es' else (k, x) :: entry_map c f es'
  end.

(** The object at a canonical path (components from the root). *)
Fixpoint lookup (n : node) (p : list string) : option node :=
  match p with
  | [] => Some n
  | c :: p' =>
      match n with
      | Dir _ es =>
          match assoc c es with
          | Some m => lookup m p'
          | None => None
          end
      | File _ _ => None
      end
  end.

(** Rewrite the entry list of the directory at canonical path [p]. *)
Fixpoint update_dir (n : node) (p : list string)
         (f : entries_t -> entries_t) : node :=
  match n with
  | File _ _ => n
  | Dir t es =>
      match p with
      | [] => Dir t (f es)
      | c :: p' => Dir t (entry_map c (fun m => update_dir m p' f) es)
      end
  end.

Definition set_entries (n : node) (p : list string) (es : entries_t) : node :=
  update_dir n p (fun _ => es).

Definition is_dir_at (r : node) (p : list string) : bool :=
  match lookup r p with
  | Some (Dir _ _) => true
  | _ => false
  end.

(** Path resolution as the kernel does it, one component at a time: the
    path walked so far must be a directory before the next component is
    read; [""] and ["."] stay, [".."] goes to the parent (the root is its
    own parent).  The last component need not exist. *)
Fixpoint walk (r : node) (cur : list string) (cs : list string)
  : option (list string) :=
  match cs with
  | [] => Some cur
  | c :: cs' =>
      if is_dir_at r cur then
        if (String.eqb c "" || String.eqb c ".")%bool then walk r cur cs'
        else if String.eqb c ".." then walk r (removelast cur) cs'
        else walk r (cur ++ [c])%list cs'
      else None
  end.

(** Canonical path of an absolute path string.  Every path the program
    builds is absolute; a relative one is not resolved. *)
Definition resolve (r : node) (path : string) : option (list string) :=
  match Path.split path with
  | EmptyString :: cs => walk r [] cs
  | _ => None
  end.

Definition stat (r : node) (path : string) : option node :=
  match resolve r path with
  | Some p => lookup r p
  | None => None
  end.

Fixpoint unsnoc (l : list string) : option (list string * string) :=
  match l with
  | [] => None
  | x :: l' =>
      match unsnoc l' with
      | Some (p, y) => Some (x :: p, y)
      | None => Some ([], x)
      end
  end.

(** Create or overwrite the regular file [path]; [None] when the parent
    is not a directory or [path] is a directory. *)
Definition create_file (r : node) (path : string) (mtime : float)
           (data : string) : option node :=
  match resolve r path with
  | Some cp =>
      match unsnoc cp with
      | Some (parent, name) =>
          if is_dir_at r parent then
            match lookup r cp with
            | Some (Dir _ _) => None
            | _ => Some (update_dir r parent (entry_put name (File mtime data)))
            end
          else None
      | None => None
      end
  | None => None
  end.

(** Unlink the regular file [path]; [None] when it is missing or is a
    directory. *)
Definition unlink (r : node) (path : string) : option node :=
  match resolve r path with
  | Some cp =>
      match lookup r cp, unsnoc cp with
      | Some (File _ _), Some (parent, name) =>
          Some (update_dir r parent (entry_remove name))
      | _, _ => None
      end
  | None => None
  end.

(** [rename(2)] of a regular file: the new link first, then the old one
    goes.  Renaming a file onto itself does nothing.  Directory sources
    are outside the model (the handler only moves the transcoder's output
    file): they are reported as an error. *)
Definition rename (r : node) (src dst : string) : option node :=
  match resolve r src, resolve r dst with
  | Some sp, Some dp =>
      match lookup r sp, unsnoc sp, unsnoc dp with
      | Some (File m data), Some (sparent, sname), Some (dparent, dname) =>
          if list_eq_dec string_dec sp dp then Some r
          else if is_dir_at r dparent then
            match lookup r dp with
            | Some (Dir _ _) => None
            | _ =>
                Some (update_dir
                        (update_dir r dparent (entry_put dname (File m data)))
                        sparent (entry_remove sname))
            end
          else None
      | _, _, _ => None
      end
  | _, _ => None
  end.

End FS.

(* ===================================================================== *)
(** * Python statements: state, exceptions, the outside world *)
(* ===================================================================== *)

Import FS.

(** The system calls that can be refused.  A refusal stands for whatever
    makes the call raise [OSError] on a path that is otherwise fine (a
    permission, a read-only or full device); which calls are refused on
    which paths is part of the environment [env] below and does not change
    during one call of a handler. *)
Inductive syscall : Type :=
| SysStat | SysUnlink | SysListdir | SysOpen | SysWrite | SysRename.

(** The exceptions the program meets; all are subclasses of [Exception]. *)
Inductive exn : Type :=
| OSError (call : syscall) (path : string)
| RequestException (msg : string)
| HTTPError (status : Z)
| SubprocessError (msg : string)
| ShutilError (msg : string)
| PyException (msg : string)
| HTTPException (status_code : Z) (detail : string).

Definition syscall_name (c : syscall) : string :=
  match c with
  | SysStat => "stat"
  | SysUnlink => "unlink"
  | SysListdir => "listdir"
  | SysOpen => "open"
  | SysWrite => "write"
  | SysRename => "rename"
  end.

(** [str(e)].  The text of the library's own exceptions is abbreviated;
    the text the program builds ([FFmpeg failed: ...]) is exact. *)
Definition str (e : exn) : string :=
  match e with
  | OSError c p => "[Errno] " ++ syscall_name c ++ ": '" ++ p ++ "'"
  | RequestException m => m
  | HTTPError _ => "HTTP Error for url"
  | SubprocessError m => m
  | ShutilError m => m
  | PyException m => m
  | HTTPException _ d => d
  end.

(** [uuid.uuid4()] is a 128-bit number; [str] prints it as 32 lower-case
    hexadecimal digits in groups of 8-4-4-4-12. *)
Definition uuid := N.

Definition hex_alphabet : list ascii :=
  ["0"; "1"; "2"; "3"; "4"; "5"; "6"; "7"; "8"; "9";
   "a"; "b"; "c"; "d"; "e"; "f"]%char.

Definition hexchar (d : N) : ascii := nth (N.to_nat d) hex_alphabet "0"%char.

(** The [k] low hexadecimal digits of [x], most significant first. *)
Fixpoint hex_digits (k : nat) (x : N) : list ascii :=
  match k with
  | O => []
  | S k' => (hex_digits k' (N.div x 16) ++ [hexchar (N.modulo x 16)])%list
  end.

Definition uuid_str (u : uuid) : string :=
  let ds := hex_digits 32 u in
  string_of_list_ascii
    (firstn 8 ds ++ ["-"%char] ++ firstn 4 (skipn 8 ds) ++ ["-"%char]
     ++ firstn 4 (skipn 12 ds) ++ ["-"%char] ++ firstn 4 (skipn 16 ds)
     ++ ["-"%char] ++ skipn 20 ds)%list.

(** [requests.get(url, timeout=120)] *)
Inductive http_result : Type :=
| HttpRaises (e : exn)
| HttpResponse (status : Z) (content : string).

(** The transcoder's command line, [subprocess.run(['ffmpeg', ...])]: the
    fixed flags ([-c:v libx264 -c:a aac -preset ultrafast -y]) are left out,
    the numbers are kept as numbers. *)
Record ffmpeg_cmd : Type := {
  ff_input : string;
  ff_ss : float;
  ff_t : float;
  ff_vf_fade : float * float;
  ff_af_fade : float * float;
  ff_output : string
}.

(** What running the transcoder does: it raises ([TimeoutExpired], or the
    executable is missing) or completes with an exit code and its error
    stream; either way it may have written its output path. *)
Inductive run_result : Type :=
| RunRaises (e : exn) (written : option string)
| RunCompleted (returncode : Z) (stderr : string) (written : option string).

(** Everything outside the process, for the duration of one call: which
    system calls are refused on which path, the clock, the random
    identifier, the network and the transcoder. *)
Record env : Type := {
  faults : syscall -> string -> bool;
  time_time : float;
  uuid4 : uuid;
  requests_get : string -> http_result;
  ffmpeg : ffmpeg_cmd -> run_result
}.

(** What [print] writes. *)
Inductive event : Type :=
| LogDeletedOldVideo (filename : string) (age : float)
| LogCleanupComplete (deleted total : nat)
| LogCleanupError (msg : string)
| LogDownloading (url : string)
| LogDownloaded (nbytes : nat)
| LogTrimming (start_time end_time : float)
| LogSavedTo (path : string)
| LogVideoAvailable (url : string)
| LogError (msg : string).

Record world : Type := {
  root : node;
  stdout : list event
}.

Definition with_root (w : world) (r : node) : world :=
  {| root := r; stdout := stdout w |}.

Inductive result (A : Type) : Type :=
| Ok (a : A)
| Raise (e : exn).
Arguments Ok {A} a.
Arguments Raise {A} e.

Definition M (A : Type) : Type := world -> result A * world.

Definition ret {A} (a : A) : M A := fun w => (Ok a, w).

Definition raise {A} (e : exn) : M A := fun w => (Raise e, w).

Definition bind {A B} (m : M A) (k : A -> M B) : M B :=
  fun w =>
    match m w with
    | (Ok a, w') => k a w'
    | (Raise e, w') => (Raise e, w')
    end.

(** [try: body except Exception as e: handler] *)
Definition try_except {A} (body : M A) (handler : exn -> M A) : M A :=
  fun w =>
    match body w with
    | (Ok a, w') => (Ok a, w')
    | (Raise e, w') => handler e w'
    end.

Declare Scope py_scope.
Delimit Scope py_scope with py.
Notation "x <- m ;; k" := (bind m (fun x => k))
  (at level 61, m at next level, right associativity) : py_scope.
Notation "m ;; k" := (bind m (fun _ => k))
  (at level 61, right associativity) : py_scope.
Local Open Scope py_scope.

(** [for x in xs: s = body(s, x)], with the loop's local variables as [s]. *)
Fixpoint for_in {A S} (xs : list A) (body : S -> A -> M S) (s : S) : M S :=
  match xs with
  | [] => ret s
  | x :: xs' => s' <- body s x ;; for_in xs' body s'
  end.

Definition print (e : event) : M unit :=
  fun w => (Ok tt, {| root := root w; stdout := (stdout w ++ [e])%list |}).

(** [os.path.exists]: a failed [stat] reads as "not there". *)
Definition os_path_exists (E : env) (path : string) : M bool :=
  fun w =>
    (Ok (if faults E SysStat path then false
         else match stat (root w) path with Some _ => true | None => false end),
     w).

Definition os_path_isfile (E : env) (path : string) : M bool :=
  fun w =>
    (Ok (if faults E SysStat path then false
         else match stat (root w) path with
              | Some (File _ _) => true
              | _ => false
              end),
     w).

Definition os_path_isdir (E : env) (path : string) : M bool :=
  fun w =>
    (Ok (if faults E SysStat path then false
         else match stat (root w) path with
              | Some (Dir _ _) => true
              | _ => false
              end),
     w).

Definition os_path_getmtime (E : env) (path : string) : M float :=
  fun w =>
    if faults E SysStat path then (Raise (OSError SysStat path), w)
    else match stat (root w) path with
         | Some (File m _) => (Ok m, w)
         | Some (Dir m _) => (Ok m, w)
         | None => (Raise (OSError SysStat path), w)
         end.

Definition os_listdir (E : env) (path : string) : M (list string) :=
  fun w =>
    if faults E SysListdir path then (Raise (OSError SysListdir path), w)
    else match stat (root w) path with
         | Some (Dir _ es) => (Ok (map fst es), w)
         | _ => (Raise (OSError SysListdir path), w)
         end.

Definition os_remove (E : env) (path : string) : M unit :=
  fun w =>
    if faults E SysUnlink path then (Raise (OSError SysUnlink path), w)
    else match unlink (root w) path with
         | Some r' => (Ok tt, with_root w r')
         | None => (Raise (OSError SysUnlink path), w)
         end.

Definition os_rename (E : env) (src dst : string) : M unit :=
  fun w =>
    if faults E SysRename src then (Raise (OSError SysRename src), w)
    else match rename (root w) src dst with
         | Some r' => (Ok tt, with_root w r')
         | None => (Raise (OSError SysRename src), w)
         end.

(** [with open(path, 'wb') as f: f.write(content)]: opening creates or
    truncates the file, writing fills it; a refused write leaves the empty
    file behind. *)
Definition open_wb_write (E : env) (path : string) (content : string)
  : M unit :=
  fun w =>
    if faults E SysOpen path then (Raise (OSError SysOpen path), w)
    else match create_file (root w) path (time_time E) "" with
         | None => (Raise (OSError SysOpen path), w)
         | Some r1 =>
             if faults E SysWrite path
             then (Raise (OSError SysWrite path), with_root w r1)
             else match create_file r1 path (time_time E) content with
                  | Some r2 => (Ok tt, with_root w r2)
                  | None => (Raise (OSError SysWrite path), with_root w r1)
                  end
         end.

(** [shutil.copy2(src, dst)] of a regular file: contents, then the
    modification time. *)
Definition shutil_copy2 (E : env) (src dst : string) : M unit :=
  fun w =>
    match (if faults E SysOpen src then None else stat (root w) src) with
    | Some (File m data) =>
        if faults E SysOpen dst then (Raise (OSError SysOpen dst), w)
        else match create_file (root w) dst (time_time E) "" with
             | None => (Raise (OSError SysOpen dst), w)
             | Some r1 =>
                 if faults E SysWrite dst
                 then (Raise (OSError SysWrite dst), with_root w r1)
                 else match create_file r1 dst m data with
                      | Some r2 => (Ok tt, with_root w r2)
                      | None => (Raise (OSError SysWrite dst), with_root w r1)
                      end
             end
    | _ => (Raise (OSError SysOpen src), w)
    end.

(** [shutil.move(src, dst)]: into [dst] when that is a directory; by
    [os.rename], and when that raises [OSError] by copy and unlink.  Moving
    a directory ([copytree], [rmtree]) is outside the model, as for
    [rename]: the copy raises. *)
Definition shutil_move (E : env) (src dst : string) : M unit :=
  isd <- os_path_isdir E dst ;;
  real_dst <-
    (if isd then
       let rd := Path.os_path_join dst (Path.shutil_basename src) in
       ex <- os_path_exists E rd ;;
       if ex then
         raise (ShutilError ("Destination path '" ++ rd ++ "' already exists"))
       else ret rd
     else ret dst) ;;
  try_except
    (os_rename E src real_dst)
    (fun _ => shutil_copy2 E src real_dst ;; os_remove E src).

(** [subprocess.run(cmd, capture_output=True, text=True, timeout=120)]:
    the transcoder's own write to its output path is not the process's
    system call, so [faults] does not apply to it. *)
Definition subprocess_run (E : env) (cmd : ffmpeg_cmd) : M (Z * string) :=
  fun w =>
    let wrote (data : option string) : world :=
      match data with
      | Some d =>
          match create_file (root w) (ff_output cmd) (time_time E) d with
          | Some r' => with_root w r'
          | None => w
          end
      | None => w
      end in
    match ffmpeg E cmd with
    | RunRaises e data => (Raise e, wrote data)
    | RunCompleted rc err data => (Ok (rc, err), wrote data)
    end.

Definition requests_get_raise_for_status (E : env) (url : string) : M string :=
  match requests_get E url with
  | HttpRaises e => raise e
  | HttpResponse status content =>
      if ((400 <=? status) && (status <? 600))%Z then raise (HTTPError status)
      else ret content
  end.

(* ===================================================================== *)
(** * The program *)
(* ===================================================================== *)

Definition VIDEOS_DIR : string := "/app/videos".

Record TrimRequest : Type := {
  video_url : string;
  start_time : float;
  end_time : float;
  fade_duration : float
}.

(** One turn of the loop of [cleanup_old_videos]; the loop's local
    variables are [(deleted, total)]. *)
Definition cleanup_step (E : env) (now : float) (acc : nat * nat)
           (filename : string) : M (nat * nat) :=
  let '(deleted, total) := acc in
  let filepath := Path.os_path_join VIDEOS_DIR filename in
  isf <- os_path_isfile E filepath ;;
  if isf then
    let total := S total in
    mtime <- os_path_getmtime E filepath ;;
    let age := (now - mtime)%float in
    if (3600 <? age)%float then
      os_remove E filepath ;;
      let deleted := S deleted in
      print (LogDeletedOldVideo filename age) ;;
      ret (deleted, total)
    else ret (deleted, total)
  else ret (deleted, total).

(** Delete videos older than 1 hour. *)
Definition cleanup_old_videos (E : env) : M unit :=
  try_except
    (let now := time_time E in
     names <- os_listdir E VIDEOS_DIR ;;
     acc <- for_in names (cleanup_step E now) (0, 0) ;;
     print (LogCleanupComplete (fst acc) (snd acc)))
    (fun e => print (LogCleanupError (str e))).

Record TrimResponse : Type := {
  success : bool;
  resp_video_url : string;
  message : string
}.

Definition input_path_of (video_id : string) : string :=
  "/tmp/" ++ video_id ++ "_input.mp4".
Definition output_path_of (video_id : string) : string :=
  "/tmp/" ++ video_id ++ "_output.mp4".
Definition final_filename_of (video_id : string) : string :=
  video_id ++ ".mp4".

Definition public_base : string :=
  "https://just-determination-production-fea7.up.railway.app/video/".

(** The [try] block of [trim_video]. *)
Definition trim_body (E : env) (request : TrimRequest)
           (input_path output_path final_filename final_path : string)
  : M TrimResponse :=
  print (LogDownloading (video_url request)) ;;
  content <- requests_get_raise_for_status E (video_url request) ;;
  open_wb_write E input_path content ;;
  print (LogDownloaded (String.length content)) ;;
  print (LogTrimming (start_time request) (end_time request)) ;;
  let fade_start :=
    (end_time request - start_time request - fade_duration request)%float in
  result <- subprocess_run E
    {| ff_input := input_path;
       ff_ss := start_time request;
       ff_t := (end_time request - start_time request)%float;
       ff_vf_fade := (fade_start, fade_duration request);
       ff_af_fade := (fade_start, fade_duration request);
       ff_output := output_path |} ;;
  (if negb (fst result =? 0)%Z
   then raise (PyException ("FFmpeg failed: " ++ snd result))
   else ret tt) ;;
  shutil_move E output_path final_path ;;
  print (LogSavedTo final_path) ;;
  os_remove E input_path ;;
  let video_url := public_base ++ final_filename in
  print (LogVideoAvailable video_url) ;;
  ret {| success := true;
         resp_video_url := video_url;
         message := "Video trimmed and hosted successfully" |}.

(** The [except Exception as e] block of [trim_video]. *)
Definition trim_except (E : env) (input_path output_path : string) (e : exn)
  : M TrimResponse :=
  print (LogError (str e)) ;;
  ex_in <- os_path_exists E input_path ;;
  (if ex_in then os_remove E input_path else ret tt) ;;
  ex_out <- os_path_exists E output_path ;;
  (if ex_out then os_remove E output_path else ret tt) ;;
  raise (HTTPException 500 (str e)).

(** [POST /trim] *)
Definition trim_video (E : env) (request : TrimRequest) : M TrimResponse :=
  let video_id := uuid_str (uuid4 E) in
  let input_path := input_path_of video_id in
  let output_path := output_path_of video_id in
  let final_filename := final_filename_of video_id in
  let final_path := Path.os_path_join VIDEOS_DIR final_filename in
  try_except
    (trim_body E request input_path output_path final_filename final_path)
    (trim_except E input_path output_path).

Inductive response : Type :=
| FileResponse (path : string) (media_type : string).

(** [GET /video/{filename}] *)
Definition serve_video (E : env) (filename : string) : M response :=
  let file_path := Path.os_path_join VIDEOS_DIR filename in
  ex <- os_path_exists E file_path ;;
  if negb ex then raise (HTTPException 404 "Video not found")
  else ret (FileResponse file_path "video/mp4").

(** The body the framework sends for a [FileResponse]: the bytes of the
    regular file at its path (the framework refuses anything else). *)
Definition response_body (w : world) (r : response) : option string :=
  match r with
  | FileResponse path _ =>
      match stat (root w) path with
      | Some (File _ data) => Some data
      | _ => None
      end
  end.

Record HealthPayload : Type := {
  status : string;
  videos_stored : nat;
  cleanup_schedule : string;
  retention : string
}.

(** [GET /health] *)
Definition health (E : env) : M HealthPayload :=
  videos <- os_listdir E VIDEOS_DIR ;;
  ret {| status := "healthy";
         videos_stored := List.length videos;
         cleanup_schedule := "Every 30 minutes";
         retention := "1 hour" |}.

Record CleanupPayload : Type := {
  cleanup_message : string;
  videos_remaining : nat
}.

(** [GET /cleanup]: manually trigger cleanup. *)
Definition manual_cleanup (E : env) : M CleanupPayload :=
  cleanup_old_videos E ;;
  names <- os_listdir E VIDEOS_DIR ;;
  ret {| cleanup_message := "Cleanup triggered";
         videos_remaining := List.length names |}.

(* ===================================================================== *)
(** * Specification-level notions *)
(* ===================================================================== *)

Definition videos_path : list string := ["app"; "videos"].

(** The Storage Directory of a file system, as its entry list. *)
Definition storage (r : node) : option entries_t :=
  match lookup r videos_path with
  | Some (Dir _ es) => Some es
  | _ => None
  end.

(** Entry names are what a directory can hold, each at most once. *)
Definition wf_entries (es : entries_t) : Prop :=
  Forall (fun kv => Path.valid_name (fst kv) = true) es /\ NoDup (map fst es).

(** The test of the sweep on a stored object: a regular file whose age
    exceeds 3600 seconds. *)
Definition expired (now : float) (nd : node) : bool :=
  match nd with
  | File m _ => (3600 <? now - m)%float
  | Dir _ _ => false
  end.

(** The sweep selects an entry: [isfile] saw it and it is [expired]. *)
Definition selected (E : env) (now : float) (kv : string * node) : bool :=
  (negb (faults E SysStat (Path.os_path_join VIDEOS_DIR (fst kv)))
   && expired now (snd kv))%bool.

Definition unlink_refused (E : env) (kv : string * node) : bool :=
  faults E SysUnlink (Path.os_path_join VIDEOS_DIR (fst kv)).

(** What one pass leaves of a listing: selected entries go, until the
    first refused deletion, which ends the pass. *)
Fixpoint sweep_entries (E : env) (now : float) (es : entries_t) : entries_t :=
  match es with
  | [] => []
  | kv :: rest =>
      if selected E now kv then
        if unlink_refused E kv then kv :: rest
        else sweep_entries E now rest
      else kv :: sweep_entries E now rest
  end.

Definition no_faults (E : env) : Prop :=
  forall c p, faults E c p = false.

(** A character other than the separator. *)
Definition plain (c : ascii) : bool := negb (Ascii.eqb c Path.sep).

(** A change of the file system that is confined to [/tmp]. *)
Definition tmp_only (r r' : node) : Prop :=
  forall c q, c <> "tmp" -> lookup r' (c :: q) = lookup r (c :: q).

(** [if os.path.exists(p): os.remove(p)], the handler's cleanup of one
    temp path. *)
Definition guarded_remove (E : env) (p : string) : M unit :=
  ex <- os_path_exists E p ;; if ex then os_remove E p else ret tt.
(** The path of a stored entry, as the sweep builds it. *)
Definition stored_path (n : string) : string :=
  Path.os_path_join VIDEOS_DIR n.

(** The transcoder command of one request. *)
Definition trim_cmd (request : TrimRequest) (input_path output_path : string)
  : ffmpeg_cmd :=
  let fade_start :=
    (end_time request - start_time request - fade_duration request)%float in
  {| ff_input := input_path;
     ff_ss := start_time request;
     ff_t := (end_time request - start_time request)%float;
     ff_vf_fade := (fade_start, fade_duration request);
     ff_af_fade := (fade_start, fade_duration request);
     ff_output := output_path |}.

(** The fetch step fails: [requests.get] raises, or [raise_for_status]
    does. *)
Definition fetch_fails (E : env) (request : TrimRequest) : Prop :=
  match requests_get E (video_url request) with
  | HttpRaises _ => True
  | HttpResponse st _ => (400 <= st < 600)%Z
  end.

(** The transcode step fails: [subprocess.run] raises, or the exit code is
    not zero. *)
Definition transcode_fails (E : env) (request : TrimRequest) : Prop :=
  let id := uuid_str (uuid4 E) in
  match ffmpeg E (trim_cmd request (input_path_of id) (output_path_of id)) with
  | RunRaises _ _ => True
  | RunCompleted rc _ _ => rc <> 0%Z
  end.

(** The temp paths and the final name of the request served under [E]. *)
Definition job_id (E : env) : string := uuid_str (uuid4 E).
Definition job_input (E : env) : string := input_path_of (job_id E).
Definition job_output (E : env) : string := output_path_of (job_id E).
Definition job_final (E : env) : string := final_filename_of (job_id E).

Definition log_error (w : world) (e : exn) : world :=
  {| root := root w; stdout := (stdout w ++ [LogError (str e)])%list |}.

(* ===================================================================== *)
(** * Sample machines *)
(* ===================================================================== *)

Definition ex_quiet : syscall -> string -> bool := fun _ _ => false.

Definition ex_request : TrimRequest :=
  {| video_url := "http://example.org/in.mp4";
     start_time := 2; end_time := 9; fade_duration := 0.5 |}.

(** A machine with two stored videos, one of them older than an hour at
    time 10000, an empty [/tmp] and a file outside the Storage Directory. *)
Definition ex_root : node :=
  Dir 0 [("app", Dir 0 [("videos", Dir 0 [("a.mp4", File 0 "A");
                                          ("b.mp4", File 9000 "B")])]);
         ("tmp", Dir 0 []);
         ("etc", Dir 0 [("passwd", File 0 "root:x:0:0")])].

Definition ex_world : world := {| root := ex_root; stdout := [] |}.

(** Nothing is refused, the download and the transcoder succeed. *)
Definition ex_env : env :=
  {| faults := ex_quiet;
     time_time := 10000;
     uuid4 := 255%N;
     requests_get := fun _ => HttpResponse 200 "rawvideo";
     ffmpeg := fun _ => RunCompleted 0 "" (Some "trimmed") |}.

(** Ten seconds later. *)
Definition ex_env_later : env :=
  {| faults := ex_quiet;
     time_time := 10010;
     uuid4 := 255%N;
     requests_get := fun _ => HttpResponse 200 "rawvideo";
     ffmpeg := fun _ => RunCompleted 0 "" (Some "trimmed") |}.

(** Three old videos; deleting the first one is refused. *)
Definition ex_root_three : node :=
  Dir 0 [("app", Dir 0 [("videos", Dir 0 [("0.mp4", File 0 "Z");
                                          ("a.mp4", File 0 "A");
                                          ("c.mp4", File 0 "C");
                                          ("b.mp4", File 9000 "B")])]);
         ("tmp", Dir 0 [])].

Definition ex_world_three : world := {| root := ex_root_three; stdout := [] |}.

Definition ex_env_refuse_a : env :=
  {| faults := fun c p =>
                 match c with
                 | SysUnlink => String.eqb p "/app/videos/a.mp4"
                 | _ => false
                 end;
     time_time := 10000;
     uuid4 := 255%N;
     requests_get := fun _ => HttpResponse 200 "rawvideo";
     ffmpeg := fun _ => RunCompleted 0 "" (Some "trimmed") |}.

(** Listing the Storage Directory is refused. *)
Definition ex_env_nolist : env :=
  {| faults := fun c _ => match c with SysListdir => true | _ => false end;
     time_time := 10000;
     uuid4 := 255%N;
     requests_get := fun _ => HttpResponse 200 "rawvideo";
     ffmpeg := fun _ => RunCompleted 0 "" (Some "trimmed") |}.

(** The Storage Directory is gone. *)
Definition ex_world_bare : world :=
  {| root := Dir 0 [("app", Dir 0 []); ("tmp", Dir 0 [])]; stdout := [] |}.

(** The transcoder fails after writing part of its output. *)
Definition ex_env_ffmpeg_fails : env :=
  {| faults := ex_quiet;
     time_time := 10000;
     uuid4 := 255%N;
     requests_get := fun _ => HttpResponse 200 "rawvideo";
     ffmpeg := fun _ => RunCompleted 1 "boom" (Some "partial") |}.

(** The same, and the temp input cannot be deleted. *)
Definition ex_env_ffmpeg_fails_stuck : env :=
  {| faults := fun c p =>
                 match c with
                 | SysUnlink =>
                     String.eqb p "/tmp/00000000-0000-0000-0000-0000000000ff_input.mp4"
                 | _ => false
                 end;
     time_time := 10000;
     uuid4 := 255%N;
     requests_get := fun _ => HttpResponse 200 "rawvideo";
     ffmpeg := fun _ => RunCompleted 1 "boom" (Some "partial") |}.

(** An empty Storage Directory and three requests with their own
    identifiers. *)
Definition ex_world_empty : world :=
  {| root := Dir 0 [("app", Dir 0 [("videos", Dir 0 [])]); ("tmp", Dir 0 [])];
     stdout := [] |}.

Definition ex_env_job (u : uuid) : env :=
  {| faults := ex_quiet;
     time_time := 10000;
     uuid4 := u;
     requests_get := fun _ => HttpResponse 200 "rawvideo";
     ffmpeg := fun _ => RunCompleted 0 "" (Some "trimmed") |}.

(* ===================================================================== *)
(** * Notions for the further properties *)
(* ===================================================================== *)

(** [os.path.isfile] sees the entry: its [stat] is not refused and it is a
    regular file.  These are the entries the sweep counts in [total]. *)
Definition seen_file (E : env) (kv : string * node) : bool :=
  (negb (faults E SysStat (stored_path (fst kv)))
   && match snd kv with File _ _ => true | Dir _ _ => false end)%bool.

(** The lines the sweep prints for the files it deletes, in listing order. *)
Fixpoint deleted_log (E : env) (now : float) (es : entries_t) : list event :=
  match es with
  | [] => []
  | kv :: rest =>
      if selected E now kv then
        match snd kv with
        | File m _ =>
            LogDeletedOldVideo (fst kv) (now - m)%float
            :: deleted_log E now rest
        | Dir _ _ => deleted_log E now rest
        end
      else deleted_log E now rest
  end.

(** What the fetch step raises, when it fails. *)
Definition fetch_error (E : env) (request : TrimRequest) : option exn :=
  match requests_get E (video_url request) with
  | HttpRaises e => Some e
  | HttpResponse st _ =>
      if ((400 <=? st) && (st <? 600))%Z then Some (HTTPError st) else None
  end.

(** What the transcode step raises, when it fails. *)
Definition transcode_error (E : env) (request : TrimRequest) : option exn :=
  match ffmpeg E (trim_cmd request (job_input E) (job_output E)) with
  | RunRaises e _ => Some e
  | RunCompleted rc err _ =>
      if negb (rc =? 0)%Z then Some (PyException ("FFmpeg failed: " ++ err))
      else None
  end.

(** A statement about a computation that holds however it ends: from a
    file system satisfying [P], normally or by an exception, it leaves one
    satisfying [Q]. *)
Definition hoare {A : Type} (P : node -> Prop) (m : M A) (Q : node -> Prop)
  : Prop :=
  forall w res w', P (root w) -> m w = (res, w') -> Q (root w').

(** A computation that, however it ends, changes the file system under
    [/tmp] only. *)
Definition only_tmp {A : Type} (m : M A) : Prop :=
  forall w res w', m w = (res, w') -> tmp_only (root w) (root w').

(** A property of file systems that changes under [/tmp] cannot break. *)
Definition tmp_closed (P : node -> Prop) : Prop :=
  forall r r', P r -> tmp_only r r' -> P r'.

(** The [try] block of [cleanup_old_videos]. *)
Definition cleanup_try_block (E : env) : M unit :=
  let now := time_time E in
  names <- os_listdir E VIDEOS_DIR ;;
  acc <- for_in names (cleanup_step E now) (0, 0) ;;
  print (LogCleanupComplete (fst acc) (snd acc)).

(* ===================================================================== *)
(** * Facts about strings and paths *)
(* ===================================================================== *)

Module PathFacts.
Import Path.

Lemma length_append (a b : string) :
  String.length (a ++ b) = String.length a + String.length b.
Proof. induction a as [|c a IH]; simpl; [reflexivity | now rewrite IH]. Qed.

Lemma append_inv_tail (t a b : string) : a ++ t = b ++ t -> a = b.
Proof.
  revert b; induction a as [|c a IH]; intros [|d b] H; simpl in H.
  - reflexivity.
  - apply (f_equal String.length) in H; simpl in H.
    rewrite length_append in H; lia.
  - apply (f_equal String.length) in H; simpl in H.
    rewrite length_append in H; lia.
  - injection H as -> H. f_equal. now apply IH.
Qed.

Lemma append_inv_head (t a b : string) : t ++ a = t ++ b -> a = b.
Proof.
  induction t as [|c t IH]; simpl; intros H; [exact H|].
  injection H as H. now apply IH.
Qed.

Lemma no_sep_append (a b : string) :
  no_sep (a ++ b) = (no_sep a && no_sep b)%bool.
Proof.
  induction a as [|c a IH]; simpl; [reflexivity|].
  rewrite IH. now rewrite andb_assoc.
Qed.

Lemma split_no_sep (s : string) : no_sep s = true -> split s = [s].
Proof.
  induction s as [|c s IH]; simpl; [reflexivity|].
  intros H. apply andb_prop in H as [Hc Hs].
  apply negb_true_iff in Hc. rewrite Hc, (IH Hs). reflexivity.
Qed.

Lemma startswith_no_sep (s : string) : no_sep s = true -> startswith_sep s = false.
Proof.
  destruct s as [|c s]; simpl; [reflexivity|].
  intros H. apply andb_prop in H as [Hc _]. now apply negb_true_iff in Hc.
Qed.

Lemma valid_name_no_sep (s : string) : valid_name s = true -> no_sep s = true.
Proof.
  unfold valid_name. intros H.
  repeat (apply andb_prop in H as [H _]). exact H.
Qed.

Lemma valid_name_plain (s : string) :
  valid_name s = true ->
  ((s =? "") || (s =? "."))%bool = false /\ (s =? "..") = false.
Proof.
  unfold valid_name. intros H.
  apply andb_prop in H as [H H3]. apply andb_prop in H as [H H2].
  apply andb_prop in H as [_ H1].
  apply negb_true_iff in H1, H2, H3. rewrite H1, H2, H3. auto.
Qed.

(** A separator-free name of more than two characters is a valid entry
    name. *)
Lemma valid_name_long (s : string) :
  no_sep s = true -> 2 < String.length s -> valid_name s = true.
Proof.
  intros Hs Hl. unfold valid_name. rewrite Hs. simpl.
  destruct s as [|a [|b [|c s]]]; simpl in Hl; try lia.
  simpl. destruct (Ascii.eqb a "."), (Ascii.eqb b "."); reflexivity.
Qed.

Lemma join_videos (n : string) :
  no_sep n = true -> os_path_join "/app/videos" n = "/app/videos/" ++ n.
Proof.
  intros H. unfold os_path_join. now rewrite (startswith_no_sep _ H).
Qed.

Lemma split_videos_child (n : string) :
  no_sep n = true -> split ("/app/videos/" ++ n) = [""; "app"; "videos"; n].
Proof. intros H. simpl. now rewrite (split_no_sep _ H). Qed.

Lemma split_tmp_child (n : string) :
  no_sep n = true -> split ("/tmp/" ++ n) = [""; "tmp"; n].
Proof. intros H. simpl. now rewrite (split_no_sep _ H). Qed.

End PathFacts.

(* ===================================================================== *)
(** * Facts about the file system *)
(* ===================================================================== *)

Module FSFacts.
Import Path PathFacts.

Lemma assoc_app (c : string) (a b : entries_t) :
  assoc c (a ++ b)%list
  = match assoc c a with Some v => Some v | None => assoc c b end.
Proof.
  induction a as [|[k v] a IH]; simpl; [reflexivity|].
  destruct (String.eqb k c); [reflexivity | exact IH].
Qed.

Lemma assoc_not_in (c : string) (es : entries_t) :
  ~ In c (map fst es) -> assoc c es = None.
Proof.
  induction es as [|[k v] es IH]; simpl; [reflexivity|].
  intros H. destruct (String.eqb_spec k c) as [->|_]; [tauto|].
  apply IH. tauto.
Qed.

Lemma assoc_in (c : string) (v : node) (es : entries_t) :
  assoc c es = Some v -> In (c, v) es.
Proof.
  induction es as [|[k x] es IH]; simpl; [discriminate|].
  destruct (String.eqb_spec k c) as [->|_].
  - intros [= ->]. now left.
  - intros H. right. now apply IH.
Qed.

Lemma entry_remove_not_in (c : string) (es : entries_t) :
  ~ In c (map fst es) -> entry_remove c es = es.
Proof.
  induction es as [|[k v] es IH]; simpl; [reflexivity|].
  intros H. destruct (String.eqb_spec k c) as [->|_]; [tauto|].
  simpl. f_equal. apply IH. tauto.
Qed.

Lemma entry_remove_app (c : string) (a b : entries_t) :
  entry_remove c (a ++ b)%list = (entry_remove c a ++ entry_remove c b)%list.
Proof. apply filter_app. Qed.

Lemma assoc_entry_remove (c d : string) (es : entries_t) :
  assoc d (entry_remove c es) = if String.eqb c d then None else assoc d es.
Proof.
  induction es as [|[k v] es IH]; simpl.
  - now destruct (String.eqb c d).
  - destruct (String.eqb_spec k c) as [->|Hkc]; simpl.
    + rewrite IH. destruct (String.eqb c d); reflexivity.
    + rewrite IH. destruct (String.eqb_spec k d) as [->|_];
        [|reflexivity].
      destruct (String.eqb_spec c d) as [->|_]; [congruence | reflexivity].
Qed.

Lemma assoc_entry_put (c d : string) (v : node) (es : entries_t) :
  assoc d (entry_put c v es) = if String.eqb c d then Some v else assoc d es.
Proof.
  induction es as [|[k x] es IH]; simpl.
  - reflexivity.
  - destruct (String.eqb_spec k c) as [->|Hkc]; simpl.
    + destruct (String.eqb c d); reflexivity.
    + rewrite IH. destruct (String.eqb_spec k d) as [->|_]; [|reflexivity].
      destruct (String.eqb_spec c d) as [->|_]; [congruence | reflexivity].
Qed.

Lemma assoc_entry_map (c d : string) (f : node -> node) (es : entries_t) :
  assoc d (entry_map c f es)
  = if String.eqb c d then option_map f (assoc d es) else assoc d es.
Proof.
  induction es as [|[k x] es IH]; simpl.
  - now destruct (String.eqb c d).
  - destruct (String.eqb_spec k c) as [->|Hkc]; simpl.
    + destruct (String.eqb c d); reflexivity.
    + rewrite IH. destruct (String.eqb_spec k d) as [->|_]; [|reflexivity].
      destruct (String.eqb_spec c d) as [->|_]; [congruence | reflexivity].
Qed.

Lemma entry_put_fresh (c : string) (v : node) (es : entries_t) :
  assoc c es = None -> entry_put c v es = (es ++ [(c, v)])%list.
Proof.
  induction es as [|[k x] es IH]; simpl; [reflexivity|].
  destruct (String.eqb k c); [discriminate|].
  intros H. f_equal. now apply IH.
Qed.

Lemma entry_put_put (c : string) (u v : node) (es : entries_t) :
  entry_put c v (entry_put c u es) = entry_put c v es.
Proof.
  induction es as [|[k x] es IH]; simpl.
  - now rewrite String.eqb_refl.
  - destruct (String.eqb k c) eqn:Hk; simpl; rewrite Hk; [reflexivity|].
    now rewrite IH.
Qed.

Lemma entry_map_at (c : string) (f g : node -> node) (es : entries_t) :
  (forall m, assoc c es = Some m -> f m = g m) ->
  entry_map c f es = entry_map c g es.
Proof.
  induction es as [|[k x] es IH]; simpl; [reflexivity|].
  destruct (String.eqb k c).
  - intros H. now rewrite (H x).
  - intros H. f_equal. now apply IH.
Qed.

Lemma entry_map_map (c : string) (f g : node -> node) (es : entries_t) :
  entry_map c g (entry_map c f es) = entry_map c (fun m => g (f m)) es.
Proof.
  induction es as [|[k x] es IH]; simpl; [reflexivity|].
  destruct (String.eqb k c) eqn:Hk; simpl; rewrite Hk; [reflexivity|].
  now rewrite IH.
Qed.

Lemma entry_map_id (c : string) (f : node -> node) (es : entries_t) :
  (forall m, assoc c es = Some m -> f m = m) -> entry_map c f es = es.
Proof.
  induction es as [|[k x] es IH]; simpl; [reflexivity|].
  destruct (String.eqb k c).
  - intros H. now rewrite (H x).
  - intros H. f_equal. now apply IH.
Qed.

(** ** [update_dir] *)

Lemma update_dir_at (p : list string) :
  forall (r : node) (f : entries_t -> entries_t) t es,
    lookup r p = Some (Dir t es) ->
    update_dir r p f = set_entries r p (f es).
Proof.
  unfold set_entries.
  induction p as [|c p IH]; intros r f t es H.
  - simpl in H. injection H as ->. reflexivity.
  - destruct r as [m d|t0 es0]; simpl in H; [discriminate|].
    simpl. f_equal. apply entry_map_at. intros m Hm.
    rewrite Hm in H. now apply IH with t.
Qed.

Lemma update_dir_compose (p : list string) :
  forall (r : node) (f g : entries_t -> entries_t),
    update_dir (update_dir r p f) p g = update_dir r p (fun es => g (f es)).
Proof.
  induction p as [|c p IH]; intros [m d|t0 es0] f g; simpl; try reflexivity.
  f_equal. rewrite entry_map_map. apply entry_map_at. intros m _. apply IH.
Qed.

Lemma update_dir_ext (p : list string) :
  forall (r : node) (f g : entries_t -> entries_t),
    (forall es, f es = g es) -> update_dir r p f = update_dir r p g.
Proof.
  induction p as [|c p IH]; intros [m d|t0 es0] f g H; simpl; try reflexivity.
  - now rewrite H.
  - f_equal. apply entry_map_at. intros m _. now apply IH.
Qed.

Lemma set_entries_twice (p : list string) (r : node) (a b : entries_t) :
  set_entries (set_entries r p a) p b = set_entries r p b.
Proof. unfold set_entries. now rewrite update_dir_compose. Qed.

Lemma set_entries_same (p : list string) :
  forall (r : node) t es,
    lookup r p = Some (Dir t es) -> set_entries r p es = r.
Proof.
  unfold set_entries.
  induction p as [|c p IH]; intros r t es H.
  - simpl in H. injection H as ->. reflexivity.
  - destruct r as [m d|t0 es0]; simpl in H; [discriminate|].
    simpl. f_equal. apply entry_map_id. intros m Hm.
    rewrite Hm in H. now apply IH with t.
Qed.

Lemma lookup_app (p q : list string) :
  forall r, lookup r (p ++ q)%list
            = match lookup r p with Some m => lookup m q | None => None end.
Proof.
  induction p as [|c p IH]; intros r; simpl; [reflexivity|].
  destruct r as [m d|t es]; [reflexivity|].
  destruct (assoc c es); [apply IH | reflexivity].
Qed.

Lemma lookup_update_dir_same (p : list string) :
  forall (r : node) (f : entries_t -> entries_t),
    lookup (update_dir r p f) p
    = match lookup r p with
      | Some (Dir t es) => Some (Dir t (f es))
      | other => other
      end.
Proof.
  induction p as [|c p IH]; intros [m d|t es] f; simpl; try reflexivity.
  rewrite assoc_entry_map, String.eqb_refl.
  destruct (assoc c es); simpl; [apply IH | reflexivity].
Qed.

(** An update below one top-level directory is invisible below another. *)
Lemma lookup_update_dir_other (c d : string) (p q : list string)
      (r : node) (f : entries_t -> entries_t) :
  c <> d -> lookup (update_dir r (c :: p) f) (d :: q) = lookup r (d :: q).
Proof.
  intros Hcd. destruct r as [m x|t es]; simpl; [reflexivity|].
  rewrite assoc_entry_map.
  apply String.eqb_neq in Hcd. now rewrite Hcd.
Qed.

Lemma lookup_child (r : node) (p : list string) (c : string) :
  lookup r (p ++ [c])%list
  = match lookup r p with
    | Some (Dir _ es) => assoc c es
    | _ => None
    end.
Proof.
  rewrite lookup_app. destruct (lookup r p) as [[m d|t es]|]; simpl; trivial.
  now destruct (assoc c es).
Qed.

Lemma is_dir_at_parent (r : node) (p : list string) (c : string) :
  is_dir_at r (p ++ [c])%list = true -> is_dir_at r p = true.
Proof.
  unfold is_dir_at. rewrite lookup_child.
  destruct (lookup r p) as [[m d|t es]|]; simpl; congruence.
Qed.

Lemma unsnoc_snoc (p : list string) (c : string) :
  unsnoc (p ++ [c])%list = Some (p, c).
Proof. induction p as [|x p IH]; simpl; [reflexivity | now rewrite IH]. Qed.

(** ** Resolution of the paths the program builds *)

Lemma is_dir_videos_app (r : node) :
  is_dir_at r videos_path = true -> is_dir_at r ["app"] = true.
Proof. apply (is_dir_at_parent r ["app"] "videos"). Qed.

Lemma is_dir_top_root (r : node) (c : string) :
  is_dir_at r [c] = true -> is_dir_at r [] = true.
Proof. apply (is_dir_at_parent r [] c). Qed.

Lemma resolve_videos_child (r : node) (n : string) :
  valid_name n = true ->
  resolve r (os_path_join VIDEOS_DIR n)
  = if is_dir_at r videos_path then Some ["app"; "videos"; n] else None.
Proof.
  intros Hn. pose proof (valid_name_no_sep _ Hn) as Hs.
  destruct (valid_name_plain _ Hn) as [H1 H2].
  unfold VIDEOS_DIR, resolve. rewrite (join_videos _ Hs), (split_videos_child _ Hs).
  cbn [walk]. change (is_dir_at r ["app"; "videos"]) with (is_dir_at r videos_path).
  destruct (is_dir_at r videos_path) eqn:Hv.
  - pose proof (is_dir_videos_app _ Hv) as Ha.
    pose proof (is_dir_top_root _ _ Ha) as H0.
    rewrite H0; simpl. rewrite Ha; simpl.
    change (is_dir_at r ["app"; "videos"]) with (is_dir_at r videos_path).
    rewrite Hv, H1, H2. reflexivity.
  - destruct (is_dir_at r []); [|reflexivity]. simpl.
    destruct (is_dir_at r ["app"]); [|reflexivity]. simpl.
    change (is_dir_at r ["app"; "videos"]) with (is_dir_at r videos_path).
    now rewrite Hv.
Qed.

Lemma stat_videos_child (r : node) (n : string) :
  valid_name n = true ->
  stat r (os_path_join VIDEOS_DIR n) = lookup r ["app"; "videos"; n].
Proof.
  intros Hn. unfold stat. rewrite (resolve_videos_child r n Hn).
  destruct (is_dir_at r videos_path) eqn:Hv; [reflexivity|].
  change ["app"; "videos"; n] with (videos_path ++ [n])%list.
  rewrite lookup_child. unfold is_dir_at in Hv.
  destruct (lookup r videos_path) as [[m d|t es]|]; congruence.
Qed.

Lemma stat_videos (r : node) : stat r VIDEOS_DIR = lookup r videos_path.
Proof.
  unfold stat, resolve.
  change (split VIDEOS_DIR) with [""; "app"; "videos"]. cbn [walk].
  destruct (is_dir_at r ["app"]) eqn:Ha.
  - rewrite (is_dir_top_root _ _ Ha). simpl. rewrite Ha. reflexivity.
  - assert (lookup r videos_path = None) as ->.
    { change videos_path with (["app"] ++ ["videos"])%list.
      rewrite lookup_child. unfold is_dir_at in Ha.
      destruct (lookup r ["app"]) as [[m d|t es]|]; congruence. }
    destruct (is_dir_at r []); [|reflexivity]. simpl. now rewrite Ha.
Qed.

Lemma resolve_tmp_child (r : node) (n : string) :
  valid_name n = true ->
  resolve r ("/tmp/" ++ n)
  = if is_dir_at r ["tmp"] then Some ["tmp"; n] else None.
Proof.
  intros Hn. pose proof (valid_name_no_sep _ Hn) as Hs.
  destruct (valid_name_plain _ Hn) as [H1 H2].
  unfold resolve. rewrite (split_tmp_child _ Hs). cbn [walk].
  destruct (is_dir_at r ["tmp"]) eqn:Ht.
  - rewrite (is_dir_top_root _ _ Ht). simpl. rewrite Ht, H1, H2. reflexivity.
  - destruct (is_dir_at r []); [|reflexivity]. simpl. now rewrite Ht.
Qed.

Lemma stat_tmp_child (r : node) (n : string) :
  valid_name n = true -> stat r ("/tmp/" ++ n) = lookup r ["tmp"; n].
Proof.
  intros Hn. unfold stat. rewrite (resolve_tmp_child r n Hn).
  destruct (is_dir_at r ["tmp"]) eqn:Ht; [reflexivity|].
  change ["tmp"; n] with (["tmp"] ++ [n])%list.
  rewrite lookup_child. unfold is_dir_at in Ht.
  destruct (lookup r ["tmp"]) as [[m d|t es]|]; congruence.
Qed.

End FSFacts.

(* ===================================================================== *)
(** * The Retention Sweeper *)
(* ===================================================================== *)

Module SweepFacts.
Import Path PathFacts FSFacts.

Lemma storage_lookup (r : node) (es : entries_t) :
  storage r = Some es <-> exists t, lookup r videos_path = Some (Dir t es).
Proof.
  unfold storage. split.
  - destruct (lookup r videos_path) as [[m d|t es']|]; try discriminate.
    intros [= ->]. now exists t.
  - intros [t ->]. reflexivity.
Qed.

Lemma storage_child (r : node) t (es : entries_t) (n : string) :
  lookup r videos_path = Some (Dir t es) ->
  lookup r ["app"; "videos"; n] = assoc n es.
Proof.
  intros H. change ["app"; "videos"; n] with (videos_path ++ [n])%list.
  rewrite lookup_child, H. reflexivity.
Qed.

Lemma storage_is_dir (r : node) t (es : entries_t) :
  lookup r videos_path = Some (Dir t es) -> is_dir_at r videos_path = true.
Proof. unfold is_dir_at. now intros ->. Qed.

Lemma wf_entries_split (pre : entries_t) (kv : string * node) (rest : entries_t) :
  wf_entries (pre ++ kv :: rest)%list ->
  Path.valid_name (fst kv) = true
  /\ ~ In (fst kv) (map fst pre) /\ ~ In (fst kv) (map fst rest)
  /\ wf_entries (pre ++ rest)%list
  /\ wf_entries ((pre ++ [kv]) ++ rest)%list.
Proof.
  intros [Hv Hn]. rewrite map_app in Hn. simpl in Hn.
  pose proof (NoDup_remove _ _ _ Hn) as [Hn' Hnot].
  rewrite in_app_iff in Hnot.
  rewrite Forall_app in Hv. destruct Hv as [Hv1 Hv2].
  inversion Hv2 as [|? ? Hkv Hv3]; subst.
  repeat split; try tauto.
  - rewrite Forall_app. now split.
  - now rewrite map_app.
  - rewrite <- app_assoc. simpl. rewrite Forall_app. split; [exact Hv1|].
    now constructor.
  - rewrite <- app_assoc. simpl. rewrite map_app. exact Hn.
Qed.

Lemma assoc_middle (pre : entries_t) (n : string) (nd : node) (rest : entries_t) :
  ~ In n (map fst pre) -> assoc n (pre ++ (n, nd) :: rest)%list = Some nd.
Proof.
  intros H. rewrite assoc_app, (assoc_not_in _ _ H). simpl.
  now rewrite String.eqb_refl.
Qed.

Lemma entry_remove_middle (pre : entries_t) (n : string) (nd : node)
      (rest : entries_t) :
  ~ In n (map fst pre) -> ~ In n (map fst rest) ->
  entry_remove n (pre ++ (n, nd) :: rest)%list = (pre ++ rest)%list.
Proof.
  intros H1 H2. rewrite entry_remove_app.
  rewrite (entry_remove_not_in _ _ H1).
  unfold entry_remove at 1. simpl. rewrite String.eqb_refl. simpl.
  fold (entry_remove n rest). now rewrite (entry_remove_not_in _ _ H2).
Qed.

Section Pass.

Variable E : env.
Variable now : float.

(** One turn of the loop, once [stat] of the entry is known. *)
Lemma cleanup_step_run (w : world) (n : string) (nd : node) (deleted total : nat) :
  stat (root w) (stored_path n) = Some nd ->
  cleanup_step E now (deleted, total) n w
  = if faults E SysStat (stored_path n) then (Ok (deleted, total), w)
    else match nd with
         | Dir _ _ => (Ok (deleted, total), w)
         | File m _ =>
             if (3600 <? now - m)%float then
               match os_remove E (stored_path n) w with
               | (Ok _, w') =>
                   (Ok (S deleted, S total),
                    {| root := root w';
                       stdout := (stdout w'
                                  ++ [LogDeletedOldVideo n (now - m)%float])%list |})
               | (Raise e, w') => (Raise e, w')
               end
             else (Ok (deleted, S total), w)
         end.
Proof.
  unfold stored_path. intros Hst.
  unfold cleanup_step, bind, os_path_isfile, os_path_getmtime. cbv beta.
  rewrite Hst.
  destruct (faults E SysStat (os_path_join VIDEOS_DIR n)); [reflexivity|].
  destruct nd as [m d|t' es']; [|reflexivity].
  rewrite Hst.
  destruct (3600 <? now - m)%float; [|reflexivity].
  destruct (os_remove E (os_path_join VIDEOS_DIR n) w) as [[[]|e] w'];
    reflexivity.
Qed.

(** One turn of the loop on the entry [kv] of the listing [pre ++ kv :: rest]. *)
Lemma cleanup_step_spec (w : world) t (pre rest : entries_t)
      (kv : string * node) (acc : nat * nat) :
  lookup (root w) videos_path = Some (Dir t (pre ++ kv :: rest)%list) ->
  wf_entries (pre ++ kv :: rest)%list ->
  if selected E now kv then
    if unlink_refused E kv then
      cleanup_step E now acc (fst kv) w
      = (Raise (OSError SysUnlink (stored_path (fst kv))), w)
    else
      exists acc' w',
        cleanup_step E now acc (fst kv) w = (Ok acc', w')
        /\ root w' = set_entries (root w) videos_path (pre ++ rest)%list
  else
    exists acc', cleanup_step E now acc (fst kv) w = (Ok acc', w).
Proof.
  intros Hdir Hwf. destruct kv as [n nd]. simpl fst.
  destruct (wf_entries_split _ _ _ Hwf) as (Hn & Hpre & Hrest & _ & _).
  simpl in Hn, Hpre, Hrest.
  assert (Hst : stat (root w) (stored_path n) = Some nd).
  { unfold stored_path.
    rewrite (stat_videos_child _ _ Hn), (storage_child _ _ _ _ Hdir).
    now apply assoc_middle. }
  destruct acc as [deleted total].
  rewrite (cleanup_step_run w n nd deleted total Hst).
  unfold selected, unlink_refused. simpl fst; simpl snd.
  fold (stored_path n).
  destruct (faults E SysStat (stored_path n)); simpl negb; cbn [andb].
  { eexists. reflexivity. }
  destruct nd as [m d|t' es']; cbn [expired].
  2:{ eexists. reflexivity. }
  destruct (3600 <? now - m)%float.
  2:{ eexists. reflexivity. }
  unfold os_remove.
  destruct (faults E SysUnlink (stored_path n)); [reflexivity|].
  unfold unlink, stored_path. rewrite (resolve_videos_child _ _ Hn).
  rewrite (storage_is_dir _ _ _ Hdir).
  rewrite (storage_child _ _ _ _ Hdir), (assoc_middle _ _ _ _ Hpre).
  change ["app"; "videos"; n] with (videos_path ++ [n])%list.
  rewrite unsnoc_snoc.
  do 2 eexists. split; [reflexivity|]. simpl.
  rewrite (update_dir_at _ _ _ _ _ Hdir).
  now rewrite (entry_remove_middle _ _ _ _ Hpre Hrest).
Qed.

(** The loop over what is left of the listing: the file system afterwards,
    whether the loop ran to its end or was cut by an exception. *)
Lemma cleanup_loop_root (suf : entries_t) :
  forall (pre : entries_t) (acc : nat * nat) (w : world) t,
    lookup (root w) videos_path = Some (Dir t (pre ++ suf)%list) ->
    wf_entries (pre ++ suf)%list ->
    root (snd (for_in (map fst suf) (cleanup_step E now) acc w))
    = set_entries (root w) videos_path (pre ++ sweep_entries E now suf)%list.
Proof.
  induction suf as [|kv rest IH]; intros pre acc w t Hdir Hwf.
  - simpl. symmetry. now apply set_entries_same with t.
  - pose proof (cleanup_step_spec w t pre rest kv acc Hdir Hwf) as Hstep.
    destruct (wf_entries_split _ _ _ Hwf) as (_ & _ & _ & Hwf1 & Hwf2).
    cbn [map for_in sweep_entries]. unfold bind at 1.
    destruct (selected E now kv).
    + destruct (unlink_refused E kv).
      * rewrite Hstep. simpl. symmetry. now apply set_entries_same with t.
      * destruct Hstep as (acc' & w' & -> & Hroot).
        assert (Hdir' : lookup (root w') videos_path
                        = Some (Dir t (pre ++ rest)%list)).
        { rewrite Hroot. unfold set_entries.
          now rewrite lookup_update_dir_same, Hdir. }
        rewrite (IH pre acc' w' t Hdir' Hwf1), Hroot.
        apply set_entries_twice.
    + destruct Hstep as (acc' & ->).
      assert (Hdir' : lookup (root w) videos_path
                      = Some (Dir t ((pre ++ [kv]) ++ rest)%list)).
      { now rewrite <- app_assoc. }
      rewrite (IH (pre ++ [kv])%list acc' w t Hdir' Hwf2).
      now rewrite <- app_assoc.
Qed.

End Pass.

(** [cleanup_old_videos] returns normally, whatever happens inside. *)
Lemma cleanup_old_videos_returns (E : env) (w : world) :
  fst (cleanup_old_videos E w) = Ok tt.
Proof.
  unfold cleanup_old_videos, try_except.
  match goal with |- context [match ?b with _ => _ end] => destruct b as [[[]|e] w'] end;
    reflexivity.
Qed.

(** The file system after one pass. *)
Lemma cleanup_old_videos_root (E : env) (w : world) t (es : entries_t) :
  lookup (root w) videos_path = Some (Dir t es) ->
  wf_entries es ->
  root (snd (cleanup_old_videos E w))
  = if faults E SysListdir VIDEOS_DIR then root w
    else set_entries (root w) videos_path (sweep_entries E (time_time E) es).
Proof.
  intros Hdir Hwf.
  unfold cleanup_old_videos, try_except. cbv zeta.
  unfold bind at 1. unfold os_listdir.
  destruct (faults E SysListdir VIDEOS_DIR); [reflexivity|].
  rewrite stat_videos, Hdir.
  pose proof (cleanup_loop_root E (time_time E) es [] (0, 0) w t Hdir Hwf) as H.
  simpl app in H. unfold bind.
  destruct (for_in (map fst es) (cleanup_step E (time_time E)) (0, 0) w)
    as [[acc|e] w'] eqn:Hloop; simpl in H |- *; exact H.
Qed.

Lemma cleanup_old_videos_root_missing (E : env) (w : world) :
  storage (root w) = None -> root (snd (cleanup_old_videos E w)) = root w.
Proof.
  intros Hs. unfold cleanup_old_videos, try_except. cbv zeta.
  unfold bind at 1. unfold os_listdir.
  destruct (faults E SysListdir VIDEOS_DIR); [reflexivity|].
  rewrite stat_videos. unfold storage in Hs.
  destruct (lookup (root w) videos_path) as [[m d|t es]|];
    try discriminate; reflexivity.
Qed.

(** ** What a pass leaves of a listing *)

Lemma sweep_entries_no_refusal (E : env) (now : float) (es : entries_t) :
  (forall kv, In kv es -> selected E now kv = true -> unlink_refused E kv = false) ->
  sweep_entries E now es = filter (fun kv => negb (selected E now kv)) es.
Proof.
  induction es as [|kv rest IH]; intros H; simpl; [reflexivity|].
  destruct (selected E now kv) eqn:Hs; simpl.
  - rewrite (H kv (or_introl eq_refl) Hs). apply IH.
    intros x Hx. apply H. now right.
  - f_equal. apply IH. intros x Hx. apply H. now right.
Qed.

Lemma sweep_entries_refusal (E : env) (now : float)
      (pre : entries_t) (kv : string * node) (post : entries_t) :
  (forall x, In x pre -> selected E now x = true -> unlink_refused E x = false) ->
  selected E now kv = true -> unlink_refused E kv = true ->
  sweep_entries E now (pre ++ kv :: post)%list
  = (filter (fun x => negb (selected E now x)) pre ++ kv :: post)%list.
Proof.
  induction pre as [|x pre IH]; intros H Hs Hr; simpl.
  - now rewrite Hs, Hr.
  - destruct (selected E now x) eqn:Hx; simpl.
    + rewrite (H x (or_introl eq_refl) Hx). apply IH; auto.
      intros y Hy. apply H. now right.
    + f_equal. apply IH; auto. intros y Hy. apply H. now right.
Qed.

Lemma sweep_entries_incl (E : env) (now : float) (es : entries_t) :
  forall kv, In kv (sweep_entries E now es) -> In kv es.
Proof.
  induction es as [|x rest IH]; simpl; [tauto|].
  intros kv. destruct (selected E now x).
  - destruct (unlink_refused E x); [tauto|]. intros H. right. now apply IH.
  - simpl. intros [H|H]; [now left | right; now apply IH].
Qed.

Lemma sweep_entries_wf (E : env) (now : float) (es : entries_t) :
  wf_entries es -> wf_entries (sweep_entries E now es).
Proof.
  unfold wf_entries. induction es as [|x rest IH]; simpl; [tauto|].
  intros [Hv Hn]. inversion Hv as [|? ? Hx Hv']; subst.
  inversion Hn as [|? ? Hnot Hn']; subst.
  destruct (IH (conj Hv' Hn')) as [IHv IHn].
  destruct (selected E now x).
  - destruct (unlink_refused E x); [now split | now split].
  - split; [now constructor|]. simpl. constructor; [|exact IHn].
    intros Hin. apply Hnot. apply in_map_iff in Hin as [y [Hy Hin]].
    apply in_map_iff. exists y. split; [exact Hy|].
    now apply sweep_entries_incl in Hin.
Qed.

(** A second pass with the same refusals, and the same verdict on what the
    first one left, finds nothing more to do. *)
Lemma sweep_entries_idem (E1 E2 : env) (now1 now2 : float) (es : entries_t) :
  (forall c p, faults E2 c p = faults E1 c p) ->
  (forall kv, In kv (sweep_entries E1 now1 es) ->
              expired now2 (snd kv) = expired now1 (snd kv)) ->
  sweep_entries E2 now2 (sweep_entries E1 now1 es) = sweep_entries E1 now1 es.
Proof.
  intros Hf. induction es as [|x rest IH]; simpl; [reflexivity|].
  assert (Href : unlink_refused E2 x = unlink_refused E1 x).
  { unfold unlink_refused. now rewrite Hf. }
  destruct (selected E1 now1 x) eqn:Hs.
  - destruct (unlink_refused E1 x) eqn:Hr; [|exact IH].
    intros Hx. simpl.
    assert (Hsel : selected E2 now2 x = true).
    { unfold selected in *. now rewrite Hf, (Hx x (or_introl eq_refl)). }
    now rewrite Hsel, Href.
  - intros Hx. simpl.
    assert (Hsel : selected E2 now2 x = false).
    { unfold selected in *. now rewrite Hf, (Hx x (or_introl eq_refl)). }
    rewrite Hsel. f_equal. apply IH. intros kv Hkv. apply Hx. now right.
Qed.

End SweepFacts.

(* ===================================================================== *)
(** * The Trim Worker: identifiers, paths and system calls *)
(* ===================================================================== *)

Module TrimFacts.
Import Path PathFacts FSFacts SweepFacts.

(** ** Job identifiers *)

Lemma no_sep_of_list (l : list ascii) :
  no_sep (string_of_list_ascii l) = forallb plain l.
Proof. induction l as [|c l IH]; simpl; [reflexivity | now rewrite IH]. Qed.

Lemma forallb_nth (P : ascii -> bool) (l : list ascii) (d : ascii) (i : nat) :
  forallb P l = true -> P d = true -> P (nth i l d) = true.
Proof.
  revert i. induction l as [|c l IH]; intros [|i] Hl Hd; simpl; trivial;
    simpl in Hl; apply andb_prop in Hl as [Hc Hl]; auto.
Qed.

Lemma forallb_firstn (P : ascii -> bool) (n : nat) (l : list ascii) :
  forallb P l = true -> forallb P (firstn n l) = true.
Proof.
  revert l. induction n as [|n IH]; intros [|c l] H; simpl; trivial.
  simpl in H. apply andb_prop in H as [Hc Hl]. now rewrite Hc, IH.
Qed.

Lemma forallb_skipn (P : ascii -> bool) (n : nat) (l : list ascii) :
  forallb P l = true -> forallb P (skipn n l) = true.
Proof.
  revert l. induction n as [|n IH]; intros [|c l] H; simpl; trivial.
  simpl in H. apply andb_prop in H as [_ Hl]. now apply IH.
Qed.

Lemma hexchar_plain (d : N) : plain (hexchar d) = true.
Proof. unfold hexchar. apply forallb_nth; reflexivity. Qed.

Lemma hex_digits_plain (k : nat) : forall x, forallb plain (hex_digits k x) = true.
Proof.
  induction k as [|k IH]; intros x; simpl; [reflexivity|].
  rewrite forallb_app, IH. simpl. now rewrite hexchar_plain.
Qed.

Lemma uuid_str_no_sep (u : uuid) : no_sep (uuid_str u) = true.
Proof.
  unfold uuid_str. cbv zeta. rewrite no_sep_of_list.
  pose proof (hex_digits_plain 32 u) as H.
  repeat (rewrite forallb_app; apply andb_true_intro; split);
    try reflexivity;
    repeat first [apply forallb_firstn | apply forallb_skipn]; exact H.
Qed.

(** The three names one request derives from its identifier. *)
Lemma derived_name_valid (id suffix : string) :
  no_sep id = true -> no_sep suffix = true -> 2 < String.length suffix ->
  valid_name (id ++ suffix) = true.
Proof.
  intros Hi Hs Hl. apply valid_name_long.
  - now rewrite no_sep_append, Hi, Hs.
  - rewrite length_append. lia.
Qed.

Lemma input_name_valid (u : uuid) : valid_name (uuid_str u ++ "_input.mp4") = true.
Proof.
  apply derived_name_valid; [apply uuid_str_no_sep | reflexivity | simpl; lia].
Qed.

Lemma output_name_valid (u : uuid) : valid_name (uuid_str u ++ "_output.mp4") = true.
Proof.
  apply derived_name_valid; [apply uuid_str_no_sep | reflexivity | simpl; lia].
Qed.

Lemma final_name_valid (u : uuid) : valid_name (final_filename_of (uuid_str u)) = true.
Proof.
  apply derived_name_valid; [apply uuid_str_no_sep | reflexivity | simpl; lia].
Qed.

Lemma input_output_differ (id : string) :
  (id ++ "_input.mp4" =? id ++ "_output.mp4") = false.
Proof.
  apply String.eqb_neq. intros H. apply append_inv_head in H. discriminate.
Qed.

Lemma output_input_differ (id : string) :
  (id ++ "_output.mp4" =? id ++ "_input.mp4") = false.
Proof. rewrite String.eqb_sym. apply input_output_differ. Qed.

(** ** Changes confined to [/tmp] *)

Lemma tmp_only_refl (r : node) : tmp_only r r.
Proof. now intros c q _. Qed.

Lemma tmp_only_trans (a b c : node) : tmp_only a b -> tmp_only b c -> tmp_only a c.
Proof. intros H1 H2 x q Hx. now rewrite (H2 x q Hx), (H1 x q Hx). Qed.

Lemma tmp_only_update (r : node) (f : entries_t -> entries_t) :
  tmp_only r (update_dir r ["tmp"] f).
Proof.
  intros c q Hc. apply lookup_update_dir_other. congruence.
Qed.

Lemma tmp_only_storage (r r' : node) :
  tmp_only r r' -> lookup r' videos_path = lookup r videos_path.
Proof. intros H. apply H. discriminate. Qed.

Lemma lookup_tmp_update (r : node) (f : entries_t -> entries_t) (x : string) :
  lookup (update_dir r ["tmp"] f) ["tmp"; x]
  = match lookup r ["tmp"] with
    | Some (Dir _ es) => assoc x (f es)
    | _ => None
    end.
Proof.
  change ["tmp"; x] with (["tmp"] ++ [x])%list.
  rewrite lookup_child, lookup_update_dir_same.
  destruct (lookup r ["tmp"]) as [[m d|t es]|]; reflexivity.
Qed.

Lemma lookup_tmp_child (r : node) (x : string) :
  lookup r ["tmp"; x]
  = match lookup r ["tmp"] with
    | Some (Dir _ es) => assoc x es
    | _ => None
    end.
Proof. change ["tmp"; x] with (["tmp"] ++ [x])%list. apply lookup_child. Qed.

Lemma lookup_tmp_remove (r : node) (a x : string) :
  lookup (update_dir r ["tmp"] (entry_remove a)) ["tmp"; x]
  = if String.eqb a x then None else lookup r ["tmp"; x].
Proof.
  rewrite lookup_tmp_update, lookup_tmp_child.
  destruct (lookup r ["tmp"]) as [[m d|t es]|];
    try (destruct (String.eqb a x); reflexivity).
  apply assoc_entry_remove.
Qed.

Lemma lookup_tmp_put (r : node) (a x : string) (v : node) :
  is_dir_at r ["tmp"] = true ->
  lookup (update_dir r ["tmp"] (entry_put a v)) ["tmp"; x]
  = if String.eqb a x then Some v else lookup r ["tmp"; x].
Proof.
  unfold is_dir_at. rewrite lookup_tmp_update, lookup_tmp_child.
  destruct (lookup r ["tmp"]) as [[m d|t es]|]; try discriminate.
  intros _. apply assoc_entry_put.
Qed.

Lemma lookup_tmp_videos (r : node) (f : entries_t -> entries_t) (x : string) :
  lookup (update_dir r videos_path f) ["tmp"; x] = lookup r ["tmp"; x].
Proof. apply lookup_update_dir_other. discriminate. Qed.

Lemma is_dir_tmp_update (r : node) (f : entries_t -> entries_t) :
  is_dir_at (update_dir r ["tmp"] f) ["tmp"] = is_dir_at r ["tmp"].
Proof.
  unfold is_dir_at. rewrite lookup_update_dir_same.
  destruct (lookup r ["tmp"]) as [[m d|t es]|]; reflexivity.
Qed.

(** ** System calls on a child of [/tmp] *)

Lemma create_file_tmp (r r' : node) (n : string) (m : float) (d : string) :
  valid_name n = true ->
  create_file r ("/tmp/" ++ n) m d = Some r' ->
  is_dir_at r ["tmp"] = true
  /\ r' = update_dir r ["tmp"] (entry_put n (File m d)).
Proof.
  intros Hn. unfold create_file. rewrite (resolve_tmp_child r n Hn).
  destruct (is_dir_at r ["tmp"]) eqn:Ht; [|discriminate].
  change ["tmp"; n] with (["tmp"] ++ [n])%list. rewrite unsnoc_snoc, Ht.
  destruct (lookup r (["tmp"] ++ [n])%list) as [[? ?|? ?]|];
    try discriminate; intros [= ?]; subst; split; reflexivity.
Qed.

Lemma unlink_tmp (r r' : node) (n : string) :
  valid_name n = true ->
  unlink r ("/tmp/" ++ n) = Some r' ->
  r' = update_dir r ["tmp"] (entry_remove n).
Proof.
  intros Hn. unfold unlink. rewrite (resolve_tmp_child r n Hn).
  destruct (is_dir_at r ["tmp"]); [|discriminate].
  change ["tmp"; n] with (["tmp"] ++ [n])%list. rewrite unsnoc_snoc.
  destruct (lookup r (["tmp"] ++ [n])%list) as [[? ?|? ?]|];
    try discriminate; intros [= ?]; now subst.
Qed.

Lemma os_remove_tmp (E : env) (n : string) (w : world) (res : result unit)
      (w' : world) :
  valid_name n = true ->
  os_remove E ("/tmp/" ++ n) w = (res, w') ->
  match res with
  | Ok _ => w' = with_root w (update_dir (root w) ["tmp"] (entry_remove n))
  | Raise e => e = OSError SysUnlink ("/tmp/" ++ n) /\ w' = w
  end.
Proof.
  intros Hn. unfold os_remove.
  destruct (faults E SysUnlink ("/tmp/" ++ n)).
  - intros [= <- <-]. auto.
  - destruct (unlink (root w) ("/tmp/" ++ n)) as [r'|] eqn:Hu.
    + intros [= <- <-]. now rewrite (unlink_tmp _ _ _ Hn Hu).
    + intros [= <- <-]. auto.
Qed.

Lemma guarded_remove_tmp (E : env) (n : string) (w : world) (res : result unit)
      (w' : world) :
  valid_name n = true ->
  guarded_remove E ("/tmp/" ++ n) w = (res, w') ->
  match res with
  | Ok _ =>
      stdout w' = stdout w
      /\ (root w' = root w
          \/ root w' = update_dir (root w) ["tmp"] (entry_remove n))
      /\ (faults E SysStat ("/tmp/" ++ n) = false ->
          lookup (root w') ["tmp"; n] = None)
  | Raise e =>
      e = OSError SysUnlink ("/tmp/" ++ n) /\ w' = w
      /\ (faults E SysUnlink ("/tmp/" ++ n) = true
          \/ exists t es, lookup (root w) ["tmp"; n] = Some (Dir t es))
  end.
Proof.
  intros Hn. unfold guarded_remove, bind, os_path_exists.
  rewrite (stat_tmp_child _ _ Hn).
  destruct (faults E SysStat ("/tmp/" ++ n)) eqn:Hf.
  { intros [= <- <-]. repeat split; auto. discriminate. }
  destruct (lookup (root w) ["tmp"; n]) as [nd|] eqn:Hl.
  2:{ intros [= <- <-]. repeat split; auto. }
  unfold os_remove. destruct (faults E SysUnlink ("/tmp/" ++ n)) eqn:Hu.
  { intros [= <- <-]. auto. }
  destruct (unlink (root w) ("/tmp/" ++ n)) as [r'|] eqn:Hun.
  - intros [= <- <-]. rewrite (unlink_tmp _ _ _ Hn Hun).
    unfold with_root; cbn [root stdout].
    repeat split; auto. intros _. rewrite lookup_tmp_remove.
    now rewrite String.eqb_refl.
  - intros [= <- <-]. repeat split; auto. right.
    unfold unlink in Hun. rewrite (resolve_tmp_child _ _ Hn) in Hun.
    destruct (is_dir_at (root w) ["tmp"]) eqn:Ht.
    + rewrite Hl in Hun. change ["tmp"; n] with (["tmp"] ++ [n])%list in Hun.
      rewrite unsnoc_snoc in Hun. destruct nd as [m d|t es]; [discriminate|].
      eauto.
    + rewrite lookup_tmp_child in Hl. unfold is_dir_at in Ht.
      destruct (lookup (root w) ["tmp"]) as [[m d|t es]|]; discriminate.
Qed.

End TrimFacts.

Module TrimRun.
Import Path PathFacts FSFacts SweepFacts TrimFacts.

Lemma bind_run {A B} (m : M A) (k : A -> M B) (w : world) :
  bind m k w
  = match m w with
    | (Ok a, w') => k a w'
    | (Raise e, w') => (Raise e, w')
    end.
Proof. reflexivity. Qed.

Lemma bind_ok_inv {A B} (m : M A) (k : A -> M B) (w w' : world) (b : B) :
  bind m k w = (Ok b, w') ->
  exists a w1, m w = (Ok a, w1) /\ k a w1 = (Ok b, w').
Proof.
  rewrite bind_run. destruct (m w) as [[a|e] w1]; [eauto | discriminate].
Qed.

(** ** The handler *)

Lemma trim_except_run (E : env) (inp out : string) (e : exn) (w : world) :
  trim_except E inp out e w
  = match guarded_remove E inp (log_error w e) with
    | (Ok _, w1) =>
        match guarded_remove E out w1 with
        | (Ok _, w2) => (Raise (HTTPException 500 (str e)), w2)
        | (Raise e', w2) => (Raise e', w2)
        end
    | (Raise e', w1) => (Raise e', w1)
    end.
Proof.
  unfold trim_except, guarded_remove, bind, print, os_path_exists, raise, ret,
    log_error. cbv beta iota.
  repeat (match goal with
          | |- context [os_remove ?E ?p ?w0] =>
              destruct (os_remove E p w0) as [[[]|?] ?]
          | |- context [if ?c then _ else _] => destruct c
          end; cbv beta iota); reflexivity.
Qed.

Lemma exists_tmp_false (E : env) (n : string) (w : world) :
  valid_name n = true ->
  faults E SysStat ("/tmp/" ++ n) = true \/ lookup (root w) ["tmp"; n] = None ->
  fst (os_path_exists E ("/tmp/" ++ n) w) = Ok false.
Proof.
  intros Hn H. unfold os_path_exists. cbn [fst].
  rewrite (stat_tmp_child _ _ Hn).
  destruct (faults E SysStat ("/tmp/" ++ n)); [reflexivity|].
  destruct H as [H|H]; [discriminate | now rewrite H].
Qed.

(** What the handler can end in, for the two temp paths of a job. *)
Lemma trim_except_spec (E : env) (a b : string) (e : exn) (w : world)
      (res : result TrimResponse) (w' : world) :
  valid_name a = true -> valid_name b = true ->
  trim_except E ("/tmp/" ++ a) ("/tmp/" ++ b) e w = (res, w') ->
  tmp_only (root w) (root w')
  /\ ((res = Raise (HTTPException 500 (str e))
       /\ (faults E SysStat ("/tmp/" ++ a) = false ->
           lookup (root w') ["tmp"; a] = None)
       /\ (faults E SysStat ("/tmp/" ++ b) = false ->
           lookup (root w') ["tmp"; b] = None))
      \/ (res = Raise (OSError SysUnlink ("/tmp/" ++ a))
          /\ w' = log_error w e
          /\ (faults E SysUnlink ("/tmp/" ++ a) = true
              \/ exists t es, lookup (root w) ["tmp"; a] = Some (Dir t es)))
      \/ (res = Raise (OSError SysUnlink ("/tmp/" ++ b))
          /\ (faults E SysUnlink ("/tmp/" ++ b) = true
              \/ exists t es, lookup (root w) ["tmp"; b] = Some (Dir t es)))).
Proof.
  intros Ha Hb. rewrite trim_except_run.
  destruct (guarded_remove E ("/tmp/" ++ a) (log_error w e)) as [[[]|e1] w1] eqn:H1.
  - pose proof (guarded_remove_tmp E a _ _ _ Ha H1) as (Hs1 & Hr1 & Hg1).
    simpl in Hr1.
    assert (T1 : tmp_only (root w) (root w1)).
    { destruct Hr1 as [->| ->]; [apply tmp_only_refl | apply tmp_only_update]. }
    destruct (guarded_remove E ("/tmp/" ++ b) w1) as [[[]|e2] w2] eqn:H2.
    + pose proof (guarded_remove_tmp E b _ _ _ Hb H2) as (Hs2 & Hr2 & Hg2).
      intros [= <- <-]. split.
      * apply tmp_only_trans with (root w1); [exact T1|].
        destruct Hr2 as [->| ->]; [apply tmp_only_refl | apply tmp_only_update].
      * left. repeat split; [|exact Hg2].
        intros Hf. specialize (Hg1 Hf).
        destruct Hr2 as [->| ->]; [exact Hg1|].
        rewrite lookup_tmp_remove, Hg1. now destruct (String.eqb b a).
    + pose proof (guarded_remove_tmp E b _ _ _ Hb H2) as (-> & -> & Hc).
      intros [= <- <-]. split; [exact T1|]. right; right. split; [reflexivity|].
      destruct Hc as [Hc|(t & es & Hc)]; [now left|]. right.
      destruct Hr1 as [Hr1|Hr1]; rewrite Hr1 in Hc.
      * eauto.
      * rewrite lookup_tmp_remove in Hc.
        destruct (String.eqb a b); [discriminate | eauto].
  - pose proof (guarded_remove_tmp E a _ _ _ Ha H1) as (-> & -> & Hc).
    intros [= <- <-]. split; [apply tmp_only_refl|]. right; left. auto.
Qed.

(** ** System calls on a child of the Storage Directory *)

Lemma create_file_videos (r r' : node) (n : string) (m : float) (d : string) :
  valid_name n = true ->
  create_file r (os_path_join VIDEOS_DIR n) m d = Some r' ->
  r' = update_dir r videos_path (entry_put n (File m d)).
Proof.
  intros Hn. unfold create_file. rewrite (resolve_videos_child r n Hn).
  destruct (is_dir_at r videos_path) eqn:Hv; [|discriminate].
  change ["app"; "videos"; n] with (videos_path ++ [n])%list.
  rewrite unsnoc_snoc, Hv.
  destruct (lookup r (videos_path ++ [n])%list) as [[? ?|? ?]|];
    try discriminate; intros [= ?]; now subst.
Qed.

Lemma rename_tmp_videos (r r' : node) (b f : string) :
  valid_name b = true -> valid_name f = true ->
  rename r ("/tmp/" ++ b) (os_path_join VIDEOS_DIR f) = Some r' ->
  exists m d,
    lookup r ["tmp"; b] = Some (File m d)
    /\ r' = update_dir (update_dir r videos_path (entry_put f (File m d)))
                       ["tmp"] (entry_remove b).
Proof.
  intros Hb Hf. unfold rename.
  rewrite (resolve_tmp_child r b Hb), (resolve_videos_child r f Hf).
  destruct (is_dir_at r ["tmp"]); [|discriminate].
  destruct (is_dir_at r videos_path) eqn:Hv; [|discriminate].
  destruct (lookup r ["tmp"; b]) as [[m d|? ?]|]; try discriminate.
  change (unsnoc ["tmp"; b]) with (unsnoc (["tmp"] ++ [b])%list).
  change (unsnoc ["app"; "videos"; f]) with (unsnoc (videos_path ++ [f])%list).
  rewrite !unsnoc_snoc.
  destruct (list_eq_dec string_dec ["tmp"; b] ["app"; "videos"; f]) as [Heq|_];
    [discriminate|].
  rewrite Hv.
  destruct (lookup r ["app"; "videos"; f]) as [[? ?|? ?]|];
    try discriminate; intros [= <-]; eauto.
Qed.

Lemma storage_update_videos (r : node) (f : entries_t -> entries_t)
      (es : entries_t) :
  storage r = Some es -> storage (update_dir r videos_path f) = Some (f es).
Proof.
  unfold storage. rewrite lookup_update_dir_same.
  destruct (lookup r videos_path) as [[? ?|t es']|]; try discriminate.
  now intros [= ->].
Qed.

Lemma storage_tmp_only (r r' : node) :
  tmp_only r r' -> storage r' = storage r.
Proof. intros H. unfold storage. now rewrite (tmp_only_storage _ _ H). Qed.

Lemma storage_child_stat (r : node) (es : entries_t) (n : string) :
  valid_name n = true -> storage r = Some es ->
  stat r (os_path_join VIDEOS_DIR n) = assoc n es.
Proof.
  intros Hn Hs. apply storage_lookup in Hs as [t Hs].
  rewrite (stat_videos_child _ _ Hn). now apply storage_child with t.
Qed.

End TrimRun.

Module TrimBody.
Import Path PathFacts FSFacts SweepFacts TrimFacts TrimRun.

Lemma print_run (ev : event) (w : world) (res : result unit) (w' : world) :
  print ev w = (res, w') -> res = Ok tt /\ root w' = root w.
Proof. unfold print. now intros [= <- <-]. Qed.

Lemma requests_run (E : env) (url : string) (w : world) (res : result string)
      (w' : world) :
  requests_get_raise_for_status E url w = (res, w') ->
  w' = w
  /\ match requests_get E url with
     | HttpRaises e => res = Raise e
     | HttpResponse st content =>
         res = if ((400 <=? st) && (st <? 600))%Z then Raise (HTTPError st)
               else Ok content
     end.
Proof.
  unfold requests_get_raise_for_status.
  destruct (requests_get E url) as [e|st content].
  - unfold raise. now intros [= <- <-].
  - destruct ((400 <=? st) && (st <? 600))%Z; unfold raise, ret;
      now intros [= <- <-].
Qed.

Lemma open_wb_write_tmp (E : env) (n content : string) (w : world)
      (res : result unit) (w' : world) :
  valid_name n = true ->
  open_wb_write E ("/tmp/" ++ n) content w = (res, w') ->
  tmp_only (root w) (root w').
Proof.
  intros Hn. unfold open_wb_write.
  destruct (faults E SysOpen ("/tmp/" ++ n)).
  { intros [= <- <-]. apply tmp_only_refl. }
  destruct (create_file (root w) ("/tmp/" ++ n) (time_time E) "") as [r1|] eqn:H1.
  2:{ intros [= <- <-]. apply tmp_only_refl. }
  apply (create_file_tmp _ _ _ _ _ Hn) in H1 as [_ ->].
  destruct (faults E SysWrite ("/tmp/" ++ n)).
  { intros [= <- <-]. apply tmp_only_update. }
  match goal with |- context [create_file ?r ?p ?m ?d] =>
    destruct (create_file r p m d) as [r2|] eqn:H2 end.
  - apply (create_file_tmp _ _ _ _ _ Hn) in H2 as [_ ->].
    intros [= <- <-]. simpl root.
    eapply tmp_only_trans; apply tmp_only_update.
  - intros [= <- <-]. apply tmp_only_update.
Qed.

Lemma subprocess_run_tmp (E : env) (cmd : ffmpeg_cmd) (n : string) (w : world)
      (res : result (Z * string)) (w' : world) :
  valid_name n = true -> ff_output cmd = "/tmp/" ++ n ->
  subprocess_run E cmd w = (res, w') ->
  tmp_only (root w) (root w')
  /\ match ffmpeg E cmd with
     | RunRaises e _ => res = Raise e
     | RunCompleted rc err _ => res = Ok (rc, err)
     end.
Proof.
  intros Hn Hout. unfold subprocess_run. rewrite Hout.
  assert (Hw : forall data,
             tmp_only (root w)
               (root match data with
                     | Some d =>
                         match create_file (root w) ("/tmp/" ++ n) (time_time E) d with
                         | Some r' => with_root w r'
                         | None => w
                         end
                     | None => w
                     end)).
  { intros [d|]; [|apply tmp_only_refl].
    destruct (create_file (root w) ("/tmp/" ++ n) (time_time E) d) as [r'|] eqn:Hc;
      [|apply tmp_only_refl].
    apply (create_file_tmp _ _ _ _ _ Hn) in Hc as [_ ->]. apply tmp_only_update. }
  destruct (ffmpeg E cmd) as [e data|rc err data]; intros [= <- <-];
    (split; [apply Hw | reflexivity]).
Qed.

(** A failed fetch or transcode ends the [try] block before anything is
    moved: an exception, and changes under [/tmp] only. *)
Lemma trim_body_fails (E : env) (request : TrimRequest) (w : world) :
  fetch_fails E request \/ transcode_fails E request ->
  exists e w1,
    trim_body E request (job_input E) (job_output E) (job_final E)
              (os_path_join VIDEOS_DIR (job_final E)) w = (Raise e, w1)
    /\ tmp_only (root w) (root w1).
Proof.
  intros Hfail. unfold trim_body.
  rewrite bind_run. unfold print at 1. cbv beta iota.
  rewrite bind_run.
  match goal with |- context [requests_get_raise_for_status E ?u ?w0] =>
    destruct (requests_get_raise_for_status E u w0) as [[content|e] w1] eqn:Hreq
  end.
  2:{ apply requests_run in Hreq as [-> _]. do 2 eexists. split; [reflexivity|].
      apply tmp_only_refl. }
  apply requests_run in Hreq as [-> Hreq].
  assert (Htr : transcode_fails E request).
  { destruct Hfail as [Hf|Hf]; [|exact Hf]. exfalso. unfold fetch_fails in Hf.
    destruct (requests_get E (video_url request)) as [e|st c];
      [discriminate|].
    destruct (Z.leb_spec 400 st), (Z.ltb_spec st 600); simpl in Hreq;
      try discriminate; lia. }
  rewrite bind_run.
  match goal with |- context [open_wb_write E ?p ?c ?w0] =>
    destruct (open_wb_write E p c w0) as [[[]|e] w2] eqn:Hopen
  end;
    apply (open_wb_write_tmp E _ _ _ _ _ (input_name_valid (uuid4 E))) in Hopen;
    simpl root in Hopen.
  2:{ do 2 eexists. split; [reflexivity | exact Hopen]. }
  rewrite bind_run. unfold print at 1. cbv beta iota.
  rewrite bind_run. unfold print at 1. cbv beta iota.
  rewrite bind_run.
  change {| ff_input := job_input E;
            ff_ss := start_time request;
            ff_t := (end_time request - start_time request)%float;
            ff_vf_fade := ((end_time request - start_time request
                            - fade_duration request)%float,
                           fade_duration request);
            ff_af_fade := ((end_time request - start_time request
                            - fade_duration request)%float,
                           fade_duration request);
            ff_output := job_output E |}
    with (trim_cmd request (job_input E) (job_output E)).
  match goal with |- context [subprocess_run E ?c ?w0] =>
    destruct (subprocess_run E c w0) as [[[rc err]|e] w3] eqn:Hrun
  end;
    apply (subprocess_run_tmp E (trim_cmd request (job_input E) (job_output E))
             (uuid_str (uuid4 E) ++ "_output.mp4") _ _ _
             (output_name_valid (uuid4 E)) eq_refl)
      in Hrun as [Ht Hrun]; simpl root in Ht;
    pose proof (tmp_only_trans _ _ _ Hopen Ht) as Hall.
  2:{ do 2 eexists. split; [reflexivity | exact Hall]. }
  unfold transcode_fails in Htr. fold (job_id E) in Htr.
  fold (job_input E) in Htr. fold (job_output E) in Htr.
  destruct (ffmpeg E (trim_cmd request (job_input E) (job_output E)))
    as [e data|rc' err' data]; [discriminate|].
  injection Hrun as <- <-.
  rewrite bind_run. cbn [fst snd].
  apply Z.eqb_neq in Htr. rewrite Htr. cbn [negb]. unfold raise at 1.
  cbv beta iota. do 2 eexists. split; [reflexivity | exact Hall].
Qed.

End TrimBody.

Module TrimSuccess.
Import Path PathFacts FSFacts SweepFacts TrimFacts TrimRun TrimBody.

Lemma os_rename_raises (E : env) (src dst : string) (w : world) (e : exn)
      (w' : world) :
  os_rename E src dst w = (Raise e, w') -> w' = w.
Proof.
  unfold os_rename. destruct (faults E SysRename src).
  - now intros [= _ <-].
  - destruct (rename (root w) src dst); [discriminate | now intros [= _ <-]].
Qed.

(** A successful copy of a temp file into the Storage Directory. *)
Lemma shutil_copy2_ok (E : env) (b f : string) (w w' : world) (u : unit) :
  valid_name b = true -> valid_name f = true ->
  shutil_copy2 E ("/tmp/" ++ b) (os_path_join VIDEOS_DIR f) w = (Ok u, w') ->
  exists m d,
    lookup (root w) ["tmp"; b] = Some (File m d)
    /\ root w' = update_dir (root w) videos_path (entry_put f (File m d)).
Proof.
  intros Hb Hf. unfold shutil_copy2.
  destruct (faults E SysOpen ("/tmp/" ++ b)); [discriminate|].
  rewrite (stat_tmp_child _ _ Hb).
  destruct (lookup (root w) ["tmp"; b]) as [[m d|? ?]|]; try discriminate.
  destruct (faults E SysOpen (os_path_join VIDEOS_DIR f)); [discriminate|].
  destruct (create_file (root w) (os_path_join VIDEOS_DIR f) (time_time E) "")
    as [r1|] eqn:H1; [|discriminate].
  apply (create_file_videos _ _ _ _ _ Hf) in H1 as ->.
  destruct (faults E SysWrite (os_path_join VIDEOS_DIR f)); [discriminate|].
  match goal with |- context [create_file ?r ?p ?m ?d] =>
    destruct (create_file r p m d) as [r2|] eqn:H2 end; [|discriminate].
  apply (create_file_videos _ _ _ _ _ Hf) in H2 as ->.
  intros [= _ <-]. exists m, d. split; [reflexivity|]. cbn [root with_root].
  rewrite update_dir_compose. apply update_dir_ext.
  intros es. apply entry_put_put.
Qed.

(** A successful move of the temp output to a fresh name of the Storage
    Directory: the file is there, the temp path is gone, and nothing else
    of the Storage Directory changed. *)
Lemma shutil_move_ok (E : env) (b f : string) (w w' : world) (u : unit)
      (es : entries_t) :
  valid_name b = true -> valid_name f = true ->
  storage (root w) = Some es -> assoc f es = None ->
  shutil_move E ("/tmp/" ++ b) (os_path_join VIDEOS_DIR f) w = (Ok u, w') ->
  exists m d,
    lookup (root w) ["tmp"; b] = Some (File m d)
    /\ storage (root w') = Some (es ++ [(f, File m d)])%list
    /\ forall x, lookup (root w') ["tmp"; x]
                 = if String.eqb b x then None else lookup (root w) ["tmp"; x].
Proof.
  intros Hb Hf Hs Hfresh. unfold shutil_move.
  rewrite bind_run. unfold os_path_isdir at 1. cbv beta iota.
  rewrite (storage_child_stat _ _ _ Hf Hs), Hfresh.
  assert ((if faults E SysStat (os_path_join VIDEOS_DIR f) then false else false)
          = false) as -> by now destruct (faults E SysStat _).
  rewrite bind_run. unfold ret at 1. cbv beta iota.
  unfold try_except.
  destruct (os_rename E ("/tmp/" ++ b) (os_path_join VIDEOS_DIR f) w)
    as [[[]|e] w1] eqn:Hren.
  - intros [= _ <-]. unfold os_rename in Hren.
    destruct (faults E SysRename ("/tmp/" ++ b)); [discriminate|].
    destruct (rename (root w) ("/tmp/" ++ b) (os_path_join VIDEOS_DIR f))
      as [r'|] eqn:Hr; [|discriminate].
    injection Hren as <-.
    apply (rename_tmp_videos _ _ _ _ Hb Hf) in Hr as (m & d & Hl & ->).
    exists m, d. cbn [root with_root]. repeat split; [exact Hl| |].
    + rewrite (storage_tmp_only _ _ (tmp_only_update _ _)).
      rewrite (storage_update_videos _ _ _ Hs).
      now rewrite (entry_put_fresh _ _ _ Hfresh).
    + intros x. now rewrite lookup_tmp_remove, lookup_tmp_videos.
  - apply os_rename_raises in Hren as ->.
    rewrite bind_run.
    destruct (shutil_copy2 E ("/tmp/" ++ b) (os_path_join VIDEOS_DIR f) w)
      as [[[]|e1] w2] eqn:Hcp; [|discriminate].
    apply (shutil_copy2_ok _ _ _ _ _ _ Hb Hf) in Hcp as (m & d & Hl & Hr2).
    intros Hrm. apply (os_remove_tmp _ _ _ _ _ Hb) in Hrm. cbv beta iota in Hrm.
    subst w'. exists m, d. cbn [root with_root]. rewrite Hr2.
    repeat split; [exact Hl| |].
    + rewrite (storage_tmp_only _ _ (tmp_only_update _ _)).
      rewrite (storage_update_videos _ _ _ Hs).
      now rewrite (entry_put_fresh _ _ _ Hfresh).
    + intros x. now rewrite lookup_tmp_remove, lookup_tmp_videos.
Qed.

(** The [try] block that returns: one new entry in the Storage Directory,
    both temp paths gone. *)
Lemma trim_body_ok (E : env) (request : TrimRequest) (w w' : world)
      (resp : TrimResponse) (es : entries_t) :
  storage (root w) = Some es -> assoc (job_final E) es = None ->
  trim_body E request (job_input E) (job_output E) (job_final E)
            (os_path_join VIDEOS_DIR (job_final E)) w = (Ok resp, w') ->
  (exists m d, storage (root w') = Some (es ++ [(job_final E, File m d)])%list)
  /\ lookup (root w') ["tmp"; job_id E ++ "_input.mp4"] = None
  /\ lookup (root w') ["tmp"; job_id E ++ "_output.mp4"] = None
  /\ resp = {| success := true;
               resp_video_url := public_base ++ job_final E;
               message := "Video trimmed and hosted successfully" |}.
Proof.
  intros Hs Hfresh H. unfold trim_body in H.
  apply bind_ok_inv in H as (u0 & w0 & H0 & H). apply print_run in H0 as [_ R0].
  apply bind_ok_inv in H as (content & w1 & H1 & H).
  apply requests_run in H1 as [-> _].
  apply bind_ok_inv in H as (u2 & w2 & H2 & H).
  apply (open_wb_write_tmp E _ _ _ _ _ (input_name_valid (uuid4 E))) in H2.
  apply bind_ok_inv in H as (u3 & w3 & H3 & H). apply print_run in H3 as [_ R3].
  apply bind_ok_inv in H as (u4 & w4 & H4 & H). apply print_run in H4 as [_ R4].
  apply bind_ok_inv in H as (result & w5 & H5 & H).
  apply (subprocess_run_tmp E (trim_cmd request (job_input E) (job_output E))
           (uuid_str (uuid4 E) ++ "_output.mp4") _ _ _
           (output_name_valid (uuid4 E)) eq_refl) in H5 as [H5 _].
  apply bind_ok_inv in H as (u6 & w6 & H6 & H).
  assert (w6 = w5) as ->.
  { destruct (negb (fst result =? 0)%Z); [discriminate|].
    unfold ret in H6. now injection H6 as _ <-. }
  clear H6.
  assert (Hs5 : storage (root w5) = Some es).
  { rewrite <- Hs. apply storage_tmp_only. rewrite <- R0.
    apply tmp_only_trans with (root w2); [exact H2|].
    rewrite <- R3, <- R4. exact H5. }
  apply bind_ok_inv in H as (u7 & w7 & H7 & H).
  apply (shutil_move_ok E _ _ _ _ _ es (output_name_valid (uuid4 E))
           (final_name_valid (uuid4 E)) Hs5 Hfresh) in H7
    as (m & d & _ & Hs7 & Htmp7).
  apply bind_ok_inv in H as (u8 & w8 & H8 & H). apply print_run in H8 as [_ R8].
  apply bind_ok_inv in H as (u9 & w9 & H9 & H).
  apply (os_remove_tmp E _ _ _ _ (input_name_valid (uuid4 E))) in H9.
  cbv beta iota in H9. subst w9.
  apply bind_ok_inv in H as (u10 & w10 & H10 & H).
  apply print_run in H10 as [_ R10]. cbn [root with_root] in R10.
  unfold ret in H. injection H as <- <-.
  rewrite R10. repeat split.
  - exists m, d. rewrite (storage_tmp_only _ _ (tmp_only_update _ _)).
    now rewrite R8.
  - rewrite lookup_tmp_remove. unfold job_id. now rewrite String.eqb_refl.
  - rewrite lookup_tmp_remove, R8, Htmp7. unfold job_id.
    rewrite String.eqb_refl. now destruct (String.eqb _ _).
Qed.

End TrimSuccess.

(* ===================================================================== *)
(** * The claims *)
(* ===================================================================== *)

Import Path PathFacts FSFacts SweepFacts TrimFacts TrimRun TrimBody TrimSuccess.

Lemma assoc_filter (P : string * node -> bool) (n : string) (nd : node)
      (es : entries_t) :
  NoDup (map fst es) -> In (n, nd) es ->
  assoc n (filter P es) = if P (n, nd) then Some nd else None.
Proof.
  induction es as [|[k v] rest IH]; simpl; [tauto|].
  intros Hn Hin. inversion Hn as [|? ? Hk Hn']; subst.
  assert (Hgone : forall c, ~ In c (map fst rest) ->
                            assoc c (filter P rest) = None).
  { intros c Hc. apply assoc_not_in. intros Hx. apply Hc.
    apply in_map_iff in Hx as [y [Hy Hx]]. apply filter_In in Hx as [Hx _].
    apply in_map_iff. now exists y. }
  destruct Hin as [[= -> ->]|Hin].
  - destruct (P (n, nd)); simpl.
    + now rewrite String.eqb_refl.
    + now apply Hgone.
  - assert (Hkn : String.eqb k n = false).
    { apply String.eqb_neq. intros ->. apply Hk.
      apply in_map_iff. now exists (n, nd). }
    destruct (P (k, v)); simpl; [rewrite Hkn|]; now apply IH.
Qed.

Lemma plain_or_special (s : string) :
  no_sep s = true ->
  valid_name s = true \/ s = "" \/ s = "." \/ s = "..".
Proof.
  intros H. unfold valid_name. rewrite H. simpl.
  destruct (String.eqb_spec s ""); [auto|].
  destruct (String.eqb_spec s "."); [auto|].
  destruct (String.eqb_spec s ".."); auto.
Qed.

(** The three reserved names resolve to a directory, if to anything. *)
Lemma stat_special_not_file (r : node) (s : string) (m : float) (d : string) :
  s = "" \/ s = "." \/ s = ".." ->
  stat r (os_path_join VIDEOS_DIR s) <> Some (File m d).
Proof.
  intros Hs. unfold stat, resolve.
  assert (Hd : forall p, is_dir_at r p = true -> lookup r p <> Some (File m d)).
  { intros p. unfold is_dir_at.
    destruct (lookup r p) as [[? ?|? ?]|]; congruence. }
  destruct Hs as [->|[->| ->]]; vm_compute os_path_join; vm_compute split;
    cbn [walk String.eqb Ascii.eqb Bool.eqb orb removelast app];
    destruct (is_dir_at r []) eqn:H0; try discriminate;
    destruct (is_dir_at r ["app"]) eqn:H1; try discriminate;
    destruct (is_dir_at r ["app"; "videos"]) eqn:H2; try discriminate;
    now apply Hd.
Qed.

(** C1: for every requested filename, that is, every value the route
    [/video/{filename}] binds (one path segment, so no separator), File
    Retrieval never returns the bytes of a file outside the Storage
    Directory: a body it returns is that of the regular file entered in the
    Storage Directory under that very name.  The path-traversal names such a
    segment can carry ([.] and [..]; the empty name likewise) are never
    served: a response for one of them has no body. *)
Theorem serve_video_plain_name_inside
        (E : env) (w w' : world) (filename : string) (resp : response) :
  no_sep filename = true ->
  serve_video E filename w = (Ok resp, w') ->
  w' = w
  /\ (forall data,
        response_body w' resp = Some data ->
        exists m, lookup (root w) (videos_path ++ [filename])%list
                  = Some (File m data))
  /\ (valid_name filename = false -> response_body w' resp = None).
Proof.
  intros Hplain Hrun. unfold serve_video in Hrun.
  apply bind_ok_inv in Hrun as (ex & w1 & Hex & Hrun).
  unfold os_path_exists in Hex. injection Hex as <- <-.
  match type of Hrun with (if negb ?c then _ else _) _ = _ =>
    destruct c end; [|discriminate].
  cbn [negb] in Hrun. unfold ret in Hrun. injection Hrun as <- <-.
  split; [reflexivity|]. unfold response_body. split.
  - intros data Hbody.
    destruct (stat (root w) (os_path_join VIDEOS_DIR filename))
      as [[m d|? ?]|] eqn:Hst; try discriminate.
    injection Hbody as ->. exists m.
    destruct (plain_or_special _ Hplain) as [Hv|Hs].
    + rewrite (stat_videos_child _ _ Hv) in Hst. exact Hst.
    + exfalso. now apply (stat_special_not_file (root w) filename m data Hs).
  - intros Hinv.
    destruct (plain_or_special _ Hplain) as [Hv|Hs]; [congruence|].
    destruct (stat (root w) (os_path_join VIDEOS_DIR filename))
      as [[m d|? ?]|] eqn:Hst; try reflexivity.
    exfalso. now apply (stat_special_not_file (root w) filename m d Hs).
Qed.

Lemma serve_video_plain_name_inside_witness :
  (exists m, lookup (root ex_world) (videos_path ++ ["b.mp4"])%list
             = Some (File m "B"))
  /\ response_body ex_world (FileResponse "/app/videos/.." "video/mp4") = None.
Proof.
  split.
  - destruct (serve_video_plain_name_inside ex_env ex_world ex_world "b.mp4"
                (FileResponse "/app/videos/b.mp4" "video/mp4")
                eq_refl eq_refl) as (_ & H & _).
    exact (H "B" eq_refl).
  - destruct (serve_video_plain_name_inside ex_env ex_world ex_world ".."
                (FileResponse "/app/videos/.." "video/mp4")
                eq_refl eq_refl) as (_ & _ & H).
    exact (H eq_refl).
Defined.

(** C5: for every state of the Storage Directory, one pass of the sweep
    (when no system call is refused) deletes exactly the regular files whose
    age, [now - mtime], exceeds 3600 seconds: the listing afterwards is the
    old one without them, every other object of the file system is as it
    was, and each entry is gone or untouched according to that test. *)
Theorem sweep_deletes_exactly_expired
        (E : env) (w : world) (t : float) (es : entries_t) :
  no_faults E ->
  lookup (root w) videos_path = Some (Dir t es) ->
  wf_entries es ->
  root (snd (cleanup_old_videos E w))
  = set_entries (root w) videos_path
      (filter (fun kv => negb (expired (time_time E) (snd kv))) es)
  /\ forall n nd,
      In (n, nd) es ->
      stat (root (snd (cleanup_old_videos E w))) (os_path_join VIDEOS_DIR n)
      = if expired (time_time E) nd then None else Some nd.
Proof.
  intros Hq Hdir Hwf.
  assert (Hroot : root (snd (cleanup_old_videos E w))
                  = set_entries (root w) videos_path
                      (filter (fun kv => negb (expired (time_time E) (snd kv))) es)).
  { rewrite (cleanup_old_videos_root E w t es Hdir Hwf), (Hq SysListdir).
    f_equal. rewrite sweep_entries_no_refusal.
    - apply filter_ext. intros kv. unfold selected. now rewrite (Hq SysStat).
    - intros kv _ _. apply Hq. }
  split; [exact Hroot|].
  intros n nd Hin. destruct Hwf as [Hv Hn].
  assert (Hname : valid_name n = true).
  { rewrite Forall_forall in Hv. apply (Hv (n, nd) Hin). }
  rewrite (stat_videos_child _ _ Hname), Hroot.
  change ["app"; "videos"; n] with (videos_path ++ [n])%list.
  unfold set_entries. rewrite lookup_child, lookup_update_dir_same, Hdir.
  rewrite (assoc_filter _ n nd es Hn Hin). simpl snd.
  now destruct (expired (time_time E) nd).
Qed.

Lemma sweep_deletes_exactly_expired_witness :
  root (snd (cleanup_old_videos ex_env ex_world))
  = set_entries (root ex_world) videos_path [("b.mp4", File 9000 "B")]
  /\ forall n nd,
      In (n, nd) [("a.mp4", File 0 "A"); ("b.mp4", File 9000 "B")] ->
      stat (root (snd (cleanup_old_videos ex_env ex_world)))
           (os_path_join VIDEOS_DIR n)
      = if expired (time_time ex_env) nd then None else Some nd.
Proof.
  apply (sweep_deletes_exactly_expired ex_env ex_world 0
           [("a.mp4", File 0 "A"); ("b.mp4", File 9000 "B")]).
  - intros c p. reflexivity.
  - reflexivity.
  - split.
    + repeat constructor.
    + repeat constructor; simpl; intuition discriminate.
Defined.

(** C6: the sweep is idempotent.  For every state of the Storage Directory,
    a second pass with no file added, which meets the same refusals and in
    which no file left by the first pass has changed verdict (the clock may
    have advanced, but not past the threshold of a kept file), deletes
    nothing more: the file system after it is the one the first pass left. *)
Theorem sweep_idempotent
        (E1 E2 : env) (w : world) (t : float) (es : entries_t) :
  (forall c p, faults E2 c p = faults E1 c p) ->
  lookup (root w) videos_path = Some (Dir t es) ->
  wf_entries es ->
  (forall es1 kv,
      storage (root (snd (cleanup_old_videos E1 w))) = Some es1 ->
      In kv es1 ->
      expired (time_time E2) (snd kv) = expired (time_time E1) (snd kv)) ->
  root (snd (cleanup_old_videos E2 (snd (cleanup_old_videos E1 w))))
  = root (snd (cleanup_old_videos E1 w)).
Proof.
  intros Hf Hdir Hwf Hage.
  pose proof (cleanup_old_videos_root E1 w t es Hdir Hwf) as H1.
  rewrite <- (Hf SysListdir VIDEOS_DIR) in H1.
  destruct (faults E2 SysListdir VIDEOS_DIR) eqn:Hl.
  - rewrite (cleanup_old_videos_root E2 _ t es); [now rewrite Hl | |exact Hwf].
    now rewrite H1.
  - assert (Hdir1 : lookup (root (snd (cleanup_old_videos E1 w))) videos_path
                    = Some (Dir t (sweep_entries E1 (time_time E1) es))).
    { rewrite H1. unfold set_entries.
      now rewrite lookup_update_dir_same, Hdir. }
    rewrite (cleanup_old_videos_root E2 _ t _ Hdir1
               (sweep_entries_wf E1 (time_time E1) es Hwf)), Hl.
    rewrite (sweep_entries_idem E1 E2 _ _ es Hf).
    + now apply set_entries_same with t.
    + intros kv Hkv. apply (Hage (sweep_entries E1 (time_time E1) es)); trivial.
      apply storage_lookup. now exists t.
Qed.

Lemma sweep_idempotent_witness :
  root (snd (cleanup_old_videos ex_env_later
               (snd (cleanup_old_videos ex_env ex_world))))
  = root (snd (cleanup_old_videos ex_env ex_world)).
Proof.
  apply (sweep_idempotent ex_env ex_env_later ex_world 0
           [("a.mp4", File 0 "A"); ("b.mp4", File 9000 "B")]).
  - reflexivity.
  - reflexivity.
  - split.
    + repeat constructor.
    + repeat constructor; simpl; intuition discriminate.
  - intros es1 kv Hs. vm_compute in Hs. injection Hs as <-.
    intros [<-|[]]. reflexivity.
Defined.

(** C3 (as stated) fails: the deletion of [a.mp4] is refused, and
    [c.mp4], listed after it, expired and deletable, is still there when
    the pass is over. *)
Lemma sweep_aborts_on_refused_delete :
  selected ex_env_refuse_a (time_time ex_env_refuse_a) ("c.mp4", File 0 "C")
  = true
  /\ unlink_refused ex_env_refuse_a ("c.mp4", File 0 "C") = false
  /\ stat (root (snd (cleanup_old_videos ex_env_refuse_a ex_world_three)))
          "/app/videos/c.mp4"
     = Some (File 0 "C")
  /\ stat (root (snd (cleanup_old_videos ex_env_refuse_a ex_world_three)))
          "/app/videos/0.mp4"
     = None.
Proof. repeat split; reflexivity. Qed.

(** C9 (as stated) fails: when the Storage Directory cannot be listed,
    because the call is refused or the directory is gone, the pass itself
    returns normally and [GET /cleanup] raises instead of answering. *)
Lemma manual_cleanup_listing_failure :
  fst (cleanup_old_videos ex_env_nolist ex_world) = Ok tt
  /\ fst (manual_cleanup ex_env_nolist ex_world)
     = Raise (OSError SysListdir "/app/videos")
  /\ fst (cleanup_old_videos ex_env ex_world_bare) = Ok tt
  /\ fst (manual_cleanup ex_env ex_world_bare)
     = Raise (OSError SysListdir "/app/videos").
Proof. repeat split; reflexivity. Qed.

(** C10: for every filename whose joined path exists, whatever the object
    there is, [GET /video/{filename}] answers with a [FileResponse] of media
    type [video/mp4] for that path; a path that [os.path.exists] does not
    see yields the 404, and the 404 is the only error raised, only for such
    a path.  The file system is not changed. *)
Theorem serve_video_media_type
        (E : env) (filename : string) (w : world)
        (res : result response) (w' : world) :
  serve_video E filename w = (res, w') ->
  w' = w
  /\ (forall nd,
        faults E SysStat (os_path_join VIDEOS_DIR filename) = false ->
        stat (root w) (os_path_join VIDEOS_DIR filename) = Some nd ->
        res = Ok (FileResponse (os_path_join VIDEOS_DIR filename) "video/mp4"))
  /\ (faults E SysStat (os_path_join VIDEOS_DIR filename) = true
      \/ stat (root w) (os_path_join VIDEOS_DIR filename) = None ->
      res = Raise (HTTPException 404 "Video not found"))
  /\ (forall e,
        res = Raise e ->
        e = HTTPException 404 "Video not found"
        /\ (faults E SysStat (os_path_join VIDEOS_DIR filename) = true
            \/ stat (root w) (os_path_join VIDEOS_DIR filename) = None)).
Proof.
  unfold serve_video. rewrite bind_run. unfold os_path_exists. cbv beta iota.
  destruct (faults E SysStat (os_path_join VIDEOS_DIR filename)).
  - cbn [negb]. unfold raise. intros [= <- <-].
    split; [reflexivity|]. split; [discriminate|]. split; [reflexivity|].
    intros e [= <-]. split; [reflexivity | now left].
  - destruct (stat (root w) (os_path_join VIDEOS_DIR filename)) as [nd|].
    + cbn [negb]. unfold ret. intros [= <- <-].
      split; [reflexivity|]. split; [reflexivity|].
      split; [intros [H|H]; discriminate|]. discriminate.
    + cbn [negb]. unfold raise. intros [= <- <-].
      split; [reflexivity|]. split; [discriminate|]. split; [reflexivity|].
      intros e [= <-]. split; [reflexivity | now right].
Qed.

Lemma serve_video_media_type_witness :
  fst (serve_video ex_env "b.mp4" ex_world)
  = Ok (FileResponse (os_path_join VIDEOS_DIR "b.mp4") "video/mp4")
  /\ fst (serve_video ex_env "nope.mp4" ex_world)
     = Raise (HTTPException 404 "Video not found").
Proof.
  split.
  - destruct (serve_video_media_type ex_env "b.mp4" ex_world
                (fst (serve_video ex_env "b.mp4" ex_world))
                (snd (serve_video ex_env "b.mp4" ex_world)) eq_refl)
      as (_ & H & _).
    exact (H (File 9000 "B") eq_refl eq_refl).
  - destruct (serve_video_media_type ex_env "nope.mp4" ex_world
                (fst (serve_video ex_env "nope.mp4" ex_world))
                (snd (serve_video ex_env "nope.mp4" ex_world)) eq_refl)
      as (_ & _ & H & _).
    exact (H (or_intror eq_refl)).
Defined.

(** A request that returns normally ran its [try] block to the end. *)
Lemma trim_video_ok_inv (E : env) (request : TrimRequest) (w w' : world)
      (resp : TrimResponse) :
  trim_video E request w = (Ok resp, w') ->
  trim_body E request (job_input E) (job_output E) (job_final E)
            (os_path_join VIDEOS_DIR (job_final E)) w = (Ok resp, w').
Proof.
  unfold trim_video, try_except. cbv zeta.
  fold (job_id E). fold (job_input E). fold (job_output E). fold (job_final E).
  destruct (trim_body E request (job_input E) (job_output E) (job_final E)
              (os_path_join VIDEOS_DIR (job_final E)) w) as [[r|e] w1];
    [trivial|].
  intros H.
  apply (trim_except_spec E _ _ e w1 _ _ (input_name_valid (uuid4 E))
           (output_name_valid (uuid4 E))) in H
    as [_ [[H _]|[[H _]|[H _]]]]; discriminate.
Qed.

Lemma trim_video_raise_inv (E : env) (request : TrimRequest) (w : world)
      (e : exn) (w1 : world) :
  trim_body E request (job_input E) (job_output E) (job_final E)
            (os_path_join VIDEOS_DIR (job_final E)) w = (Raise e, w1) ->
  trim_video E request w = trim_except E (job_input E) (job_output E) e w1.
Proof.
  intros H. unfold trim_video, try_except. cbv zeta.
  fold (job_id E). fold (job_input E). fold (job_output E). fold (job_final E).
  now rewrite H.
Qed.

(** C7: for every trim request with [0 <= start_time < end_time] and
    [0 <= fade_duration <= end_time - start_time], served under a fresh job
    identifier, a run of [POST /trim] that returns its success payload has
    added exactly one entry, a regular file under the final name, to the
    Storage Directory (the other entries are as before, in the same order),
    and neither temp path exists any more. *)
Theorem trim_success_one_new_file
        (E : env) (request : TrimRequest) (w w' : world)
        (resp : TrimResponse) (es : entries_t) :
  (0 <=? start_time request)%float = true ->
  (start_time request <? end_time request)%float = true ->
  (0 <=? fade_duration request)%float = true ->
  (fade_duration request <=? end_time request - start_time request)%float
  = true ->
  storage (root w) = Some es ->
  assoc (job_final E) es = None ->
  trim_video E request w = (Ok resp, w') ->
  (exists m d,
      storage (root w') = Some (es ++ [(job_final E, File m d)])%list)
  /\ stat (root w') (job_input E) = None
  /\ stat (root w') (job_output E) = None
  /\ resp_video_url resp = public_base ++ job_final E.
Proof.
  intros _ _ _ _ Hs Hfresh Hrun.
  apply trim_video_ok_inv in Hrun.
  destruct (trim_body_ok E request w w' resp es Hs Hfresh Hrun)
    as (Hnew & Hin & Hout & ->).
  repeat split; trivial.
  - unfold job_input, input_path_of.
    now rewrite (stat_tmp_child _ _ (input_name_valid (uuid4 E))).
  - unfold job_output, output_path_of.
    now rewrite (stat_tmp_child _ _ (output_name_valid (uuid4 E))).
Qed.

Lemma trim_success_one_new_file_witness :
  (exists m d,
      storage (root (snd (trim_video ex_env ex_request ex_world)))
      = Some ([("a.mp4", File 0 "A"); ("b.mp4", File 9000 "B")]
              ++ [(job_final ex_env, File m d)])%list)
  /\ stat (root (snd (trim_video ex_env ex_request ex_world)))
          (job_input ex_env) = None
  /\ stat (root (snd (trim_video ex_env ex_request ex_world)))
          (job_output ex_env) = None
  /\ resp_video_url
       {| success := true;
          resp_video_url := public_base ++ job_final ex_env;
          message := "Video trimmed and hosted successfully" |}
     = public_base ++ job_final ex_env.
Proof.
  apply (trim_success_one_new_file ex_env ex_request ex_world);
    vm_compute; reflexivity.
Defined.

(** C4: for every [POST /trim] whose fetch or transcode step fails, once
    the handler has raised its error response (the HTTP 500), the Storage
    Directory is exactly as it was before the request and neither the temp
    input nor the temp output path exists ([stat] of the two temp paths not
    being refused). *)
Theorem trim_failure_leaves_nothing
        (E : env) (request : TrimRequest) (w w' : world)
        (code : Z) (detail : string) :
  fetch_fails E request \/ transcode_fails E request ->
  faults E SysStat (job_input E) = false ->
  faults E SysStat (job_output E) = false ->
  trim_video E request w = (Raise (HTTPException code detail), w') ->
  lookup (root w') videos_path = lookup (root w) videos_path
  /\ stat (root w') (job_input E) = None
  /\ stat (root w') (job_output E) = None.
Proof.
  intros Hfail Hsi Hso Hrun.
  destruct (trim_body_fails E request w Hfail) as (e & w1 & Hbody & T1).
  rewrite (trim_video_raise_inv E request w e w1 Hbody) in Hrun.
  apply (trim_except_spec E _ _ e w1 _ _ (input_name_valid (uuid4 E))
           (output_name_valid (uuid4 E))) in Hrun
    as [T2 [(_ & Hin & Hout)|[[H _]|[H _]]]]; try discriminate.
  repeat split.
  - apply tmp_only_storage. now apply tmp_only_trans with (root w1).
  - unfold job_input, input_path_of.
    rewrite (stat_tmp_child _ _ (input_name_valid (uuid4 E))). now apply Hin.
  - unfold job_output, output_path_of.
    rewrite (stat_tmp_child _ _ (output_name_valid (uuid4 E))). now apply Hout.
Qed.

Lemma trim_failure_leaves_nothing_witness :
  lookup (root (snd (trim_video ex_env_ffmpeg_fails ex_request ex_world)))
         videos_path
  = lookup (root ex_world) videos_path
  /\ stat (root (snd (trim_video ex_env_ffmpeg_fails ex_request ex_world)))
          (job_input ex_env_ffmpeg_fails) = None
  /\ stat (root (snd (trim_video ex_env_ffmpeg_fails ex_request ex_world)))
          (job_output ex_env_ffmpeg_fails) = None.
Proof.
  apply (trim_failure_leaves_nothing ex_env_ffmpeg_fails ex_request ex_world
           _ 500 "FFmpeg failed: boom").
  - right. unfold transcode_fails. simpl. discriminate.
  - reflexivity.
  - reflexivity.
  - vm_compute. reflexivity.
Defined.

(** C2 (as amended): for every [POST /trim] whose [try] block fails, the
    handler logs the error, removes the temp input and then the temp output
    when [os.path.exists] reports them, and raises the HTTP 500 that carries
    the original error's text.  An exception raised by one of the two
    removals is not caught: it is raised in place of the original error, and
    when it comes from the temp input the temp output is not attended to at
    all.  Whatever happens, only [/tmp] is touched. *)
Theorem trim_cleanup_error_propagates
        (E : env) (request : TrimRequest) (w : world) (e : exn) (w1 : world) :
  trim_body E request (job_input E) (job_output E) (job_final E)
            (os_path_join VIDEOS_DIR (job_final E)) w = (Raise e, w1) ->
  exists raised w2,
    trim_video E request w = (Raise raised, w2)
    /\ tmp_only (root w1) (root w2)
    /\ ((raised = HTTPException 500 (str e)
         /\ fst (os_path_exists E (job_input E) w2) = Ok false
         /\ fst (os_path_exists E (job_output E) w2) = Ok false)
        \/ (raised = OSError SysUnlink (job_input E)
            /\ w2 = log_error w1 e
            /\ (faults E SysUnlink (job_input E) = true
                \/ exists t es,
                  stat (root w1) (job_input E) = Some (Dir t es)))
        \/ (raised = OSError SysUnlink (job_output E)
            /\ (faults E SysUnlink (job_output E) = true
                \/ exists t es,
                  stat (root w1) (job_output E) = Some (Dir t es)))).
Proof.
  intros Hbody. rewrite (trim_video_raise_inv E request w e w1 Hbody).
  pose proof (input_name_valid (uuid4 E)) as Ha.
  pose proof (output_name_valid (uuid4 E)) as Hb.
  destruct (trim_except E (job_input E) (job_output E) e w1) as [res w2] eqn:Hx.
  apply (trim_except_spec E _ _ e w1 _ _ Ha Hb) in Hx as [T Hx].
  unfold job_input, job_output, input_path_of, output_path_of.
  rewrite !(stat_tmp_child _ _ Ha), !(stat_tmp_child _ _ Hb).
  destruct Hx as [(-> & Hin & Hout)|[(-> & -> & Hc)|(-> & Hc)]].
  - exists (HTTPException 500 (str e)), w2.
    split; [reflexivity|]. split; [exact T|].
    left. split; [reflexivity|]. split.
    + apply (exists_tmp_false E _ w2 Ha).
      destruct (faults E SysStat ("/tmp/" ++ uuid_str (uuid4 E) ++ "_input.mp4"));
        [now left | right; now apply Hin].
    + apply (exists_tmp_false E _ w2 Hb).
      destruct (faults E SysStat ("/tmp/" ++ uuid_str (uuid4 E) ++ "_output.mp4"));
        [now left | right; now apply Hout].
  - eexists _, _. split; [reflexivity|]. split; [exact T|].
    right; left. auto.
  - eexists _, _. split; [reflexivity|]. split; [exact T|].
    right; right. auto.
Qed.

Lemma trim_cleanup_error_propagates_witness :
  exists raised w2,
    trim_video ex_env_ffmpeg_fails_stuck ex_request ex_world
    = (Raise raised, w2)
    /\ tmp_only
         (root (snd (trim_body ex_env_ffmpeg_fails_stuck ex_request
                       (job_input ex_env_ffmpeg_fails_stuck)
                       (job_output ex_env_ffmpeg_fails_stuck)
                       (job_final ex_env_ffmpeg_fails_stuck)
                       (os_path_join VIDEOS_DIR
                          (job_final ex_env_ffmpeg_fails_stuck))
                       ex_world)))
         (root w2).
Proof.
  destruct (trim_cleanup_error_propagates ex_env_ffmpeg_fails_stuck ex_request
              ex_world (PyException "FFmpeg failed: boom")
              (snd (trim_body ex_env_ffmpeg_fails_stuck ex_request
                      (job_input ex_env_ffmpeg_fails_stuck)
                      (job_output ex_env_ffmpeg_fails_stuck)
                      (job_final ex_env_ffmpeg_fails_stuck)
                      (os_path_join VIDEOS_DIR
                         (job_final ex_env_ffmpeg_fails_stuck))
                      ex_world)))
    as (raised & w2 & H1 & H2 & _).
  - vm_compute. reflexivity.
  - exists raised, w2. split; [exact H1 | exact H2].
Defined.

(** C2 (as stated) fails: the transcoder fails, the removal of the temp
    input is refused, and the caller gets that removal's error, not the
    transcoder's; the temp output, never attended to, is still on disk. *)
Lemma trim_cleanup_error_masks_original :
  fst (trim_body ex_env_ffmpeg_fails_stuck ex_request
         (job_input ex_env_ffmpeg_fails_stuck)
         (job_output ex_env_ffmpeg_fails_stuck)
         (job_final ex_env_ffmpeg_fails_stuck)
         (os_path_join VIDEOS_DIR (job_final ex_env_ffmpeg_fails_stuck))
         ex_world)
  = Raise (PyException "FFmpeg failed: boom")
  /\ fst (trim_video ex_env_ffmpeg_fails_stuck ex_request ex_world)
     = Raise (OSError SysUnlink
                "/tmp/00000000-0000-0000-0000-0000000000ff_input.mp4")
  /\ stat (root (snd (trim_video ex_env_ffmpeg_fails_stuck ex_request ex_world)))
          "/tmp/00000000-0000-0000-0000-0000000000ff_output.mp4"
     = Some (File 10000 "partial").
Proof. repeat split; vm_compute; reflexivity. Qed.

Lemma job_final_differ (E1 E2 : env) :
  job_id E1 <> job_id E2 -> String.eqb (job_final E1) (job_final E2) = false.
Proof.
  intros H. apply String.eqb_neq. intros Heq. apply H.
  unfold job_final, final_filename_of in Heq.
  now apply append_inv_tail in Heq.
Qed.

Lemma health_run (E : env) (w : world) (es : entries_t) :
  faults E SysListdir VIDEOS_DIR = false ->
  storage (root w) = Some es ->
  health E w
  = (Ok {| status := "healthy";
           videos_stored := List.length es;
           cleanup_schedule := "Every 30 minutes";
           retention := "1 hour" |}, w).
Proof.
  intros Hl Hs. apply storage_lookup in Hs as [t Hs].
  unfold health. rewrite bind_run. unfold os_listdir.
  rewrite Hl, stat_videos, Hs. unfold ret. now rewrite length_map.
Qed.

(** C8: [GET /health] changes nothing, and when the listing is not refused
    it reports as [videos_stored] the number of entries of the Storage
    Directory; in particular, after three successful trims (under three
    different job identifiers, from an empty Storage Directory, with no
    sweep in between) it reports 3. *)
Theorem health_reports_count (E : env) :
  (forall w, snd (health E w) = w)
  /\ (forall w es,
        faults E SysListdir VIDEOS_DIR = false ->
        storage (root w) = Some es ->
        fst (health E w)
        = Ok {| status := "healthy";
                videos_stored := List.length es;
                cleanup_schedule := "Every 30 minutes";
                retention := "1 hour" |})
  /\ (forall (E1 E2 E3 : env) (q1 q2 q3 : TrimRequest)
             (r1 r2 r3 : TrimResponse) (w0 w1 w2 w3 : world),
        faults E SysListdir VIDEOS_DIR = false ->
        storage (root w0) = Some [] ->
        job_id E1 <> job_id E2 -> job_id E1 <> job_id E3 ->
        job_id E2 <> job_id E3 ->
        trim_video E1 q1 w0 = (Ok r1, w1) ->
        trim_video E2 q2 w1 = (Ok r2, w2) ->
        trim_video E3 q3 w2 = (Ok r3, w3) ->
        fst (health E w3)
        = Ok {| status := "healthy";
                videos_stored := 3;
                cleanup_schedule := "Every 30 minutes";
                retention := "1 hour" |}).
Proof.
  split; [|split].
  - intros w. unfold health. rewrite bind_run. unfold os_listdir.
    destruct (faults E SysListdir VIDEOS_DIR); [reflexivity|].
    destruct (stat (root w) VIDEOS_DIR) as [[? ?|? ?]|]; reflexivity.
  - intros w es Hl Hs. now rewrite (health_run E w es Hl Hs).
  - intros E1 E2 E3 q1 q2 q3 r1 r2 r3 w0 w1 w2 w3 Hl Hs0 H12 H13 H23 T1 T2 T3.
    apply trim_video_ok_inv in T1, T2, T3.
    destruct (trim_body_ok E1 q1 w0 w1 r1 [] Hs0 eq_refl T1)
      as ((m1 & d1 & Hs1) & _).
    cbn [app] in Hs1.
    assert (F2 : assoc (job_final E2) [(job_final E1, File m1 d1)] = None).
    { cbn [assoc]. now rewrite (job_final_differ E1 E2 H12). }
    destruct (trim_body_ok E2 q2 w1 w2 r2 _ Hs1 F2 T2)
      as ((m2 & d2 & Hs2) & _).
    cbn [app] in Hs2.
    assert (F3 : assoc (job_final E3)
                   [(job_final E1, File m1 d1); (job_final E2, File m2 d2)]
                 = None).
    { cbn [assoc]. now rewrite (job_final_differ E1 E3 H13),
               (job_final_differ E2 E3 H23). }
    destruct (trim_body_ok E3 q3 w2 w3 r3 _ Hs2 F3 T3)
      as ((m3 & d3 & Hs3) & _).
    now rewrite (health_run E w3 _ Hl Hs3).
Qed.

Lemma health_reports_count_witness :
  fst (health ex_env
         (snd (trim_video (ex_env_job 3%N) ex_request
                 (snd (trim_video (ex_env_job 2%N) ex_request
                         (snd (trim_video (ex_env_job 1%N) ex_request
                                 ex_world_empty)))))))
  = Ok {| status := "healthy";
          videos_stored := 3;
          cleanup_schedule := "Every 30 minutes";
          retention := "1 hour" |}.
Proof.
  apply (proj2 (proj2 (health_reports_count ex_env))
           (ex_env_job 1%N) (ex_env_job 2%N) (ex_env_job 3%N)
           ex_request ex_request ex_request
           {| success := true;
              resp_video_url := public_base ++ job_final (ex_env_job 1%N);
              message := "Video trimmed and hosted successfully" |}
           {| success := true;
              resp_video_url := public_base ++ job_final (ex_env_job 2%N);
              message := "Video trimmed and hosted successfully" |}
           {| success := true;
              resp_video_url := public_base ++ job_final (ex_env_job 3%N);
              message := "Video trimmed and hosted successfully" |}
           ex_world_empty
           (snd (trim_video (ex_env_job 1%N) ex_request ex_world_empty))
           (snd (trim_video (ex_env_job 2%N) ex_request
                   (snd (trim_video (ex_env_job 1%N) ex_request ex_world_empty)))));
    try (vm_compute; reflexivity); vm_compute; discriminate.
Defined.

(* ===================================================================== *)
(** * Further properties of the Retention Sweeper *)
(* ===================================================================== *)

Lemma assoc_nodup_in (n : string) (nd : node) (es : entries_t) :
  NoDup (map fst es) -> In (n, nd) es -> assoc n es = Some nd.
Proof.
  induction es as [|[k v] rest IH]; simpl; [tauto|].
  intros Hn Hin. inversion Hn as [|? ? Hk Hn']; subst.
  destruct Hin as [[= -> ->]|Hin].
  - now rewrite String.eqb_refl.
  - destruct (String.eqb_spec k n) as [->|_]; [|now apply IH].
    exfalso. apply Hk. apply in_map_iff. now exists (n, nd).
Qed.

Lemma sweep_entries_keeps (E : env) (now : float) (es : entries_t)
      (kv : string * node) :
  In kv es -> selected E now kv = false -> In kv (sweep_entries E now es).
Proof.
  induction es as [|x rest IH]; simpl; [tauto|].
  intros [->|Hin] Hs.
  - rewrite Hs. now left.
  - destruct (selected E now x).
    + destruct (unlink_refused E x); [now right | now apply IH].
    + right. now apply IH.
Qed.

(** The file system after a pass, whatever was refused. *)
Lemma cleanup_old_videos_after (E : env) (w : world) (t : float)
      (es : entries_t) :
  lookup (root w) videos_path = Some (Dir t es) ->
  wf_entries es ->
  exists es',
    root (snd (cleanup_old_videos E w)) = set_entries (root w) videos_path es'
    /\ wf_entries es'
    /\ (forall kv, In kv es' -> In kv es)
    /\ (forall kv, In kv es -> expired (time_time E) (snd kv) = false ->
                   In kv es').
Proof.
  intros Hdir Hwf.
  rewrite (cleanup_old_videos_root E w t es Hdir Hwf).
  destruct (faults E SysListdir VIDEOS_DIR).
  - exists es. repeat split; auto; try apply Hwf.
    symmetry. now apply set_entries_same with t.
  - exists (sweep_entries E (time_time E) es). split; [reflexivity|].
    split; [now apply sweep_entries_wf|]. split.
    + apply sweep_entries_incl.
    + intros kv Hin Hex. apply sweep_entries_keeps; [exact Hin|].
      unfold selected. rewrite Hex. apply andb_false_r.
Qed.

(** X1: whatever is refused and however the pass ends, the sweep never
    deletes or alters a stored object that its test does not select (a
    regular file of age at most 3600 seconds, or a subdirectory), never adds
    an entry to the Storage Directory, and changes nothing outside [/app]. *)
Theorem sweep_never_deletes_unexpired
        (E : env) (w : world) (t : float) (es : entries_t) :
  lookup (root w) videos_path = Some (Dir t es) ->
  wf_entries es ->
  (forall n nd, In (n, nd) es -> expired (time_time E) nd = false ->
                stat (root (snd (cleanup_old_videos E w))) (stored_path n)
                = Some nd)
  /\ (exists es', storage (root (snd (cleanup_old_videos E w))) = Some es'
                  /\ forall kv, In kv es' -> In kv es)
  /\ (forall c q, c <> "app" ->
                  lookup (root (snd (cleanup_old_videos E w))) (c :: q)
                  = lookup (root w) (c :: q)).
Proof.
  intros Hdir Hwf.
  destruct (cleanup_old_videos_after E w t es Hdir Hwf)
    as (es' & Hroot & [Hv' Hn'] & Hincl & Hkeep).
  assert (Hdir' : lookup (root (snd (cleanup_old_videos E w))) videos_path
                  = Some (Dir t es')).
  { rewrite Hroot. unfold set_entries.
    now rewrite lookup_update_dir_same, Hdir. }
  repeat split.
  - intros n nd Hin Hex.
    assert (Hname : valid_name n = true).
    { destruct Hwf as [Hv _]. rewrite Forall_forall in Hv.
      apply (Hv (n, nd) Hin). }
    unfold stored_path. rewrite (stat_videos_child _ _ Hname).
    rewrite (storage_child _ _ _ _ Hdir').
    apply assoc_nodup_in; [exact Hn'|]. now apply Hkeep.
  - exists es'. split; [|exact Hincl]. apply storage_lookup. now exists t.
  - intros c q Hc. rewrite Hroot. unfold set_entries, videos_path.
    apply lookup_update_dir_other. congruence.
Qed.

Lemma sweep_never_deletes_unexpired_witness :
  stat (root (snd (cleanup_old_videos ex_env_refuse_a ex_world_three)))
       (stored_path "b.mp4")
  = Some (File 9000 "B").
Proof.
  assert (Hwf : wf_entries [("0.mp4", File 0 "Z"); ("a.mp4", File 0 "A");
                            ("c.mp4", File 0 "C"); ("b.mp4", File 9000 "B")]).
  { split.
    - repeat constructor.
    - repeat constructor; simpl; intuition discriminate. }
  apply (proj1 (sweep_never_deletes_unexpired ex_env_refuse_a ex_world_three 0
                  _ eq_refl Hwf)).
  - simpl. tauto.
  - reflexivity.
Defined.

(** Deleting a stored regular file that is not refused. *)
Lemma os_remove_stored (E : env) (w : world) (t : float)
      (pre rest : entries_t) (n : string) (m : float) (d : string) :
  lookup (root w) videos_path = Some (Dir t (pre ++ (n, File m d) :: rest)%list) ->
  wf_entries (pre ++ (n, File m d) :: rest)%list ->
  faults E SysUnlink (stored_path n) = false ->
  os_remove E (stored_path n) w
  = (Ok tt, with_root w (set_entries (root w) videos_path (pre ++ rest)%list)).
Proof.
  intros Hdir Hwf Hu.
  destruct (wf_entries_split _ _ _ Hwf) as (Hn & Hpre & Hrest & _ & _).
  simpl in Hn, Hpre, Hrest.
  unfold os_remove. rewrite Hu. unfold unlink, stored_path.
  rewrite (resolve_videos_child _ _ Hn), (storage_is_dir _ _ _ Hdir).
  rewrite (storage_child _ _ _ _ Hdir), (assoc_middle _ _ _ _ Hpre).
  change ["app"; "videos"; n] with (videos_path ++ [n])%list.
  rewrite unsnoc_snoc, (update_dir_at _ _ _ _ _ Hdir).
  now rewrite (entry_remove_middle _ _ _ _ Hpre Hrest).
Qed.

(** The whole loop when no deletion is refused: counters, file system and
    printed lines. *)
Lemma cleanup_loop_full (E : env) (now : float) (suf : entries_t) :
  forall (pre : entries_t) (deleted total : nat) (w : world) t,
    lookup (root w) videos_path = Some (Dir t (pre ++ suf)%list) ->
    wf_entries (pre ++ suf)%list ->
    (forall kv, In kv suf -> selected E now kv = true ->
                unlink_refused E kv = false) ->
    for_in (map fst suf) (cleanup_step E now) (deleted, total) w
    = (Ok (deleted + List.length (filter (selected E now) suf),
           total + List.length (filter (seen_file E) suf)),
       {| root := set_entries (root w) videos_path
                    (pre ++ filter (fun kv => negb (selected E now kv)) suf)%list;
          stdout := (stdout w ++ deleted_log E now suf)%list |}).
Proof.
  induction suf as [|[n nd] rest IH]; intros pre deleted total w t Hdir Hwf Hok.
  - cbn [map for_in filter deleted_log List.length]. unfold ret.
    rewrite !Nat.add_0_r, !app_nil_r. rewrite app_nil_r in Hdir.
    rewrite (set_entries_same _ _ _ _ Hdir). now destruct w.
  - destruct (wf_entries_split _ _ _ Hwf) as (Hn & Hpre & Hrest & Hwf1 & Hwf2).
    simpl in Hn, Hpre, Hrest.
    assert (Hst : stat (root w) (stored_path n) = Some nd).
    { unfold stored_path.
      rewrite (stat_videos_child _ _ Hn), (storage_child _ _ _ _ Hdir).
      now apply assoc_middle. }
    assert (Hok' : forall kv, In kv rest -> selected E now kv = true ->
                              unlink_refused E kv = false).
    { intros kv Hkv. apply Hok. now right. }
    assert (Hdir2 : lookup (root w) videos_path
                    = Some (Dir t ((pre ++ [(n, nd)]) ++ rest)%list)).
    { now rewrite <- app_assoc. }
    cbn [map for_in fst]. rewrite bind_run.
    rewrite (cleanup_step_run E now w n nd deleted total Hst).
    cbn [filter deleted_log].
    assert (Hsel : selected E now (n, nd)
                   = (negb (faults E SysStat (stored_path n))
                      && expired now nd)%bool) by reflexivity.
    assert (Hseen : seen_file E (n, nd)
                    = (negb (faults E SysStat (stored_path n))
                       && match nd with File _ _ => true | Dir _ _ => false end)%bool)
      by reflexivity.
    destruct (faults E SysStat (stored_path n)) eqn:Hf; cbn [negb andb] in Hsel, Hseen.
    { rewrite Hsel, Hseen. cbn [negb].
      rewrite (IH _ deleted total w t Hdir2 Hwf2 Hok').
      now rewrite <- app_assoc. }
    destruct nd as [m d|t' es']; cbn [expired] in Hsel.
    2:{ rewrite Hsel, Hseen. cbn [negb].
        rewrite (IH _ deleted total w t Hdir2 Hwf2 Hok').
        now rewrite <- app_assoc. }
    destruct (3600 <? now - m)%float eqn:Hage.
    2:{ rewrite Hsel, Hseen. cbn [negb].
        rewrite (IH _ deleted (S total) w t Hdir2 Hwf2 Hok').
        rewrite <- app_assoc. cbn [List.length]. now rewrite Nat.add_succ_r. }
    assert (Hu : faults E SysUnlink (stored_path n) = false).
    { apply (Hok (n, File m d) (or_introl eq_refl)). exact Hsel. }
    rewrite Hsel, Hseen. cbn [negb fst snd].
    rewrite (os_remove_stored E w t pre rest n m d Hdir Hwf Hu).
    cbn [root stdout with_root].
    match goal with |- for_in _ _ _ ?w1 = _ =>
      assert (Hdir1 : lookup (root w1) videos_path
                      = Some (Dir t (pre ++ rest)%list))
    end.
    { cbn [root]. unfold set_entries.
      now rewrite lookup_update_dir_same, Hdir. }
    rewrite (IH _ (S deleted) (S total) _ t Hdir1 Hwf1 Hok').
    cbn [root stdout List.length]. rewrite set_entries_twice, <- app_assoc.
    now rewrite !Nat.add_succ_r.
Qed.

(** X2: when the listing works and no deletion is refused, one pass returns
    normally, leaves the listing without the selected files, and prints one
    line per deleted file, in listing order, followed by the summary line,
    whose two numbers are the number of files deleted and the number of
    regular files [os.path.isfile] saw. *)
Theorem sweep_log_counts
        (E : env) (w : world) (t : float) (es : entries_t) :
  lookup (root w) videos_path = Some (Dir t es) ->
  wf_entries es ->
  faults E SysListdir VIDEOS_DIR = false ->
  (forall kv, In kv es -> selected E (time_time E) kv = true ->
              unlink_refused E kv = false) ->
  cleanup_old_videos E w
  = (Ok tt,
     {| root := set_entries (root w) videos_path
                  (filter (fun kv => negb (selected E (time_time E) kv)) es);
        stdout := (stdout w ++ deleted_log E (time_time E) es
                   ++ [LogCleanupComplete
                         (List.length (filter (selected E (time_time E)) es))
                         (List.length (filter (seen_file E) es))])%list |}).
Proof.
  intros Hdir Hwf Hl Hok.
  unfold cleanup_old_videos, try_except. cbv zeta.
  rewrite bind_run. unfold os_listdir. rewrite Hl, stat_videos, Hdir.
  rewrite bind_run.
  rewrite (cleanup_loop_full E (time_time E) es [] 0 0 w t Hdir Hwf Hok).
  unfold print. cbn [root stdout fst snd app Nat.add].
  now rewrite <- app_assoc.
Qed.

Lemma sweep_log_counts_witness :
  cleanup_old_videos ex_env ex_world
  = (Ok tt,
     {| root := set_entries (root ex_world) videos_path
                  [("b.mp4", File 9000 "B")];
        stdout := [LogDeletedOldVideo "a.mp4" 10000; LogCleanupComplete 1 2] |}).
Proof.
  apply (sweep_log_counts ex_env ex_world 0
           [("a.mp4", File 0 "A"); ("b.mp4", File 9000 "B")]).
  - reflexivity.
  - split.
    + repeat constructor.
    + repeat constructor; simpl; intuition discriminate.
  - reflexivity.
  - intros kv _ _. reflexivity.
Defined.

(** X3: when the Storage Directory cannot be listed (the call is refused,
    or there is no directory at that path), the pass deletes nothing: it
    returns normally, the file system is as before, and the only line
    printed is the error line for the listing. *)
Theorem sweep_listing_failure (E : env) (w : world) :
  faults E SysListdir VIDEOS_DIR = true \/ storage (root w) = None ->
  cleanup_old_videos E w
  = (Ok tt,
     {| root := root w;
        stdout := (stdout w
                   ++ [LogCleanupError (str (OSError SysListdir VIDEOS_DIR))])%list |}).
Proof.
  intros H. unfold cleanup_old_videos, try_except. cbv zeta.
  rewrite bind_run. unfold os_listdir.
  destruct (faults E SysListdir VIDEOS_DIR) eqn:Hl; [reflexivity|].
  destruct H as [H|H]; [discriminate|].
  rewrite stat_videos. unfold storage in H.
  destruct (lookup (root w) videos_path) as [[? ?|? ?]|];
    try discriminate; reflexivity.
Qed.

Lemma sweep_listing_failure_witness :
  cleanup_old_videos ex_env ex_world_bare
  = (Ok tt,
     {| root := root ex_world_bare;
        stdout := ([] ++ [LogCleanupError (str (OSError SysListdir VIDEOS_DIR))])%list |}).
Proof.
  apply (sweep_listing_failure ex_env ex_world_bare). right. reflexivity.
Defined.

(* ===================================================================== *)
(** * The sweep and its errors *)
(* ===================================================================== *)

Lemma for_in_app {A S : Type} (xs ys : list A) (body : S -> A -> M S) :
  forall (s : S) (w : world),
    for_in (xs ++ ys)%list body s w
    = match for_in xs body s w with
      | (Ok s', w') => for_in ys body s' w'
      | (Raise e, w') => (Raise e, w')
      end.
Proof.
  induction xs as [|x xs IH]; intros s w; [reflexivity|].
  cbn [app for_in]. rewrite !bind_run.
  destruct (body s x w) as [[s1|e] w1]; [apply IH | reflexivity].
Qed.

Lemma wf_entries_filter_prefix (P : string * node -> bool) (a b : entries_t) :
  wf_entries (a ++ b)%list -> wf_entries (filter P a ++ b)%list.
Proof.
  induction a as [|x a IH]; [trivial|].
  intros [Hv Hn]. cbn [app map] in Hv, Hn.
  inversion Hv as [|? ? Hx Hv']; subst. inversion Hn as [|? ? Hnot Hn']; subst.
  destruct (IH (conj Hv' Hn')) as [IHv IHn].
  cbn [filter]. destruct (P x); [|now split].
  split; [now constructor|]. cbn [app map]. constructor; [|exact IHn].
  intros Hin. apply Hnot. rewrite map_app, in_app_iff in Hin |- *.
  destruct Hin as [Hin|Hin]; [left | now right].
  apply in_map_iff in Hin as [y [Hy Hin]]. apply filter_In in Hin as [Hin _].
  apply in_map_iff. now exists y.
Qed.

(** A stretch of the loop in which no deletion is refused, inside a longer
    listing: counters, file system and printed lines. *)
Lemma cleanup_loop_segment (E : env) (now : float) (mid : entries_t) :
  forall (pre post : entries_t) (deleted total : nat) (w : world) t,
    lookup (root w) videos_path = Some (Dir t (pre ++ mid ++ post)%list) ->
    wf_entries (pre ++ mid ++ post)%list ->
    (forall kv, In kv mid -> selected E now kv = true ->
                unlink_refused E kv = false) ->
    for_in (map fst mid) (cleanup_step E now) (deleted, total) w
    = (Ok (deleted + List.length (filter (selected E now) mid),
           total + List.length (filter (seen_file E) mid)),
       {| root := set_entries (root w) videos_path
                    (pre ++ filter (fun kv => negb (selected E now kv)) mid
                     ++ post)%list;
          stdout := (stdout w ++ deleted_log E now mid)%list |}).
Proof.
  induction mid as [|[n nd] rest IH];
    intros pre post deleted total w t Hdir Hwf Hok.
  - cbn [map for_in filter deleted_log List.length app]. unfold ret.
    rewrite !Nat.add_0_r, app_nil_r. cbn [app] in Hdir.
    rewrite (set_entries_same _ _ _ _ Hdir). now destruct w.
  - cbn [app] in Hdir, Hwf.
    destruct (wf_entries_split _ _ _ Hwf) as (Hn & Hpre & Hrest & Hwf1 & Hwf2).
    simpl in Hn, Hpre, Hrest.
    assert (Hst : stat (root w) (stored_path n) = Some nd).
    { unfold stored_path.
      rewrite (stat_videos_child _ _ Hn), (storage_child _ _ _ _ Hdir).
      now apply assoc_middle. }
    assert (Hok' : forall kv, In kv rest -> selected E now kv = true ->
                              unlink_refused E kv = false).
    { intros kv Hkv. apply Hok. now right. }
    assert (Hdir2 : lookup (root w) videos_path
                    = Some (Dir t ((pre ++ [(n, nd)]) ++ rest ++ post)%list)).
    { now rewrite <- app_assoc. }
    cbn [map for_in fst]. rewrite bind_run.
    rewrite (cleanup_step_run E now w n nd deleted total Hst).
    cbn [filter deleted_log].
    assert (Hsel : selected E now (n, nd)
                   = (negb (faults E SysStat (stored_path n))
                      && expired now nd)%bool) by reflexivity.
    assert (Hseen : seen_file E (n, nd)
                    = (negb (faults E SysStat (stored_path n))
                       && match nd with File _ _ => true | Dir _ _ => false end)%bool)
      by reflexivity.
    destruct (faults E SysStat (stored_path n)) eqn:Hf; cbn [negb andb] in Hsel, Hseen.
    { rewrite Hsel, Hseen. cbn [negb].
      rewrite (IH _ post deleted total w t Hdir2 Hwf2 Hok').
      now rewrite <- app_assoc. }
    destruct nd as [m d|t' es']; cbn [expired] in Hsel.
    2:{ rewrite Hsel, Hseen. cbn [negb].
        rewrite (IH _ post deleted total w t Hdir2 Hwf2 Hok').
        now rewrite <- app_assoc. }
    destruct (3600 <? now - m)%float eqn:Hage.
    2:{ rewrite Hsel, Hseen. cbn [negb].
        rewrite (IH _ post deleted (S total) w t Hdir2 Hwf2 Hok').
        rewrite <- app_assoc. cbn [List.length]. now rewrite Nat.add_succ_r. }
    assert (Hu : faults E SysUnlink (stored_path n) = false).
    { apply (Hok (n, File m d) (or_introl eq_refl)). exact Hsel. }
    rewrite Hsel, Hseen. cbn [negb fst snd].
    rewrite (os_remove_stored E w t pre (rest ++ post)%list n m d Hdir Hwf Hu).
    cbn [root stdout with_root].
    match goal with |- for_in _ _ _ ?w1 = _ =>
      assert (Hdir1 : lookup (root w1) videos_path
                      = Some (Dir t (pre ++ rest ++ post)%list))
    end.
    { cbn [root]. unfold set_entries.
      now rewrite lookup_update_dir_same, Hdir. }
    rewrite (IH _ post (S deleted) (S total) _ t Hdir1 Hwf1 Hok').
    cbn [root stdout List.length]. rewrite set_entries_twice, <- app_assoc.
    now rewrite !Nat.add_succ_r.
Qed.

(** C3 (as amended): within one pass, a file whose [stat] fails is passed
    over and the scan goes on, but the first refused deletion ends the pass:
    the entries listed before the refused file have been examined and
    deleted when selected (one line printed for each), the refused file and
    every entry listed after it are left as they were, and the exception is
    caught and logged: the pass returns normally, and the last line printed
    is the error line of the refused deletion, with no summary line. *)
Theorem sweep_stops_at_refused_delete
        (E : env) (w : world) (t : float)
        (pre : entries_t) (kv : string * node) (post : entries_t) :
  lookup (root w) videos_path = Some (Dir t (pre ++ kv :: post)%list) ->
  wf_entries (pre ++ kv :: post)%list ->
  faults E SysListdir VIDEOS_DIR = false ->
  (forall x, In x pre -> selected E (time_time E) x = true ->
             unlink_refused E x = false) ->
  selected E (time_time E) kv = true ->
  unlink_refused E kv = true ->
  cleanup_old_videos E w
  = (Ok tt,
     {| root := set_entries (root w) videos_path
                  (filter (fun x => negb (selected E (time_time E) x)) pre
                   ++ kv :: post)%list;
        stdout := (stdout w ++ deleted_log E (time_time E) pre
                   ++ [LogCleanupError
                         (str (OSError SysUnlink (stored_path (fst kv))))])%list |}).
Proof.
  intros Hdir Hwf Hl Hpre Hs Hr.
  unfold cleanup_old_videos, try_except. cbv zeta.
  rewrite bind_run. unfold os_listdir. rewrite Hl, stat_videos, Hdir.
  rewrite bind_run, map_app, for_in_app.
  change (pre ++ kv :: post)%list with (pre ++ [kv] ++ post)%list in Hdir, Hwf.
  assert (Hdir0 : lookup (root w) videos_path
                  = Some (Dir t ([] ++ pre ++ kv :: post)%list)) by exact Hdir.
  rewrite (cleanup_loop_segment E (time_time E) pre [] (kv :: post) 0 0 w t
             Hdir0 Hwf Hpre).
  cbn [app Nat.add map for_in]. rewrite bind_run.
  match goal with |- context [cleanup_step _ _ ?acc _ ?w1] =>
    pose proof (cleanup_step_spec E (time_time E) w1 t
                  (filter (fun x => negb (selected E (time_time E) x)) pre)
                  post kv acc) as Hstep
  end.
  rewrite Hs, Hr in Hstep. rewrite Hstep.
  - unfold print, stored_path. cbn [root stdout].
    now rewrite <- app_assoc.
  - cbn [root]. unfold set_entries.
    now rewrite lookup_update_dir_same, Hdir.
  - apply wf_entries_filter_prefix. exact Hwf.
Qed.

Lemma sweep_stops_at_refused_delete_witness :
  cleanup_old_videos ex_env_refuse_a ex_world_three
  = (Ok tt,
     {| root := set_entries (root ex_world_three) videos_path
                  [("a.mp4", File 0 "A"); ("c.mp4", File 0 "C");
                   ("b.mp4", File 9000 "B")];
        stdout := [LogDeletedOldVideo "0.mp4" 10000;
                   LogCleanupError
                     (str (OSError SysUnlink "/app/videos/a.mp4"))] |}).
Proof.
  apply (sweep_stops_at_refused_delete ex_env_refuse_a ex_world_three 0
           [("0.mp4", File 0 "Z")] ("a.mp4", File 0 "A")
           [("c.mp4", File 0 "C"); ("b.mp4", File 9000 "B")]).
  - reflexivity.
  - split.
    + repeat constructor.
    + repeat constructor; simpl; intuition discriminate.
  - reflexivity.
  - intros x [<-|[]] _. reflexivity.
  - reflexivity.
  - reflexivity.
Defined.

(** What one turn of the loop can raise: the error of [getmtime] or of
    [os.remove] on the entry at hand. *)
Lemma cleanup_step_raises (E : env) (now : float) (acc : nat * nat)
      (n : string) (w : world) (e : exn) (w' : world) :
  cleanup_step E now acc n w = (Raise e, w') ->
  e = OSError SysStat (stored_path n) \/ e = OSError SysUnlink (stored_path n).
Proof.
  unfold cleanup_step, stored_path. destruct acc as [deleted total].
  rewrite bind_run. unfold os_path_isfile. cbv beta iota.
  match goal with |- (if ?c then _ else _) _ = _ -> _ => destruct c end;
    [|discriminate].
  rewrite bind_run. unfold os_path_getmtime.
  destruct (faults E SysStat (os_path_join VIDEOS_DIR n)).
  { intros [= <- _]. now left. }
  destruct (stat (root w) (os_path_join VIDEOS_DIR n)) as [[m d|m es]|];
    [| |intros [= <- _]; now left];
    (destruct (3600 <? now - m)%float; [|discriminate]);
    rewrite bind_run; unfold os_remove;
    (destruct (faults E SysUnlink (os_path_join VIDEOS_DIR n));
     [intros [= <- _]; now right|]);
    (destruct (unlink (root w) (os_path_join VIDEOS_DIR n));
     [discriminate | intros [= <- _]; now right]).
Qed.

Lemma cleanup_loop_raises (E : env) (now : float) (names : list string) :
  forall (acc : nat * nat) (w : world) (e : exn) (w' : world),
    for_in names (cleanup_step E now) acc w = (Raise e, w') ->
    exists n, In n names
              /\ (e = OSError SysStat (stored_path n)
                  \/ e = OSError SysUnlink (stored_path n)).
Proof.
  induction names as [|n names IH]; intros acc w e w'; [discriminate|].
  cbn [for_in]. rewrite bind_run.
  destruct (cleanup_step E now acc n w) as [[acc1|e1] w1] eqn:Hstep.
  - intros H. destruct (IH _ _ _ _ H) as (n' & Hin & He).
    exists n'. split; [now right | exact He].
  - intros [= <- _]. exists n. split; [now left|].
    exact (cleanup_step_raises E now acc n w e1 w1 Hstep).
Qed.

(** C9 (as amended): [cleanup_old_videos] never propagates an exception to
    its caller, for any directory state: every error raised in its [try]
    block (that of a failed listing, or of a failed [stat] or deletion of a
    listed entry) is caught and logged, the error line being the last line
    printed.  [GET /cleanup] then lists the Storage Directory outside any
    handler, so it returns the success payload, with [videos_remaining] the
    number of entries after the pass, when that listing succeeds, and raises
    the listing's error when it does not. *)
Theorem cleanup_never_raises_and_reports (E : env) (w : world) :
  fst (cleanup_old_videos E w) = Ok tt
  /\ (forall e w1,
        cleanup_try_block E w = (Raise e, w1) ->
        cleanup_old_videos E w
        = (Ok tt, {| root := root w1;
                     stdout := (stdout w1 ++ [LogCleanupError (str e)])%list |})
        /\ (e = OSError SysListdir VIDEOS_DIR
            \/ exists n, e = OSError SysStat (stored_path n)
                         \/ e = OSError SysUnlink (stored_path n)))
  /\ manual_cleanup E w
     = let w1 := snd (cleanup_old_videos E w) in
       if faults E SysListdir VIDEOS_DIR
       then (Raise (OSError SysListdir VIDEOS_DIR), w1)
       else match storage (root w1) with
            | Some es =>
                (Ok {| cleanup_message := "Cleanup triggered";
                       videos_remaining := List.length es |}, w1)
            | None => (Raise (OSError SysListdir VIDEOS_DIR), w1)
            end.
Proof.
  pose proof (cleanup_old_videos_returns E w) as Hret.
  split; [exact Hret|]. split.
  - intros e w1 Hblock. split.
    + change (cleanup_old_videos E)
        with (try_except (cleanup_try_block E)
                (fun e0 => print (LogCleanupError (str e0)))).
      unfold try_except. now rewrite Hblock.
    + unfold cleanup_try_block in Hblock. cbv zeta in Hblock.
      rewrite bind_run in Hblock. unfold os_listdir in Hblock.
      destruct (faults E SysListdir VIDEOS_DIR);
        [injection Hblock as <- _; now left|].
      destruct (stat (root w) VIDEOS_DIR) as [[? ?|m es]|];
        try (injection Hblock as <- _; now left).
      rewrite bind_run in Hblock.
      destruct (for_in (map fst es) (cleanup_step E (time_time E)) (0, 0) w)
        as [[acc|e1] w2] eqn:Hloop; [discriminate|].
      injection Hblock as <- _. right.
      destruct (cleanup_loop_raises E _ _ _ _ _ _ Hloop) as (n & _ & He).
      now exists n.
  - unfold manual_cleanup. rewrite bind_run.
    destruct (cleanup_old_videos E w) as [[[]|e] w1]; [|discriminate].
    cbn [snd]. cbv zeta. rewrite bind_run. unfold os_listdir.
    destruct (faults E SysListdir VIDEOS_DIR); [reflexivity|].
    rewrite stat_videos. unfold storage.
    destruct (lookup (root w1) videos_path) as [[? ?|t es]|]; try reflexivity.
    unfold ret. now rewrite length_map.
Qed.

Lemma cleanup_never_raises_and_reports_witness :
  cleanup_old_videos ex_env_refuse_a ex_world_three
  = (Ok tt,
     {| root := root (snd (cleanup_try_block ex_env_refuse_a ex_world_three));
        stdout := (stdout (snd (cleanup_try_block ex_env_refuse_a
                                  ex_world_three))
                   ++ [LogCleanupError
                         (str (OSError SysUnlink "/app/videos/a.mp4"))])%list |}).
Proof.
  destruct (cleanup_never_raises_and_reports ex_env_refuse_a ex_world_three)
    as (_ & H & _).
  destruct (H (OSError SysUnlink "/app/videos/a.mp4")
              (snd (cleanup_try_block ex_env_refuse_a ex_world_three))
              eq_refl) as [H1 _].
  exact H1.
Defined.

(* ===================================================================== *)
(** * Further properties of File Retrieval and the status endpoints *)
(* ===================================================================== *)

(** X4: for a well-formed name of the Storage Directory whose [stat] is not
    refused, [GET /video/{filename}] answers according to the entry of that
    name: the exact bytes of a stored regular file, a response the
    framework cannot send for a subdirectory, and the 404 when there is no
    such entry.  The state is not changed. *)
Theorem serve_video_stored_bytes
        (E : env) (w : world) (es : entries_t) (n : string) :
  storage (root w) = Some es ->
  valid_name n = true ->
  faults E SysStat (stored_path n) = false ->
  match assoc n es with
  | Some (File m d) =>
      serve_video E n w = (Ok (FileResponse (stored_path n) "video/mp4"), w)
      /\ response_body w (FileResponse (stored_path n) "video/mp4") = Some d
  | Some (Dir _ _) =>
      serve_video E n w = (Ok (FileResponse (stored_path n) "video/mp4"), w)
      /\ response_body w (FileResponse (stored_path n) "video/mp4") = None
  | None =>
      serve_video E n w = (Raise (HTTPException 404 "Video not found"), w)
  end.
Proof.
  intros Hs Hn Hf.
  pose proof (storage_child_stat (root w) es n Hn Hs) as Hst.
  fold (stored_path n) in Hst.
  unfold serve_video, response_body. rewrite bind_run. unfold os_path_exists.
  fold (stored_path n). rewrite Hf, Hst.
  destruct (assoc n es) as [[m d|t' es']|]; cbn [negb]; auto.
Qed.

Lemma serve_video_stored_bytes_witness :
  serve_video ex_env "b.mp4" ex_world
  = (Ok (FileResponse (stored_path "b.mp4") "video/mp4"), ex_world)
  /\ response_body ex_world (FileResponse (stored_path "b.mp4") "video/mp4")
     = Some "B".
Proof.
  apply (serve_video_stored_bytes ex_env ex_world
           [("a.mp4", File 0 "A"); ("b.mp4", File 9000 "B")] "b.mp4");
    reflexivity.
Defined.

(** X5: the count [GET /cleanup] returns is the count a [GET /health] that
    follows it reports: whenever the manual sweep answers, the status
    endpoint, in the state it left and under the same refusals, answers too,
    with [videos_stored] equal to [videos_remaining]. *)
Theorem manual_cleanup_then_health
        (E : env) (w w1 : world) (p : CleanupPayload) :
  manual_cleanup E w = (Ok p, w1) ->
  health E w1
  = (Ok {| status := "healthy";
           videos_stored := videos_remaining p;
           cleanup_schedule := "Every 30 minutes";
           retention := "1 hour" |}, w1).
Proof.
  unfold manual_cleanup. intros H.
  apply bind_ok_inv in H as (u & w0 & _ & H).
  apply bind_ok_inv in H as (names & w2 & Hl & H).
  unfold ret in H. injection H as <- <-.
  assert (w2 = w0) as ->.
  { unfold os_listdir in Hl.
    destruct (faults E SysListdir VIDEOS_DIR); [discriminate|].
    destruct (stat (root w0) VIDEOS_DIR) as [[? ?|? ?]|]; try discriminate.
    now injection Hl as _ <-. }
  unfold health. rewrite bind_run, Hl. reflexivity.
Qed.

Lemma manual_cleanup_then_health_witness :
  health ex_env (snd (manual_cleanup ex_env ex_world))
  = (Ok {| status := "healthy";
           videos_stored := 1;
           cleanup_schedule := "Every 30 minutes";
           retention := "1 hour" |},
     snd (manual_cleanup ex_env ex_world)).
Proof.
  apply (manual_cleanup_then_health ex_env ex_world
           (snd (manual_cleanup ex_env ex_world))
           {| cleanup_message := "Cleanup triggered"; videos_remaining := 1 |}).
  reflexivity.
Defined.

(* ===================================================================== *)
(** * Further properties of the Trim Worker: how failures are reported *)
(* ===================================================================== *)

Lemma guarded_remove_absent (E : env) (n : string) (w : world) :
  valid_name n = true ->
  lookup (root w) ["tmp"; n] = None ->
  guarded_remove E ("/tmp/" ++ n) w = (Ok tt, w).
Proof.
  intros Hn Hl. unfold guarded_remove. rewrite bind_run.
  unfold os_path_exists. rewrite (stat_tmp_child _ _ Hn), Hl.
  now destruct (faults E SysStat ("/tmp/" ++ n)).
Qed.

Lemma guarded_remove_file (E : env) (n : string) (w : world) (m : float)
      (d : string) :
  valid_name n = true ->
  faults E SysStat ("/tmp/" ++ n) = false ->
  faults E SysUnlink ("/tmp/" ++ n) = false ->
  lookup (root w) ["tmp"; n] = Some (File m d) ->
  guarded_remove E ("/tmp/" ++ n) w
  = (Ok tt, with_root w (update_dir (root w) ["tmp"] (entry_remove n))).
Proof.
  intros Hn Hs Hu Hl. unfold guarded_remove. rewrite bind_run.
  unfold os_path_exists. rewrite (stat_tmp_child _ _ Hn), Hl, Hs.
  unfold os_remove. rewrite Hu. unfold unlink.
  rewrite (resolve_tmp_child _ _ Hn).
  assert (Ht : is_dir_at (root w) ["tmp"] = true).
  { unfold is_dir_at. rewrite lookup_tmp_child in Hl.
    destruct (lookup (root w) ["tmp"]) as [[? ?|? ?]|]; congruence. }
  rewrite Ht, Hl. change ["tmp"; n] with (["tmp"] ++ [n])%list.
  now rewrite unsnoc_snoc.
Qed.

(** X6: when the fetch step fails and the two temp paths of the job do not
    exist, [POST /trim] raises the HTTP 500 whose detail is the text of the
    fetch error, leaves the whole file system as it was, and prints exactly
    the download line and the error line; nothing that can be refused on the
    file system changes this. *)
Theorem trim_fetch_failure
        (E : env) (request : TrimRequest) (w : world) (e : exn) :
  fetch_error E request = Some e ->
  stat (root w) (job_input E) = None ->
  stat (root w) (job_output E) = None ->
  trim_video E request w
  = (Raise (HTTPException 500 (str e)),
     {| root := root w;
        stdout := (stdout w ++ [LogDownloading (video_url request);
                                LogError (str e)])%list |}).
Proof.
  intros Hfe Hin Hout.
  pose proof (input_name_valid (uuid4 E)) as Ha.
  pose proof (output_name_valid (uuid4 E)) as Hb.
  unfold job_input, input_path_of in Hin.
  unfold job_output, output_path_of in Hout.
  rewrite (stat_tmp_child _ _ Ha) in Hin. rewrite (stat_tmp_child _ _ Hb) in Hout.
  assert (Hbody :
            trim_body E request (job_input E) (job_output E) (job_final E)
              (os_path_join VIDEOS_DIR (job_final E)) w
            = (Raise e, {| root := root w;
                           stdout := (stdout w
                                      ++ [LogDownloading (video_url request)])%list |})).
  { unfold trim_body. rewrite bind_run. unfold print at 1. cbv beta iota.
    rewrite bind_run. unfold requests_get_raise_for_status.
    unfold fetch_error in Hfe.
    destruct (requests_get E (video_url request)) as [e0|st content].
    - injection Hfe as ->. reflexivity.
    - destruct ((400 <=? st) && (st <? 600))%Z; [|discriminate].
      injection Hfe as <-. reflexivity. }
  rewrite (trim_video_raise_inv E request w e _ Hbody), trim_except_run.
  unfold job_input, job_output, input_path_of, output_path_of.
  rewrite (guarded_remove_absent E _ _ Ha); [|exact Hin].
  rewrite (guarded_remove_absent E _ _ Hb); [|exact Hout].
  unfold log_error. cbn [root stdout]. now rewrite <- app_assoc.
Qed.

Lemma trim_fetch_failure_witness :
  trim_video
    {| faults := ex_quiet; time_time := 10000; uuid4 := 255%N;
       requests_get := fun _ => HttpResponse 404 "";
       ffmpeg := fun _ => RunCompleted 0 "" (Some "trimmed") |}
    ex_request ex_world
  = (Raise (HTTPException 500 (str (HTTPError 404))),
     {| root := root ex_world;
        stdout := (stdout ex_world
                   ++ [LogDownloading (video_url ex_request);
                       LogError (str (HTTPError 404))])%list |}).
Proof.
  apply (trim_fetch_failure
           {| faults := ex_quiet; time_time := 10000; uuid4 := 255%N;
              requests_get := fun _ => HttpResponse 404 "";
              ffmpeg := fun _ => RunCompleted 0 "" (Some "trimmed") |}
           ex_request ex_world (HTTPError 404)); reflexivity.
Defined.

Lemma assoc_none_not_in (c : string) (es : entries_t) :
  assoc c es = None -> ~ In c (map fst es).
Proof.
  induction es as [|[k v] rest IH]; simpl; [tauto|].
  destruct (String.eqb_spec k c) as [->|Hk]; [discriminate|].
  intros H [Heq|Hin]; [congruence | now apply IH].
Qed.

Lemma entry_remove_put (c : string) (v : node) (es : entries_t) :
  assoc c es = None -> entry_remove c (entry_put c v es) = es.
Proof.
  intros H. rewrite (entry_put_fresh _ _ _ H), entry_remove_app.
  rewrite (entry_remove_not_in _ _ (assoc_none_not_in _ _ H)).
  unfold entry_remove. simpl. rewrite String.eqb_refl. simpl.
  apply app_nil_r.
Qed.

Lemma entry_remove_put_other (c d : string) (v : node) (es : entries_t) :
  String.eqb d c = false ->
  entry_remove c (entry_put d v es) = entry_put d v (entry_remove c es).
Proof.
  intros Hdc. induction es as [|[k x] rest IH]; simpl.
  - now rewrite Hdc.
  - destruct (String.eqb_spec k d) as [->|Hkd]; simpl.
    + rewrite Hdc. simpl. now rewrite String.eqb_refl.
    + destruct (String.eqb k c); simpl.
      * exact IH.
      * apply String.eqb_neq in Hkd. rewrite Hkd. now rewrite IH.
Qed.

Lemma create_file_tmp_run (r : node) (n : string) (m : float) (d : string) :
  valid_name n = true ->
  is_dir_at r ["tmp"] = true ->
  (forall t es, lookup r ["tmp"; n] <> Some (Dir t es)) ->
  create_file r ("/tmp/" ++ n) m d
  = Some (update_dir r ["tmp"] (entry_put n (File m d))).
Proof.
  intros Hn Ht Hl. unfold create_file. rewrite (resolve_tmp_child r n Hn), Ht.
  change ["tmp"; n] with (["tmp"] ++ [n])%list. rewrite unsnoc_snoc, Ht.
  change (["tmp"] ++ [n])%list with ["tmp"; n].
  destruct (lookup r ["tmp"; n]) as [[? ?|t es]|] eqn:H; try reflexivity.
  now destruct (Hl t es).
Qed.

Lemma open_wb_write_run (E : env) (n content : string) (w : world) :
  valid_name n = true ->
  faults E SysOpen ("/tmp/" ++ n) = false ->
  faults E SysWrite ("/tmp/" ++ n) = false ->
  is_dir_at (root w) ["tmp"] = true ->
  lookup (root w) ["tmp"; n] = None ->
  open_wb_write E ("/tmp/" ++ n) content w
  = (Ok tt, with_root w (update_dir (root w) ["tmp"]
                           (entry_put n (File (time_time E) content)))).
Proof.
  intros Hn Ho Hw Ht Hl. unfold open_wb_write. rewrite Ho.
  rewrite (create_file_tmp_run _ _ _ _ Hn Ht); [|intros t es; congruence].
  rewrite Hw.
  rewrite (create_file_tmp_run _ _ _ _ Hn).
  - f_equal. f_equal. rewrite update_dir_compose. apply update_dir_ext.
    intros es. apply entry_put_put.
  - now rewrite is_dir_tmp_update.
  - intros t es. rewrite (lookup_tmp_put _ _ _ _ Ht), String.eqb_refl.
    discriminate.
Qed.

(** Temp files written and removed again leave the file system as it was. *)
Lemma tmp_scratch_one (r : node) (a : string) (va : node) :
  lookup r ["tmp"; a] = None ->
  update_dir (update_dir r ["tmp"] (entry_put a va)) ["tmp"] (entry_remove a)
  = r.
Proof.
  intros Ha. rewrite update_dir_compose. rewrite lookup_tmp_child in Ha.
  destruct (lookup r ["tmp"]) as [[m d|t es]|] eqn:Ht.
  - destruct r as [m' d'|t' es']; [reflexivity|]. simpl in Ht |- *.
    f_equal. apply entry_map_id. intros x Hx. rewrite Hx in Ht.
    injection Ht as ->. reflexivity.
  - rewrite (update_dir_at _ _ _ _ _ Ht), (entry_remove_put _ _ _ Ha).
    now apply set_entries_same with t.
  - destruct r as [m' d'|t' es']; [reflexivity|]. simpl in Ht |- *.
    f_equal. apply entry_map_id. intros x Hx. now rewrite Hx in Ht.
Qed.

Lemma tmp_scratch_two (r : node) (a b : string) (va vb : node) :
  is_dir_at r ["tmp"] = true ->
  String.eqb a b = false ->
  lookup r ["tmp"; a] = None ->
  lookup r ["tmp"; b] = None ->
  update_dir
    (update_dir
       (update_dir (update_dir r ["tmp"] (entry_put a va)) ["tmp"]
                   (entry_put b vb))
       ["tmp"] (entry_remove a))
    ["tmp"] (entry_remove b)
  = r.
Proof.
  intros Hd Hab Ha Hb. rewrite !update_dir_compose.
  rewrite lookup_tmp_child in Ha, Hb. unfold is_dir_at in Hd.
  destruct (lookup r ["tmp"]) as [[m d|t es]|] eqn:Ht; try discriminate.
  rewrite (update_dir_at _ _ _ _ _ Ht).
  assert (Hba : String.eqb b a = false) by now rewrite String.eqb_sym.
  rewrite (entry_remove_put_other a b vb _ Hba).
  rewrite (entry_remove_put _ _ _ Ha), (entry_remove_put _ _ _ Hb).
  now apply set_entries_same with t.
Qed.

(** X7: when nothing is refused, the download succeeds, [/tmp] is a
    directory in which the two temp paths of the job do not exist, and the
    transcode step fails, [POST /trim] raises the HTTP 500 whose detail is
    the transcoder's failure (its exception's text, or [FFmpeg failed: ]
    followed by its error stream when it exits with a non-zero code), and the
    whole file system is afterwards exactly as it was before the request. *)
Theorem trim_transcode_failure
        (E : env) (request : TrimRequest) (w : world) (e : exn) :
  no_faults E ->
  fetch_error E request = None ->
  transcode_error E request = Some e ->
  is_dir_at (root w) ["tmp"] = true ->
  stat (root w) (job_input E) = None ->
  stat (root w) (job_output E) = None ->
  exists w',
    trim_video E request w = (Raise (HTTPException 500 (str e)), w')
    /\ root w' = root w.
Proof.
  intros Hq Hfe Hte Ht Hin Hout.
  pose proof (input_name_valid (uuid4 E)) as Ha.
  pose proof (output_name_valid (uuid4 E)) as Hb.
  pose proof (input_output_differ (uuid_str (uuid4 E))) as Hab.
  unfold job_input, input_path_of in Hin.
  unfold job_output, output_path_of in Hout.
  rewrite (stat_tmp_child _ _ Ha) in Hin. rewrite (stat_tmp_child _ _ Hb) in Hout.
  set (a := uuid_str (uuid4 E) ++ "_input.mp4") in *.
  set (b := uuid_str (uuid4 E) ++ "_output.mp4") in *.
  assert (Hbody : exists content w1,
             trim_body E request (job_input E) (job_output E) (job_final E)
               (os_path_join VIDEOS_DIR (job_final E)) w = (Raise e, w1)
             /\ (root w1 = update_dir (root w) ["tmp"]
                             (entry_put a (File (time_time E) content))
                 \/ exists data,
                   root w1 = update_dir
                               (update_dir (root w) ["tmp"]
                                  (entry_put a (File (time_time E) content)))
                               ["tmp"] (entry_put b (File (time_time E) data)))).
  { unfold trim_body. rewrite bind_run. unfold print at 1. cbv beta iota.
    rewrite bind_run. unfold requests_get_raise_for_status.
    unfold fetch_error in Hfe.
    destruct (requests_get E (video_url request)) as [e0|st content];
      [discriminate|].
    destruct ((400 <=? st) && (st <? 600))%Z; [discriminate|].
    unfold ret at 1. cbv beta iota. exists content.
    rewrite bind_run. unfold job_input, input_path_of. fold a.
    rewrite (open_wb_write_run E a content _ Ha (Hq _ _) (Hq _ _));
      [|exact Ht|exact Hin].
    cbn [root stdout with_root].
    rewrite bind_run. unfold print at 1. cbv beta iota.
    rewrite bind_run. unfold print at 1. cbv beta iota.
    rewrite bind_run. cbn [root stdout].
    unfold transcode_error, trim_cmd, job_input, job_output, input_path_of,
      output_path_of in Hte. fold a b in Hte. cbv zeta in Hte.
    unfold job_output, output_path_of. fold b.
    unfold subprocess_run. cbn [ff_output root with_root stdout].
    match type of Hte with match ?f with _ => _ end = _ =>
      destruct f as [e0 wr|rc err wr] eqn:Hff end.
    - injection Hte as ->.
      destruct wr as [data|]; [|eexists; split; [reflexivity | now left]].
      rewrite (create_file_tmp_run _ b _ _ Hb).
      + eexists. split; [reflexivity|]. right. now exists data.
      + now rewrite is_dir_tmp_update.
      + intros t es. rewrite (lookup_tmp_put _ _ _ _ Ht), Hab, Hout. discriminate.
    - destruct (negb (rc =? 0)%Z) eqn:Hrc; [|discriminate].
      injection Hte as <-.
      destruct wr as [data|].
      + rewrite (create_file_tmp_run _ b _ _ Hb).
        * rewrite bind_run. cbn [fst snd]. rewrite Hrc. unfold raise at 1.
          eexists. split; [reflexivity|]. right. now exists data.
        * now rewrite is_dir_tmp_update.
        * intros t es. rewrite (lookup_tmp_put _ _ _ _ Ht), Hab, Hout.
          discriminate.
      + rewrite bind_run. cbn [fst snd]. rewrite Hrc. unfold raise at 1.
        eexists. split; [reflexivity | now left]. }
  destruct Hbody as (content & w1 & Hbody & Hroot).
  rewrite (trim_video_raise_inv E request w e w1 Hbody), trim_except_run.
  unfold job_input, job_output, input_path_of, output_path_of, job_id.
  fold a b.
  assert (Hla : lookup (root (log_error w1 e)) ["tmp"; a]
                = Some (File (time_time E) content)).
  { cbn [root log_error]. destruct Hroot as [-> |[data ->]].
    - now rewrite (lookup_tmp_put _ _ _ _ Ht), String.eqb_refl.
    - rewrite lookup_tmp_put; [|now rewrite is_dir_tmp_update].
      rewrite String.eqb_sym, Hab.
      now rewrite (lookup_tmp_put _ _ _ _ Ht), String.eqb_refl. }
  rewrite (guarded_remove_file E a _ _ _ Ha (Hq _ _) (Hq _ _) Hla).
  cbn [root log_error with_root].
  destruct Hroot as [Hr|[data Hr]]; rewrite Hr.
  - rewrite (guarded_remove_absent E b _ Hb).
    + eexists. split; [reflexivity|]. cbn [root].
      now apply tmp_scratch_one.
    + cbn [root with_root log_error]. rewrite (tmp_scratch_one _ _ _ Hin).
      exact Hout.
  - erewrite (guarded_remove_file E b _ _ _ Hb (Hq _ _) (Hq _ _)).
    + eexists. split; [reflexivity|]. cbn [root with_root].
      now apply tmp_scratch_two.
    + cbn [root with_root log_error]. rewrite lookup_tmp_remove, Hab.
      rewrite lookup_tmp_put; [|now rewrite is_dir_tmp_update].
      now rewrite String.eqb_refl.
Qed.

Lemma trim_transcode_failure_witness :
  exists w',
    trim_video ex_env_ffmpeg_fails ex_request ex_world
    = (Raise (HTTPException 500 (str (PyException "FFmpeg failed: boom"))), w')
    /\ root w' = root ex_world.
Proof.
  apply (trim_transcode_failure ex_env_ffmpeg_fails ex_request ex_world
           (PyException "FFmpeg failed: boom")); try reflexivity.
  intros c p. reflexivity.
Defined.

(* ===================================================================== *)
(** * A stored video, from the trim to its retrieval *)
(* ===================================================================== *)

(** The object a successful request stores is the transcoder's output, with
    the time it was written. *)
Lemma trim_video_ok_stored (E : env) (request : TrimRequest) (w w' : world)
      (resp : TrimResponse) (es : entries_t) (rc : Z) (err data : string) :
  storage (root w) = Some es -> assoc (job_final E) es = None ->
  ffmpeg E (trim_cmd request (job_input E) (job_output E))
  = RunCompleted rc err (Some data) ->
  trim_video E request w = (Ok resp, w') ->
  storage (root w')
  = Some (es ++ [(job_final E, File (time_time E) data)])%list.
Proof.
  intros Hs Hfresh Hff Hrun. apply trim_video_ok_inv in Hrun.
  pose proof (input_name_valid (uuid4 E)) as Ha.
  pose proof (output_name_valid (uuid4 E)) as Hb.
  unfold trim_body in Hrun. rename Hrun into H.
  apply bind_ok_inv in H as (u0 & w0 & H0 & H). apply print_run in H0 as [_ R0].
  apply bind_ok_inv in H as (content & w1 & H1 & H).
  apply requests_run in H1 as [-> _].
  apply bind_ok_inv in H as (u2 & w2 & H2 & H).
  apply (open_wb_write_tmp E _ _ _ _ _ Ha) in H2.
  apply bind_ok_inv in H as (u3 & w3 & H3 & H). apply print_run in H3 as [_ R3].
  apply bind_ok_inv in H as (u4 & w4 & H4 & H). apply print_run in H4 as [_ R4].
  apply bind_ok_inv in H as (result & w5 & H5 & H).
  pose proof (subprocess_run_tmp E (trim_cmd request (job_input E) (job_output E))
                (uuid_str (uuid4 E) ++ "_output.mp4") _ _ _ Hb eq_refl H5)
    as [T5 _].
  apply bind_ok_inv in H as (u6 & w6 & H6 & H).
  assert (w6 = w5) as ->.
  { destruct (negb (fst result =? 0)%Z); [discriminate|].
    unfold ret in H6. now injection H6 as _ <-. }
  clear H6.
  assert (Hs5 : storage (root w5) = Some es).
  { rewrite <- Hs. apply storage_tmp_only. rewrite <- R0.
    apply tmp_only_trans with (root w2); [exact H2|].
    rewrite <- R3, <- R4. exact T5. }
  apply bind_ok_inv in H as (u7 & w7 & H7 & H).
  apply (shutil_move_ok E _ _ _ _ _ es Hb (final_name_valid (uuid4 E))
           Hs5 Hfresh) in H7 as (m & d & Hl & Hs7 & _).
  assert (Hmd : File m d = File (time_time E) data).
  { change (subprocess_run E (trim_cmd request (job_input E) (job_output E)) w4
            = (Ok result, w5)) in H5.
    unfold subprocess_run in H5. rewrite Hff in H5.
    cbn [ff_output trim_cmd] in H5. unfold job_output, output_path_of in H5.
    destruct (create_file (root w4)
                ("/tmp/" ++ job_id E ++ "_output.mp4") (time_time E) data)
      as [r'|] eqn:Hc.
    - injection H5 as _ <-. cbn [root with_root] in Hl.
      apply (create_file_tmp _ _ _ _ _ Hb) in Hc as [Ht ->].
      rewrite (lookup_tmp_put _ _ _ _ Ht), String.eqb_refl in Hl.
      now injection Hl as <- <-.
    - injection H5 as _ <-. exfalso.
      rewrite (create_file_tmp_run _ _ _ _ Hb) in Hc; [discriminate| |].
      + unfold is_dir_at. rewrite lookup_tmp_child in Hl.
        destruct (lookup (root w4) ["tmp"]) as [[? ?|? ?]|]; congruence.
      + intros t es0 Hd. unfold job_id in Hl. congruence. }
  injection Hmd as -> ->.
  apply bind_ok_inv in H as (u8 & w8 & H8 & H). apply print_run in H8 as [_ R8].
  apply bind_ok_inv in H as (u9 & w9 & H9 & H).
  apply (os_remove_tmp E _ _ _ _ Ha) in H9. cbv beta iota in H9. subst w9.
  apply bind_ok_inv in H as (u10 & w10 & H10 & H).
  apply print_run in H10 as [_ R10]. cbn [root with_root] in R10.
  unfold ret in H. injection H as _ <-.
  rewrite R10, (storage_tmp_only _ _ (tmp_only_update _ _)).
  now rewrite R8.
Qed.

(** X8: the round trip of a stored video.  After a [POST /trim] that
    returns its success payload (fresh job identifier, the transcoder having
    written its output), the URL in the payload ends in the job's final
    name, and [GET /video/] of that name, when [stat] is not refused,
    answers with exactly the bytes the transcoder wrote. *)
Theorem trim_then_serve
        (E E2 : env) (request : TrimRequest) (w w' : world)
        (resp : TrimResponse) (es : entries_t) (rc : Z) (err data : string) :
  storage (root w) = Some es ->
  assoc (job_final E) es = None ->
  ffmpeg E (trim_cmd request (job_input E) (job_output E))
  = RunCompleted rc err (Some data) ->
  trim_video E request w = (Ok resp, w') ->
  faults E2 SysStat (stored_path (job_final E)) = false ->
  resp_video_url resp = public_base ++ job_final E
  /\ serve_video E2 (job_final E) w'
     = (Ok (FileResponse (stored_path (job_final E)) "video/mp4"), w')
  /\ response_body w' (FileResponse (stored_path (job_final E)) "video/mp4")
     = Some data.
Proof.
  intros Hs Hfresh Hff Hrun Hf.
  pose proof (trim_video_ok_stored E request w w' resp es rc err data
                Hs Hfresh Hff Hrun) as Hs'.
  apply trim_video_ok_inv in Hrun.
  destruct (trim_body_ok E request w w' resp es Hs Hfresh Hrun)
    as (_ & _ & _ & ->).
  split; [reflexivity|].
  pose proof (storage_child_stat (root w') _ (job_final E)
                (final_name_valid (uuid4 E)) Hs') as Hst.
  fold (stored_path (job_final E)) in Hst.
  rewrite assoc_app, Hfresh in Hst. cbn [assoc] in Hst.
  rewrite String.eqb_refl in Hst.
  unfold serve_video, response_body. rewrite bind_run. unfold os_path_exists.
  fold (stored_path (job_final E)). rewrite Hf, Hst. cbn [negb]. auto.
Qed.

Lemma trim_then_serve_witness :
  resp_video_url
    {| success := true;
       resp_video_url := public_base ++ job_final ex_env;
       message := "Video trimmed and hosted successfully" |}
  = public_base ++ job_final ex_env
  /\ serve_video ex_env (job_final ex_env)
       (snd (trim_video ex_env ex_request ex_world))
     = (Ok (FileResponse (stored_path (job_final ex_env)) "video/mp4"),
        snd (trim_video ex_env ex_request ex_world))
  /\ response_body (snd (trim_video ex_env ex_request ex_world))
       (FileResponse (stored_path (job_final ex_env)) "video/mp4")
     = Some "trimmed".
Proof.
  apply (trim_then_serve ex_env ex_env ex_request ex_world _ _
           [("a.mp4", File 0 "A"); ("b.mp4", File 9000 "B")] 0 "" "trimmed");
    vm_compute; reflexivity.
Defined.

(* ===================================================================== *)
(** * What a trim request can touch, however it ends *)
(* ===================================================================== *)

Lemma hoare_bind {A B : Type} (P Q R : node -> Prop) (m : M A) (k : A -> M B) :
  hoare P m Q -> (forall r, Q r -> R r) -> (forall a, hoare Q (k a) R) ->
  hoare P (bind m k) R.
Proof.
  intros Hm HQR Hk w res w' HP. rewrite bind_run.
  destruct (m w) as [[a|e] w1] eqn:Hmw.
  - intros Hrun. exact (Hk a w1 res w' (Hm w _ w1 HP Hmw) Hrun).
  - intros [= _ <-]. apply HQR. exact (Hm w _ w1 HP Hmw).
Qed.

Lemma hoare_try {A : Type} (P Q R : node -> Prop) (m : M A) (h : exn -> M A) :
  hoare P m Q -> (forall r, Q r -> R r) -> (forall e, hoare Q (h e) R) ->
  hoare P (try_except m h) R.
Proof.
  intros Hm HQR Hh w res w' HP. unfold try_except.
  destruct (m w) as [[a|e] w1] eqn:Hmw.
  - intros [= _ <-]. apply HQR. exact (Hm w _ w1 HP Hmw).
  - intros Hrun. exact (Hh e w1 res w' (Hm w _ w1 HP Hmw) Hrun).
Qed.

Lemma hoare_only_tmp {A : Type} (P : node -> Prop) (m : M A) :
  tmp_closed P -> only_tmp m -> hoare P m P.
Proof. intros HP Hm w res w' Hw Hrun. exact (HP _ _ Hw (Hm w res w' Hrun)). Qed.

Lemma only_tmp_bind {A B : Type} (m : M A) (k : A -> M B) :
  only_tmp m -> (forall a, only_tmp (k a)) -> only_tmp (bind m k).
Proof.
  intros Hm Hk w res w'. rewrite bind_run.
  destruct (m w) as [[a|e] w1] eqn:Hmw.
  - intros Hrun. apply tmp_only_trans with (root w1).
    + exact (Hm w _ w1 Hmw).
    + exact (Hk a w1 res w' Hrun).
  - intros [= _ <-]. exact (Hm w _ w1 Hmw).
Qed.

Lemma only_tmp_ret {A : Type} (a : A) : only_tmp (ret a).
Proof. intros w res w' [= _ <-]. apply tmp_only_refl. Qed.

Lemma only_tmp_raise {A : Type} (e : exn) : only_tmp (@raise A e).
Proof. intros w res w' [= _ <-]. apply tmp_only_refl. Qed.

Lemma only_tmp_print (ev : event) : only_tmp (print ev).
Proof.
  intros w res w' H. apply print_run in H as [_ ->]. apply tmp_only_refl.
Qed.

Lemma only_tmp_requests (E : env) (url : string) :
  only_tmp (requests_get_raise_for_status E url).
Proof.
  intros w res w' H. apply requests_run in H as [-> _]. apply tmp_only_refl.
Qed.

Lemma only_tmp_os_remove (E : env) (n : string) :
  valid_name n = true -> only_tmp (os_remove E ("/tmp/" ++ n)).
Proof.
  intros Hn w res w' H. apply (os_remove_tmp E n w res w' Hn) in H.
  destruct res as [u|e].
  - subst w'. apply tmp_only_update.
  - destruct H as [_ ->]. apply tmp_only_refl.
Qed.

Lemma only_tmp_trim_except (E : env) (e : exn) :
  only_tmp (trim_except E (job_input E) (job_output E) e).
Proof.
  intros w res w' H.
  now apply (trim_except_spec E _ _ e w res w' (input_name_valid (uuid4 E))
               (output_name_valid (uuid4 E))) in H as [H _].
Qed.

(** An update below [/app] reads the same from two file systems that agree
    outside [/tmp]. *)
Lemma lookup_update_dir_head (c : string) (p q : list string) (r : node)
      (g : entries_t -> entries_t) :
  lookup (update_dir r (c :: p) g) (c :: q)
  = match lookup r [c] with
    | Some m => lookup (update_dir m p g) q
    | None => None
    end.
Proof.
  destruct r as [m d|t es]; simpl; [reflexivity|].
  rewrite assoc_entry_map, String.eqb_refl.
  destruct (assoc c es); reflexivity.
Qed.

Lemma tmp_only_update_videos (r0 r : node) (g : entries_t -> entries_t) :
  tmp_only r0 r ->
  tmp_only (update_dir r0 videos_path g) (update_dir r videos_path g).
Proof.
  intros H c q Hc. unfold videos_path.
  destruct (String.eqb_spec "app" c) as [<-|Hac].
  - rewrite !lookup_update_dir_head. now rewrite (H "app" [] Hc).
  - rewrite !(lookup_update_dir_other "app" c _ _ _ _ Hac). now apply H.
Qed.

(** Whatever way the copy ends, it has changed at most the final entry. *)
Lemma shutil_copy2_any (E : env) (b f : string) (w : world)
      (res : result unit) (w' : world) :
  valid_name f = true ->
  shutil_copy2 E ("/tmp/" ++ b) (stored_path f) w = (res, w') ->
  root w' = root w
  \/ exists v, root w' = update_dir (root w) videos_path (entry_put f v).
Proof.
  intros Hf. unfold shutil_copy2, stored_path.
  destruct (if faults E SysOpen ("/tmp/" ++ b) then None
            else stat (root w) ("/tmp/" ++ b)) as [[m d|? ?]|];
    try (intros [= _ <-]; now left).
  destruct (faults E SysOpen (os_path_join VIDEOS_DIR f));
    [intros [= _ <-]; now left|].
  destruct (create_file (root w) (os_path_join VIDEOS_DIR f) (time_time E) "")
    as [r1|] eqn:H1; [|intros [= _ <-]; now left].
  apply (create_file_videos _ _ _ _ _ Hf) in H1 as ->.
  destruct (faults E SysWrite (os_path_join VIDEOS_DIR f)).
  { intros [= _ <-]. right. eexists. reflexivity. }
  match goal with |- context [create_file ?r ?p ?m ?d] =>
    destruct (create_file r p m d) as [r2|] eqn:H2 end.
  - apply (create_file_videos _ _ _ _ _ Hf) in H2 as ->.
    intros [= _ <-]. right. exists (File m d). cbn [root with_root].
    rewrite update_dir_compose. apply update_dir_ext.
    intros es. apply entry_put_put.
  - intros [= _ <-]. right. eexists. reflexivity.
Qed.

(** Whatever way the move to a fresh final name ends, the file system
    afterwards differs from the one before, or from the one before with the
    final entry put, under [/tmp] only. *)
Lemma shutil_move_any (E : env) (b f : string) (w : world)
      (res : result unit) (w' : world) (es : entries_t) :
  valid_name b = true -> valid_name f = true ->
  storage (root w) = Some es -> assoc f es = None ->
  shutil_move E ("/tmp/" ++ b) (stored_path f) w = (res, w') ->
  tmp_only (root w) (root w')
  \/ exists v,
      tmp_only (update_dir (root w) videos_path (entry_put f v)) (root w').
Proof.
  intros Hb Hf Hs Hfresh. unfold shutil_move, stored_path.
  rewrite bind_run. unfold os_path_isdir at 1. cbv beta iota.
  rewrite (storage_child_stat _ _ _ Hf Hs), Hfresh.
  assert ((if faults E SysStat (os_path_join VIDEOS_DIR f) then false else false)
          = false) as -> by now destruct (faults E SysStat _).
  rewrite bind_run. unfold ret at 1. cbv beta iota.
  unfold try_except.
  destruct (os_rename E ("/tmp/" ++ b) (os_path_join VIDEOS_DIR f) w)
    as [[[]|e] w1] eqn:Hren.
  - intros [= _ <-]. unfold os_rename in Hren.
    destruct (faults E SysRename ("/tmp/" ++ b)); [discriminate|].
    destruct (rename (root w) ("/tmp/" ++ b) (os_path_join VIDEOS_DIR f))
      as [r'|] eqn:Hr; [|discriminate].
    injection Hren as <-.
    apply (rename_tmp_videos _ _ _ _ Hb Hf) in Hr as (m & d & _ & ->).
    right. exists (File m d). cbn [root with_root]. apply tmp_only_update.
  - apply os_rename_raises in Hren as ->. rewrite bind_run.
    destruct (shutil_copy2 E ("/tmp/" ++ b) (os_path_join VIDEOS_DIR f) w)
      as [[[]|e1] w2] eqn:Hcp.
    + intros Hrm. apply (only_tmp_os_remove E b Hb) in Hrm.
      apply (shutil_copy2_any E b f w _ _ Hf) in Hcp as [Hc|[v Hc]].
      * left. now rewrite <- Hc.
      * right. exists v. now rewrite <- Hc.
    + intros [= _ <-].
      apply (shutil_copy2_any E b f w _ _ Hf) in Hcp as [Hc|[v Hc]].
      * left. rewrite Hc. apply tmp_only_refl.
      * right. exists v. rewrite Hc. apply tmp_only_refl.
Qed.

(** The request as a whole, for two properties of file systems that changes
    under [/tmp] cannot break, the first implying the second: if the move
    takes the first to the second, so does the request, however it ends. *)
Lemma trim_video_hoare (E : env) (request : TrimRequest) (I J : node -> Prop) :
  tmp_closed I -> tmp_closed J -> (forall r, I r -> J r) ->
  hoare I (shutil_move E (job_output E) (stored_path (job_final E))) J ->
  hoare I (trim_video E request) J.
Proof.
  intros HI HJ HIJ Hmove.
  pose proof (input_name_valid (uuid4 E)) as Ha.
  pose proof (output_name_valid (uuid4 E)) as Hb.
  unfold trim_video. cbv zeta.
  apply hoare_try with (Q := J); [|auto|].
  2:{ intros e. apply hoare_only_tmp; [exact HJ|].
      apply (only_tmp_trim_except E e). }
  unfold trim_body.
  apply hoare_bind with (Q := I); [|exact HIJ|intros _].
  { apply hoare_only_tmp; [exact HI | apply only_tmp_print]. }
  apply hoare_bind with (Q := I); [|exact HIJ|intros content].
  { apply hoare_only_tmp; [exact HI | apply only_tmp_requests]. }
  apply hoare_bind with (Q := I); [|exact HIJ|intros _].
  { apply hoare_only_tmp; [exact HI|]. intros w res w' H.
    exact (open_wb_write_tmp E _ _ _ _ _ Ha H). }
  apply hoare_bind with (Q := I); [|exact HIJ|intros _].
  { apply hoare_only_tmp; [exact HI | apply only_tmp_print]. }
  apply hoare_bind with (Q := I); [|exact HIJ|intros _].
  { apply hoare_only_tmp; [exact HI | apply only_tmp_print]. }
  apply hoare_bind with (Q := I); [|exact HIJ|intros result].
  { apply hoare_only_tmp; [exact HI|]. intros w res w' H.
    exact (proj1 (subprocess_run_tmp E
                    (trim_cmd request (job_input E) (job_output E))
                    (uuid_str (uuid4 E) ++ "_output.mp4") _ _ _ Hb eq_refl H)). }
  apply hoare_bind with (Q := I); [|exact HIJ|intros _].
  { apply hoare_only_tmp; [exact HI|].
    destruct (negb (fst result =? 0)%Z);
      [apply only_tmp_raise | apply only_tmp_ret]. }
  apply hoare_bind with (Q := J); [exact Hmove|auto|intros _].
  apply hoare_only_tmp; [exact HJ|].
  apply only_tmp_bind; [apply only_tmp_print|intros _].
  apply only_tmp_bind; [exact (only_tmp_os_remove E _ Ha)|intros _].
  apply only_tmp_bind; [apply only_tmp_print|intros _].
  apply only_tmp_ret.
Qed.

(** X10: however a [POST /trim] under a fresh job identifier ends (success,
    HTTP 500, or an error of the cleanup), every entry the Storage Directory
    had is still there, unchanged and in the same order, at most one entry
    has been added, under the job's final name, and nothing outside [/tmp]
    and [/app] has changed. *)
Theorem trim_video_confined
        (E : env) (request : TrimRequest) (w : world) (es : entries_t)
        (res : result TrimResponse) (w' : world) :
  storage (root w) = Some es ->
  assoc (job_final E) es = None ->
  trim_video E request w = (res, w') ->
  (storage (root w') = Some es
   \/ exists v, storage (root w') = Some (es ++ [(job_final E, v)])%list)
  /\ (forall c q, c <> "tmp" -> c <> "app" ->
                  lookup (root w') (c :: q) = lookup (root w) (c :: q)).
Proof.
  intros Hs Hfresh Hrun.
  set (I := fun r => tmp_only (root w) r).
  set (J := fun r =>
              tmp_only (root w) r
              \/ exists v,
                tmp_only (update_dir (root w) videos_path
                            (entry_put (job_final E) v)) r).
  assert (HI : tmp_closed I).
  { intros r r' H1 H2. exact (tmp_only_trans _ _ _ H1 H2). }
  assert (HJ : tmp_closed J).
  { intros r r' [H1|[v H1]] H2.
    - left. exact (tmp_only_trans _ _ _ H1 H2).
    - right. exists v. exact (tmp_only_trans _ _ _ H1 H2). }
  assert (Hmove : hoare I (shutil_move E (job_output E)
                             (stored_path (job_final E))) J).
  { intros w1 r1 w2 H1 Hm. unfold I in H1.
    assert (Hs1 : storage (root w1) = Some es).
    { now rewrite (storage_tmp_only _ _ H1). }
    apply (shutil_move_any E _ _ w1 r1 w2 es (output_name_valid (uuid4 E))
             (final_name_valid (uuid4 E)) Hs1 Hfresh) in Hm as [Hm|[v Hm]].
    - left. exact (tmp_only_trans _ _ _ H1 Hm).
    - right. exists v.
      apply tmp_only_trans with
        (update_dir (root w1) videos_path (entry_put (job_final E) v));
        [|exact Hm].
      now apply tmp_only_update_videos. }
  pose proof (trim_video_hoare E request I J HI HJ (fun r H => or_introl H)
                Hmove w res w' (tmp_only_refl _) Hrun) as [H|[v H]].
  - split.
    + left. now rewrite (storage_tmp_only _ _ H).
    + intros c q Hc _. now apply H.
  - split.
    + right. exists v. rewrite (storage_tmp_only _ _ H).
      rewrite (storage_update_videos _ _ _ Hs).
      now rewrite (entry_put_fresh _ _ _ Hfresh).
    + intros c q Hc Hca. rewrite (H c q Hc). unfold videos_path.
      apply lookup_update_dir_other. congruence.
Qed.

Lemma trim_video_confined_witness :
  (storage (root (snd (trim_video ex_env_ffmpeg_fails_stuck ex_request ex_world)))
   = Some [("a.mp4", File 0 "A"); ("b.mp4", File 9000 "B")]
   \/ exists v,
      storage (root (snd (trim_video ex_env_ffmpeg_fails_stuck ex_request
                            ex_world)))
      = Some ([("a.mp4", File 0 "A"); ("b.mp4", File 9000 "B")]
              ++ [(job_final ex_env_ffmpeg_fails_stuck, v)])%list)
  /\ (forall c q, c <> "tmp" -> c <> "app" ->
                  lookup (root (snd (trim_video ex_env_ffmpeg_fails_stuck
                                       ex_request ex_world))) (c :: q)
                  = lookup (root ex_world) (c :: q)).
Proof.
  apply (trim_video_confined ex_env_ffmpeg_fails_stuck ex_request ex_world
           [("a.mp4", File 0 "A"); ("b.mp4", File 9000 "B")]
           (fst (trim_video ex_env_ffmpeg_fails_stuck ex_request ex_world))).
  - reflexivity.
  - vm_compute. reflexivity.
  - vm_compute. reflexivity.
Defined.

(* ===================================================================== *)
(** * Further compositions and limits *)
(* ===================================================================== *)

Lemma filter_filter_absorb {A : Type} (P Q : A -> bool) (l : list A) :
  (forall x, In x l -> Q x = true -> P x = true) ->
  filter Q (filter P l) = filter Q l.
Proof.
  induction l as [|x l IH]; simpl; intros H; [reflexivity|].
  assert (IH' := IH (fun y Hy => H y (or_intror Hy))).
  destruct (P x) eqn:HP; simpl.
  - now rewrite IH'.
  - destruct (Q x) eqn:HQ; [|exact IH'].
    rewrite (H x (or_introl eq_refl) HQ) in HP. discriminate.
Qed.

(** X12: passes of the sweep compose.  With nothing refused, and a clock
    that does not bring an expired file back (what the first pass's clock
    calls expired the second one's does too), two passes in a row leave the
    file system as the second pass alone would have. *)
Theorem sweep_twice_as_later
        (E1 E2 : env) (w : world) (t : float) (es : entries_t) :
  no_faults E1 -> no_faults E2 ->
  lookup (root w) videos_path = Some (Dir t es) ->
  wf_entries es ->
  (forall kv, In kv es -> expired (time_time E1) (snd kv) = true ->
              expired (time_time E2) (snd kv) = true) ->
  root (snd (cleanup_old_videos E2 (snd (cleanup_old_videos E1 w))))
  = root (snd (cleanup_old_videos E2 w)).
Proof.
  intros Hq1 Hq2 Hdir Hwf Hmono.
  assert (Hfilter : forall E, no_faults E ->
             sweep_entries E (time_time E) es
             = filter (fun kv => negb (expired (time_time E) (snd kv))) es).
  { intros E Hq. rewrite sweep_entries_no_refusal; [|intros kv _ _; apply Hq].
    apply filter_ext. intros kv. unfold selected. now rewrite (Hq SysStat). }
  pose proof (cleanup_old_videos_root E1 w t es Hdir Hwf) as H1.
  rewrite (Hq1 SysListdir) in H1.
  assert (Hdir1 : lookup (root (snd (cleanup_old_videos E1 w))) videos_path
                  = Some (Dir t (sweep_entries E1 (time_time E1) es))).
  { rewrite H1. unfold set_entries. now rewrite lookup_update_dir_same, Hdir. }
  rewrite (cleanup_old_videos_root E2 _ t _ Hdir1
             (sweep_entries_wf E1 (time_time E1) es Hwf)), (Hq2 SysListdir).
  rewrite (cleanup_old_videos_root E2 w t es Hdir Hwf), (Hq2 SysListdir).
  rewrite H1, set_entries_twice. f_equal.
  rewrite sweep_entries_no_refusal; [|intros kv _ _; apply Hq2].
  rewrite (Hfilter E1 Hq1), (Hfilter E2 Hq2).
  rewrite filter_filter_absorb.
  - apply filter_ext. intros kv. unfold selected. now rewrite (Hq2 SysStat).
  - intros kv Hin Hsel.
    destruct (expired (time_time E1) (snd kv)) eqn:Hex; [|reflexivity].
    unfold selected in Hsel. rewrite (Hq2 SysStat) in Hsel.
    cbn [negb andb] in Hsel. rewrite (Hmono kv Hin Hex) in Hsel. discriminate.
Qed.

Lemma sweep_twice_as_later_witness :
  root (snd (cleanup_old_videos ex_env_later
               (snd (cleanup_old_videos ex_env ex_world))))
  = root (snd (cleanup_old_videos ex_env_later ex_world)).
Proof.
  apply (sweep_twice_as_later ex_env ex_env_later ex_world 0
           [("a.mp4", File 0 "A"); ("b.mp4", File 9000 "B")]).
  - intros c p. reflexivity.
  - intros c p. reflexivity.
  - reflexivity.
  - split.
    + repeat constructor.
    + repeat constructor; simpl; intuition discriminate.
  - intros kv [<-|[<-|[]]]; vm_compute; trivial.
Defined.

(** X13: [POST /trim] never reports success after a failure: whenever it
    returns a payload, the download had succeeded with a status outside
    400..599 and the transcoder had completed with exit code 0, and the
    payload is the success payload whose URL ends in the job's final name. *)
Theorem trim_success_means_no_failure
        (E : env) (request : TrimRequest) (w w' : world)
        (resp : TrimResponse) :
  trim_video E request w = (Ok resp, w') ->
  fetch_error E request = None
  /\ transcode_error E request = None
  /\ resp = {| success := true;
               resp_video_url := public_base ++ job_final E;
               message := "Video trimmed and hosted successfully" |}.
Proof.
  intros Hrun. apply trim_video_ok_inv in Hrun.
  assert (Hno : ~ (fetch_fails E request \/ transcode_fails E request)).
  { intros Hfail.
    destruct (trim_body_fails E request w Hfail) as (e & w1 & Hb & _).
    rewrite Hb in Hrun. discriminate. }
  split; [|split].
  - unfold fetch_error. unfold fetch_fails in Hno.
    destruct (requests_get E (video_url request)) as [e|st c]; [tauto|].
    destruct (Z.leb_spec 400 st), (Z.ltb_spec st 600); simpl; trivial.
    exfalso. apply Hno. left. lia.
  - unfold transcode_error. unfold transcode_fails in Hno. cbv zeta in Hno.
    fold (job_id E) in Hno. fold (job_input E) in Hno.
    fold (job_output E) in Hno.
    destruct (ffmpeg E (trim_cmd request (job_input E) (job_output E)))
      as [e wr|rc err wr]; [tauto|].
    destruct (Z.eqb_spec rc 0) as [->|Hrc]; [reflexivity|]. tauto.
  - unfold trim_body in Hrun.
    repeat (apply bind_ok_inv in Hrun as (? & ? & _ & Hrun)).
    unfold ret in Hrun. now injection Hrun as <- _.
Qed.

Lemma trim_success_means_no_failure_witness :
  fetch_error ex_env ex_request = None
  /\ transcode_error ex_env ex_request = None.
Proof.
  destruct (trim_success_means_no_failure ex_env ex_request ex_world
              (snd (trim_video ex_env ex_request ex_world))
              {| success := true;
                 resp_video_url := public_base ++ job_final ex_env;
                 message := "Video trimmed and hosted successfully" |})
    as (H1 & H2 & _).
  - vm_compute. reflexivity.
  - split; assumption.
Defined.
